(** * KieshStockExchange: the AI-user generator (Tools/Person.py,
      Tools/GenerateAIUsers.py, Tools/ExcelLayout.py)

    A shallow embedding of the persona generator, of the batch driver and
    of the sheet layout.

    Conventions of the embedding.
    - Python floats are idealised as exact rationals ([Q]): an operation
      gives its exact result. The prices of the catalog are the doubles
      that their literals denote. [int] values are [Z].
    - Of openpyxl, a workbook is the list of its titled worksheets;
      [str.lower] and the count that is appended to a title that is taken
      are parameters.
    - [random.random()] is an oracle: the n-th call returns the n-th entry
      of a tape of rationals in [0,1). [uniform], [randint], [choice] and
      [sample] follow CPython's [random] module, every integer below a
      bound taking one entry of the tape.
    - [x ** y] on floats has no rational counterpart; it is the section
      variable [pow].
    - [faker] is an oracle too: each method is a stream of results;
      [user_name()] reads its stream by a call counter of its own, the
      other methods by a shared one.
    - The class attributes [Person.idx] and [Person.usernames] live in the
      [World], which every operation threads.
    - [str] values are [string]s whose characters are the code points
      U+0000..U+00FF. *)

From Stdlib Require Import ZArith QArith Qround Qabs Lia Lqa List String Ascii Bool.
From stdpp Require Import gmap strings list sorting pretty.

Local Open Scope Z_scope.

(** ** The random source *)

Definition in_unit (q : Q) : bool := Qle_bool 0 q && negb (Qle_bool 1 q).

(** One value of [random.random()]: a float in [0.0, 1.0). *)
Record draw := Draw { dr_val : Q; dr_ok : in_unit dr_val = true }.

Definition draw0 : draw := Draw 0 eq_refl.

(** The draw with value [q], or the draw 0 when [q] is outside [0,1). *)
Definition draw_of (q : Q) : draw :=
  match Sumbool.sumbool_of_bool (in_unit q) with
  | left H => Draw q H
  | right _ => draw0
  end.

(** A tape that starts with the values of [l] and is 0 afterwards. *)
Definition tape_of (l : list Q) : nat -> draw :=
  fun n => draw_of (nth n l 0%Q).

(** ** faker *)

(** Each method is a stream of results; [fake.user_name()] has a call
    counter of its own, the other methods share one. *)
Record Faker := {
  fk_user_name : nat -> string;          (* fake.user_name() *)
  fk_name : nat -> string;               (* fake.name() *)
  fk_free_email_domain : nat -> string;  (* fake.free_email_domain() *)
  fk_date_of_birth : nat -> Z            (* fake.date_of_birth(18, 80), as a day number *)
}.

(** ** The world: what the module keeps between calls *)

Record World := {
  rng_pos : nat;                   (* values of random.random() consumed so far *)
  user_name_pos : nat;             (* calls of fake.user_name() so far *)
  fake_pos : nat;                  (* other calls of faker so far *)
  Person_idx : Z;                  (* Person.idx *)
  Person_usernames : gset string   (* Person.usernames *)
}.

Definition tick_rng (w : World) : World :=
  {| rng_pos := S (rng_pos w); user_name_pos := user_name_pos w;
     fake_pos := fake_pos w;
     Person_idx := Person_idx w; Person_usernames := Person_usernames w |}.

Definition tick_user_name (w : World) : World :=
  {| rng_pos := rng_pos w; user_name_pos := S (user_name_pos w);
     fake_pos := fake_pos w;
     Person_idx := Person_idx w; Person_usernames := Person_usernames w |}.

Definition tick_fake (w : World) : World :=
  {| rng_pos := rng_pos w; user_name_pos := user_name_pos w;
     fake_pos := S (fake_pos w);
     Person_idx := Person_idx w; Person_usernames := Person_usernames w |}.

Definition set_idx (i : Z) (w : World) : World :=
  {| rng_pos := rng_pos w; user_name_pos := user_name_pos w;
     fake_pos := fake_pos w;
     Person_idx := i; Person_usernames := Person_usernames w |}.

Definition add_username (s : string) (w : World) : World :=
  {| rng_pos := rng_pos w; user_name_pos := user_name_pos w;
     fake_pos := fake_pos w;
     Person_idx := Person_idx w; Person_usernames := {[ s ]} ∪ Person_usernames w |}.

Definition clear_usernames (w : World) : World :=
  {| rng_pos := rng_pos w; user_name_pos := user_name_pos w;
     fake_pos := fake_pos w;
     Person_idx := Person_idx w; Person_usernames := ∅ |}.

Definition world0 : World :=
  {| rng_pos := 0; user_name_pos := 0; fake_pos := 0;
     Person_idx := 1; Person_usernames := ∅ |}.

(** ** Outcomes and the monad of the generator *)

Inductive Exn := ValueError | IndexError | KeyError | ZeroDivisionError.

(** [Ok a w]: returned [a] in world [w]; [Raise e]: raised; [Spin]: the
    attempt budget of a [while True] loop ran out with the loop still
    running. *)
Inductive Res (A : Type) :=
| Ok (a : A) (w : World)
| Raise (e : Exn)
| Spin.
Arguments Ok {A} a w.
Arguments Raise {A} e.
Arguments Spin {A}.

Definition M (A : Type) := World -> Res A.

Definition ret {A} (a : A) : M A := fun w => Ok a w.
Definition raise {A} (e : Exn) : M A := fun _ => Raise e.
Definition bind {A B} (m : M A) (k : A -> M B) : M B :=
  fun w => match m w with
           | Ok a w' => k a w'
           | Raise e => Raise e
           | Spin => Spin
           end.

Notation "'let!' x ':=' m 'in' k" := (bind m (fun x => k))
  (at level 10, x name, m at level 100, k at level 200).

(** ** Float helpers *)

(** [int(x)]: truncation toward zero. *)
Definition py_int (x : Q) : Z :=
  if Qle_bool 0 x then Qfloor x else Qceiling x.

(** [x // y] on floats, for [y] non-zero: the floor of the quotient, as a float. *)
Definition floordiv (x y : Q) : Q := inject_Z (Qfloor (x / y)).

Definition Qltb (x y : Q) : bool := negb (Qle_bool y x).

(** [max(a, b)] and [min(a, b)] of Python: the first argument wins a tie. *)
Definition py_max (a b : Q) : Q := if Qltb a b then b else a.
Definition py_min (a b : Q) : Q := if Qltb b a then b else a.

(** ** Strings *)

(** [str.isalnum] on one character. Below U+0080 these are the ASCII digits
    and letters; between U+0080 and U+00FF Python also counts the letters and
    the numeric characters of Latin-1. *)
Definition in_range (lo hi : N) (c : ascii) : bool :=
  let n := N_of_ascii c in ((lo <=? n) && (n <=? hi))%N.

(** The character class [[a-zA-Z0-9]] of [USERNAME_RE]. *)
Definition re_class (c : ascii) : bool :=
  in_range 48 57 c || in_range 65 90 c || in_range 97 122 c.

Definition isalnum (c : ascii) : bool :=
  re_class c
  || in_range 170 170 c || in_range 178 179 c || in_range 181 181 c
  || in_range 185 186 c || in_range 188 190 c || in_range 192 214 c
  || in_range 216 246 c || in_range 248 255 c.

Fixpoint str_filter (f : ascii -> bool) (s : string) : string :=
  match s with
  | EmptyString => EmptyString
  | String c s' => if f c then String c (str_filter f s') else str_filter f s'
  end.

Fixpoint str_all (f : ascii -> bool) (s : string) : bool :=
  match s with
  | EmptyString => true
  | String c s' => f c && str_all f s'
  end.

Definition newline : ascii := ascii_of_N 10.

(** [s] without one final newline: what [$] lets a match stop before. *)
Fixpoint chomp (s : string) : string :=
  match s with
  | EmptyString => EmptyString
  | String c EmptyString => if Ascii.eqb c newline then EmptyString else s
  | String c s' => String c (chomp s')
  end.

(** [USERNAME_RE.match(s)] for [USERNAME_RE = ^[a-zA-Z0-9]{5,20}$], as a truth value. *)
Definition USERNAME_RE_match (s : string) : bool :=
  let t := chomp s in
  str_all re_class t && (5 <=? String.length t)%nat && (String.length t <=? 20)%nat.

(** [s[:n]] *)
Definition str_take (n : nat) (s : string) : string := substring 0 n s.

(** The format the registry promises: ASCII letters and digits, 5 to 20 of them. *)
Definition valid_handle (s : string) : Prop :=
  str_all re_class s = true /\ (5 <= String.length s <= 20)%nat.

Section Generator.

(** [pow x y] stands for the float power [x ** y]. *)
Variable pow : Q -> Q -> Q.
(** The values of [random.random()], in the order of the calls. *)
Variable rng : nat -> draw.
Variable fake : Faker.

(** ** The [random] module, over the tape *)

Definition random_random : M Q :=
  fun w => Ok (dr_val (rng (rng_pos w))) (tick_rng w).

(** [random.uniform(a, b)] is [a + (b - a) * random()]. *)
Definition random_uniform (a b : Q) : M Q :=
  let! u := random_random in ret (a + (b - a) * u)%Q.

(** [_randbelow(n)]: an integer of [0, n). One entry of the tape per
    call, scaled to the range. *)
Definition randbelow (n : Z) : M Z :=
  let! u := random_random in ret (Qfloor (u * inject_Z n)).

(** [random.randint(a, b)]: [a + _randbelow(b - a + 1)]; an empty range raises. *)
Definition random_randint (a b : Z) : M Z :=
  if b <? a then raise ValueError
  else let! r := randbelow (b - a + 1) in ret (a + r).

(** [random.choice(seq)] *)
Definition random_choice {A} (l : list A) : M A :=
  match l with
  | [] => raise IndexError
  | x :: _ => let! i := randbelow (Z.of_nat (length l)) in ret (nth (Z.to_nat i) l x)
  end.

(** The selection loop of [random.sample], in the form CPython runs for a
    population of at most 21 elements, which every population here is:
    [k] times, pick a position [j] of the pool, take [pool[j]] and move
    the last element of the pool into the vacancy. The pool is shortened
    by one where CPython narrows the range of [j] by one. *)
Fixpoint sample_pool {A} (pool : list A) (k : nat) : M (list A) :=
  match k with
  | O => ret []
  | S k' =>
      let n := length pool in
      let! j := randbelow (Z.of_nat n) in
      match pool !! Z.to_nat j, pool !! (n - 1)%nat with
      | Some x, Some y =>
          let! rest := sample_pool (take (n - 1) (<[Z.to_nat j := y]> pool)) k' in
          ret (x :: rest)
      | _, _ => raise IndexError
      end
  end.

(** [random.sample(population, k)]: [k] elements at distinct positions;
    [ValueError] when [k] is larger than the population. *)
Definition random_sample {A} (population : list A) (k : Z) : M (list A) :=
  if (k <? 0) || (Z.of_nat (length population) <? k) then raise ValueError
  else sample_pool population (Z.to_nat k).

(** ** [faker] calls *)

Definition fake_call {A} (stream : nat -> A) : M A :=
  fun w => Ok (stream (fake_pos w)) (tick_fake w).

Definition fake_user_name : M string :=
  fun w => Ok (fk_user_name fake (user_name_pos w)) (tick_user_name w).

(** ** Helpers of Person.py *)

(** [generate_username()], with an attempt budget [fuel] for its
    [while True] loop: one unit per iteration. *)
Fixpoint generate_username (fuel : nat) : M string :=
  match fuel with
  | O => fun _ => Spin
  | S fuel' =>
      let! raw := fake_user_name in
      let cleaned := str_filter isalnum raw in
      if (String.length cleaned <? 5)%nat then generate_username fuel'
      else
        let cleaned := str_take 20 cleaned in
        fun w =>
          if USERNAME_RE_match cleaned
             && negb (bool_decide (cleaned ∈ Person_usernames w))
          then Ok cleaned (add_username cleaned w)
          else generate_username fuel' w
  end.

Definition clamp01 (x : Q) : Q :=
  if Qltb x 0 then 0%Q else if Qltb 1 x then 1%Q else x.

Definition skewed01 (skew : Q) : M Q :=
  let! u := random_random in ret (pow u skew).

Definition jitter (x rel : Q) : M Q :=
  let! r := random_uniform (- rel) rel in
  let factor := (1 + r)%Q in
  ret (x * factor)%Q.

Definition sample_log_balance (min_base max_factor : Q) : M Z :=
  let! u := random_random in
  ret (py_int (min_base * pow max_factor u)).

(** ** The reference catalog *)

(** [dict(zip(keys, values))]: a later pair overwrites an earlier one. *)
Definition dict_zip {V} (keys : list string) (values : list V) : gmap string V :=
  foldl (fun m kv => <[kv.1 := kv.2]> m) ∅ (zip keys values).

(** The module's stock data: [TICKERS] and the price list zipped into [PRICES]. *)
Record Catalog := { TICKERS : list string; PRICE_LIST : list Q }.

Definition PRICES (cat : Catalog) : gmap string Q :=
  dict_zip (TICKERS cat) (PRICE_LIST cat).

(** [dict(zip(TICKERS, range(1, len(TICKERS)+1)))] *)
Definition STOCKIDS (cat : Catalog) : gmap string Z :=
  dict_zip (TICKERS cat) (seqZ 1 (Z.of_nat (length (TICKERS cat)))).

Variable cat : Catalog.

(** ** The persona *)

(** What each stage of [Person.__init__] writes to [self]. A stage's reads of
    [self] are its arguments. *)
Record IdentityData := {
  user_id : Z; full_name : string; username : string; email : string;
  birthdate : Z }.

Record TradeData := {
  aggressive : Q; online_prob : Q; interval_seconds : Z; trade_prob : Q;
  strategy : Z }.

(** [watchlist] is the local variable of [Portfolio]; [watchList_csv] is
    what the object keeps of it. *)
Record PortfolioData := {
  balance : Z; max_cash : Q; min_cash : Q; min_stocks : Z; max_stocks : Z;
  watchlist : list string; watch_ids : list Z; watchList_csv : string;
  holdings : gmap string Z }.

Record OrderData := { use_market : Q; use_slip : Q; buy_bias : Q }.

Record LimitData := {
  slippage_tolerance : Q; min_limit_offset : Q; max_limit_offset : Q;
  per_pos_max : Q; min_trade_amount : Q; max_trade_amount : Q;
  max_daily_trades : Z; max_orders : Z }.

Record Person := {
  seed : Z; identity : IdentityData; trade : TradeData;
  portfolio : PortfolioData; orders : OrderData; limits : LimitData }.

Definition Identity (fuel : nat) : M IdentityData :=
  fun w =>
    let user_id := Person_idx w in
    (let! full_name := fake_call (fk_name fake) in
     let! username := generate_username fuel in
     let! domain := fake_call (fk_free_email_domain fake) in
     let! birthdate := fake_call (fk_date_of_birth fake) in
     ret {| user_id := user_id; full_name := full_name; username := username;
            email := username +:+ "@" +:+ domain; birthdate := birthdate |})
      (set_idx (user_id + 1) w).

Definition TradeProperties : M TradeData :=
  let! base_agg := skewed01 1.3 in
  let! a := jitter base_agg 0.10 in
  let aggressive := clamp01 a in
  let! sk := skewed01 0.7 in
  let base_online := (0.2 + 0.8 * sk)%Q in
  let! o := jitter base_online 0.10 in
  let online_prob := clamp01 o in
  let base_interval := (20 - 12 * aggressive * aggressive)%Q in
  let! iv := jitter base_interval 0.15 in
  let interval_seconds := py_int (py_max 1 iv) in
  let base_trade_prob := (0.10 + 0.5 * aggressive * aggressive)%Q in
  let! tp := jitter base_trade_prob 0.15 in
  let trade_prob := clamp01 tp in
  let! strategy := random_choice [1; 2; 3; 4] in
  ret {| aggressive := aggressive; online_prob := online_prob;
         interval_seconds := interval_seconds; trade_prob := trade_prob;
         strategy := strategy |}.

(** [x // y] with its exception. *)
Definition py_floordiv (x y : Q) : M Q :=
  if Qeq_bool y 0 then raise ZeroDivisionError else ret (floordiv x y).

(** [amount_per_stock] of [Portfolio], before the exception check of [//]. *)
Definition amount_per_stock (balance : Z) (min_cash max_cash : Q) (n_stocks : Z) : Q :=
  floordiv (inject_Z balance * (1 - (min_cash * 2 + max_cash) / 3)) (inject_Z n_stocks).

(** [[d[s] for s in l]] *)
Fixpoint lookup_all {V} (d : gmap string V) (l : list string) : M (list V) :=
  match l with
  | [] => ret []
  | s :: rest =>
      match d !! s with
      | None => raise KeyError
      | Some v => let! vs := lookup_all d rest in ret (v :: vs)
      end
  end.

(** [{ s: int(amount_per_stock // PRICES[s]) for s in portfolio }], built
    left to right onto [acc]. *)
Fixpoint holdings_of (prices : gmap string Q) (amount : Q) (portfolio : list string)
    (acc : gmap string Z) : M (gmap string Z) :=
  match portfolio with
  | [] => ret acc
  | s :: rest =>
      match prices !! s with
      | None => raise KeyError
      | Some price =>
          let! q := py_floordiv amount price in
          holdings_of prices amount rest (<[s := py_int q]> acc)
      end
  end.

Definition stock_band (aggressive : Q) : M (Z * Z) :=
  if Qltb aggressive 0.3 then
    let! lo := random_randint 1 4 in
    let! hi := random_randint 6 12 in ret (lo, hi)
  else if Qltb aggressive 0.6 then
    let! lo := random_randint 3 5 in
    let! hi := random_randint 8 15 in ret (lo, hi)
  else
    let! lo := random_randint 5 8 in
    let! hi := random_randint 12 20 in ret (lo, hi).

Definition Portfolio (aggressive : Q) : M PortfolioData :=
  let! balance := sample_log_balance 10000 50 in
  let base_max_cash := (0.50 - 0.30 * aggressive)%Q in
  let! mc := jitter base_max_cash 0.15 in
  let max_cash := clamp01 mc in
  let! u := random_uniform 0.30 0.60 in
  let min_cash := (max_cash * u)%Q in
  let! band := stock_band aggressive in
  let min_stocks := band.1 in
  let max_stocks := band.2 in
  let! watchlist_extra := random_randint 3 8 in
  let watchlist_size :=
    Z.min (Z.of_nat (length (TICKERS cat))) (max_stocks + watchlist_extra) in
  let! watchlist := random_sample (TICKERS cat) watchlist_size in
  let! ids := lookup_all (STOCKIDS cat) watchlist in
  let watch_ids := merge_sort Z.le ids in
  let watchList_csv := String.concat "," (map pretty watch_ids) in
  let! n_stocks := random_randint min_stocks max_stocks in
  let! picked := random_sample watchlist n_stocks in
  let portfolio := merge_sort String.le picked in
  let! amount :=
    py_floordiv (inject_Z balance * (1 - (min_cash * 2 + max_cash) / 3))
                (inject_Z n_stocks) in
  let! holdings := holdings_of (PRICES cat) amount portfolio ∅ in
  ret {| balance := balance; max_cash := max_cash; min_cash := min_cash;
         min_stocks := min_stocks; max_stocks := max_stocks;
         watchlist := watchlist; watch_ids := watch_ids;
         watchList_csv := watchList_csv; holdings := holdings |}.

Definition OrderTypes (aggressive : Q) : M OrderData :=
  let! s1 := skewed01 1.5 in
  let use_market := (0.05 + 0.20 * s1)%Q in
  let! s2 := skewed01 0.5 in
  let use_slip := (0.50 + 0.40 * s2)%Q in
  let base_buy_bias := (0.50 + 0.10 * (aggressive - 0.5))%Q in
  let! b := jitter base_buy_bias 0.10 in
  let buy_bias := clamp01 b in
  ret {| use_market := use_market; use_slip := use_slip;
         buy_bias := py_max 0.40 (py_min 0.60 buy_bias) |}.

Definition TradeLimits (aggressive : Q) (max_stocks : Z) : M LimitData :=
  let base_slip_tol := (0.005 + 0.025 * aggressive)%Q in
  let! st := jitter base_slip_tol 0.20 in
  let slippage_tolerance := clamp01 st in
  let base_max_limit := (0.02 + 0.03 * aggressive)%Q in
  let! ml := jitter base_max_limit 0.20 in
  let max_limit := clamp01 ml in
  let! u := random_uniform 0.02 0.30 in
  let min_limit := (max_limit * u)%Q in
  let base_per_pos := (0.08 + 0.22 * aggressive)%Q in
  if max_stocks =? 0 then raise ZeroDivisionError else
  let portfolio_max := (1 / inject_Z max_stocks)%Q in
  let! pp := jitter base_per_pos 0.15 in
  let per_pos_max := py_min (clamp01 pp) portfolio_max in
  let! u1 := random_uniform 0.10 0.30 in
  let! u2 := random_uniform 0.40 0.80 in
  let base_trade := py_int (100 + 300 * aggressive) in
  let! jt := jitter (inject_Z base_trade) 0.20 in
  let base_open_orders := py_int (10 + 40 * aggressive) in
  let! jo := jitter (inject_Z base_open_orders) 0.20 in
  ret {| slippage_tolerance := slippage_tolerance;
         min_limit_offset := clamp01 min_limit;
         max_limit_offset := clamp01 max_limit;
         per_pos_max := per_pos_max;
         min_trade_amount := (per_pos_max * u1)%Q;
         max_trade_amount := (per_pos_max * u2)%Q;
         max_daily_trades := Z.max 100 (py_int jt);
         max_orders := Z.max 10 (py_int jo) |}.

(** [Person()]: the constructor. *)
Definition Person_new (fuel : nat) : M Person :=
  let! seed := random_randint 1000000 10000000 in
  let! idn := Identity fuel in
  let! tr := TradeProperties in
  let! pf := Portfolio (aggressive tr) in
  let! od := OrderTypes (aggressive tr) in
  let! lm := TradeLimits (aggressive tr) (max_stocks pf) in
  ret {| seed := seed; identity := idn; trade := tr; portfolio := pf;
         orders := od; limits := lm |}.

(** ** GenerateAIUsers.py *)

(** The loop [for _ in range(num_people): p = Person(); ...append(...)]:
    the persons in the order their rows are appended. *)
Fixpoint generate_people (fuel : nat) (n : nat) : M (list Person) :=
  match n with
  | O => ret []
  | S n' =>
      let! p := Person_new fuel in
      let! ps := generate_people fuel n' in
      ret (p :: ps)
  end.

(** [generate_aiuser_excel]: [Person.idx = 1], then the loop. The workbook
    is the list of persons whose rows it receives. *)
Definition generate_aiuser_excel (fuel : nat) (num_people : Z) : M (list Person) :=
  fun w => generate_people fuel (Z.to_nat num_people) (set_idx 1 w).

End Generator.

(** ** The module's constants

    A price is the double that its decimal literal denotes, written as
    the exact fraction: [513.71] is [564830118304809 / 2^40], a little
    above the decimal, and [51371.0 // 513.71] is 99. *)

Definition builtin_catalog : Catalog := {|
  TICKERS := [
    "MSFT"; "NVDA"; "AAPL"; "AMZN"; "GOOG"; "META"; "AVGO"; "TSLA"; "TSM"; "WMT";
    "LLY"; "V"; "ORCL"; "NFLX"; "MA"; "BAC"; "ASML"; "KO"; "BABA"; "MCD"; "AMD" ];
  PRICE_LIST := [
    (564830118304809 # 1099511627776);  (* 513.71 *)
    (347 # 2);  (* 173.50 *)
    (1881308375589847 # 8796093022208);  (* 213.88 *)
    (4071535538119639 # 17592186044416);  (* 231.44 *)
    (6828582935000515 # 35184372088832);  (* 194.08 *)
    (6268799575067197 # 8796093022208);  (* 712.68 *)
    (5104900546368635 # 17592186044416);  (* 290.18 *)
    (5560186321198121 # 17592186044416);  (* 316.06 *)
    (8641281785017139 # 35184372088832);  (* 245.6 *)
    (3429420747498455 # 35184372088832);  (* 97.47 *)
    (1787124209554555 # 2199023255552);  (* 812.69 *)
    (6281114105298289 # 17592186044416);  (* 357.04 *)
    (2156098321603625 # 8796093022208);  (* 245.12 *)
    (5191849925893161 # 4398046511104);  (* 1180.49 *)
    (2499057988539515 # 4398046511104);  (* 568.22 *)
    (3409365655407821 # 70368744177664);  (* 48.45 *)
    (2845 # 4);  (* 711.25 *)
    (4867406034769019 # 70368744177664);  (* 69.17 *)
    (4223180181822505 # 35184372088832);  (* 120.03 *)
    (1312684942169211 # 4398046511104);  (* 298.47 *)
    (5857142421627863 # 35184372088832)   (* 166.47 *) ]%Q
|}.

(** ** Concrete oracles, for the examples *)

(** A rational stand-in for [**]: exact at the exponents 0 and 1 and for
    the bases 0 and 1, and the chord between [x ** 0] and [x ** 1]
    elsewhere. The tapes of the examples below make every power one of
    the exact cases ([0 ** y] and [x ** 0]). *)
Definition pow_chord (x y : Q) : Q :=
  if Qeq_bool x 0 then (if Qeq_bool y 0 then 1 else 0)%Q
  else (1 + (x - 1) * y)%Q.

(** A faker whose [user_name()] yields the entries of [names] in turn
    and ["user"] afterwards; the other methods are constant. *)
Definition faker_of (names : list string) : Faker := {|
  fk_user_name := fun n => nth n names "user"%string;
  fk_name := fun _ => "Jane Doe"%string;
  fk_free_email_domain := fun _ => "example.org"%string;
  fk_date_of_birth := fun _ => 726468 |}.

(** Candidates with separators to strip, one that is too short, and
    two that repeat an earlier handle once cleaned. *)
Definition faker_demo : Faker :=
  faker_of ["john.smith"; "ann"; "john_smith"; "maria-lopez99"; "maria.lopez99"; "kim_possible"].

(** * Specification vocabulary *)

(** ** Weakest preconditions

    [wp E m Q w]: run from [w], [m] returns a value and a world that
    satisfy [Q]; when it raises or spins, [E] must hold. With [E := True]
    this is partial correctness, with [E := False] it says that [m]
    returns. *)

Definition wp {A} (E : Prop) (m : M A) (Q : A -> World -> Prop) (w : World) : Prop :=
  match m w with
  | Ok a w' => Q a w'
  | _ => E
  end.

(** The worlds differ at most in how far the random tape was read. *)
Definition same_registry (w w' : World) : Prop :=
  user_name_pos w' = user_name_pos w /\ fake_pos w' = fake_pos w /\
  Person_idx w' = Person_idx w /\ Person_usernames w' = Person_usernames w.

(** [wp] for code that only draws random numbers. *)
Definition wpr {A} (E : Prop) (m : M A) (P : A -> Prop) (w : World) : Prop :=
  wp E m (fun a w' => P a /\ same_registry w w') w.

(** ** Handles *)

(** What one iteration of the loop makes of a candidate. *)
Definition cleaned_of (raw : string) : string :=
  str_take 20 (str_filter isalnum raw).

(** Whether an iteration that reads [raw] returns, [used] being the handles
    issued so far. *)
Definition accepted (used : gset string) (raw : string) : bool :=
  negb (String.length (str_filter isalnum raw) <? 5)%nat
  && USERNAME_RE_match (cleaned_of raw)
  && negb (bool_decide (cleaned_of raw ∈ used)).

(** The world after [k] more calls of [fake.user_name()]. *)
Definition skip_user_names (k : nat) (w : World) : World :=
  {| rng_pos := rng_pos w; user_name_pos := (user_name_pos w + k)%nat;
     fake_pos := fake_pos w;
     Person_idx := Person_idx w; Person_usernames := Person_usernames w |}.

(** The loop is over within [bound] iterations: it returned or raised. *)
Definition stops_within (fake : Faker) (w : World) (bound : nat) : Prop :=
  generate_username fake bound w <> Spin.

(** The candidate that the [i]-th iteration from [w] reads. *)
Definition candidate (fake : Faker) (w : World) (i : nat) : string :=
  fk_user_name fake (user_name_pos w + i).

(** ** What the stages establish *)

(** What [TradeProperties] leaves in [self]. *)
Definition TradeProperties_post (tr : TradeData) : Prop :=
  (0 <= aggressive tr /\ aggressive tr <= 1)%Q /\
  (0 <= online_prob tr /\ online_prob tr <= 1)%Q /\
  (0 <= trade_prob tr /\ trade_prob tr <= 1)%Q /\
  (exists r, (- 0.15 <= r /\ r <= 0.15)%Q /\
     interval_seconds tr =
     py_int (py_max 1 ((20 - 12 * aggressive tr * aggressive tr) * (1 + r)))) /\
  1 <= interval_seconds tr <= 23 /\
  strategy tr ∈ [1; 2; 3; 4].

(** What [OrderTypes] leaves in [self]. *)
Definition OrderTypes_post (od : OrderData) : Prop :=
  (0.40 <= buy_bias od /\ buy_bias od <= 0.60)%Q.

(** The chain of trade limits under the portfolio ceiling. *)
Definition trade_chain (max_stocks : Z) (lm : LimitData) : Prop :=
  (min_trade_amount lm <= max_trade_amount lm)%Q /\
  (max_trade_amount lm <= per_pos_max lm)%Q /\
  (per_pos_max lm <= 1 / inject_Z max_stocks)%Q.

(** What [TradeLimits] leaves in [self], having read [aggr] and [max_stocks]. *)
Definition TradeLimits_post (aggr : Q) (max_stocks : Z) (lm : LimitData) : Prop :=
  (1 <= max_stocks -> trade_chain max_stocks lm) /\
  (exists r, (- 0.15 <= r /\ r <= 0.15)%Q /\
     per_pos_max lm =
     py_min (clamp01 ((0.08 + 0.22 * aggr) * (1 + r))) (1 / inject_Z max_stocks)) /\
  (0 <= slippage_tolerance lm /\ slippage_tolerance lm <= 1)%Q /\
  (0 <= min_limit_offset lm /\ min_limit_offset lm <= max_limit_offset lm
   /\ max_limit_offset lm <= 1)%Q /\
  100 <= max_daily_trades lm /\ 10 <= max_orders lm.

(** The ticker [s] has a price, and it is not zero. *)
Definition price_ok (cat : Catalog) (s : string) : bool :=
  match PRICES cat !! s with
  | Some p => negb (Qeq_bool p 0)
  | None => false
  end.

(** A catalog on which [Portfolio] cannot raise: every ticker has a
    non-zero price and there are more than 20 tickers. *)
Definition catalog_ok (cat : Catalog) : bool :=
  forallb (price_ok cat) (TICKERS cat) && (20 <? length (TICKERS cat))%nat.

(** The dictionary comprehension of the holdings. *)
Definition holdings_post (prices : gmap string Q) (amount : Q) (l : list string)
    (acc h : gmap string Z) : Prop :=
  dom h = dom acc ∪ list_to_set l /\
  (forall s, s ∈ l ->
     exists p, prices !! s = Some p /\ Qeq_bool p 0 = false /\
               h !! s = Some (py_int (floordiv amount p))) /\
  (forall s, s ∉ l -> h !! s = acc !! s).

(** The pair [(min_stocks, max_stocks)] of the band of [aggr]. *)
Definition stock_band_post (aggr : Q) (band : Z * Z) : Prop :=
  1 <= band.1 /\ band.1 < band.2 /\ 6 <= band.2 <= 20 /\
  ((aggr < 0.3)%Q -> band.1 <= 4 /\ band.2 <= 12).

(** What [Portfolio] leaves in [self]; [picked] is its local [portfolio]. *)
Definition Portfolio_post (pow : Q -> Q -> Q) (cat : Catalog) (aggr : Q) (pf : PortfolioData) : Prop :=
  (exists u, (0 <= u /\ u < 1)%Q /\ balance pf = py_int (10000 * pow 50%Q u)) /\
  (0 <= min_cash pf /\ min_cash pf <= max_cash pf /\ max_cash pf <= 1)%Q /\
  stock_band_post aggr (min_stocks pf, max_stocks pf) /\
  (exists extra, 3 <= extra <= 8 /\
     Z.of_nat (length (watchlist pf)) =
     Z.min (Z.of_nat (length (TICKERS cat))) (max_stocks pf + extra)) /\
  (exists rest, TICKERS cat ≡ₚ watchlist pf ++ rest) /\
  length (watch_ids pf) = length (watchlist pf) /\
  (exists picked rest,
     watchlist pf ≡ₚ picked ++ rest /\
     min_stocks pf <= Z.of_nat (length picked) <= max_stocks pf /\
     holdings_post (PRICES cat)
       (amount_per_stock (balance pf) (min_cash pf) (max_cash pf)
          (Z.of_nat (length picked)))
       picked ∅ (holdings pf)).

(** The id and the handle of a persona. *)
Definition pid (p : Person) : Z := user_id (identity p).
Definition pname (p : Person) : string := username (identity p).

(** What is known of a person that [Person()] returned in world [w']
    when called in world [w]. *)
Definition Person_post (pow : Q -> Q -> Q) (cat : Catalog) (w : World) (p : Person) (w' : World) : Prop :=
  pid p = Person_idx w /\ Person_idx w' = Person_idx w + 1 /\
  valid_handle (pname p) /\ (pname p ∉ Person_usernames w) /\
  Person_usernames w' = ({[ pname p ]} ∪ Person_usernames w) /\
  1000000 <= seed p <= 10000000 /\
  TradeProperties_post (trade p) /\
  Portfolio_post pow cat (aggressive (trade p)) (portfolio p) /\
  OrderTypes_post (orders p) /\
  TradeLimits_post (aggressive (trade p)) (max_stocks (portfolio p)) (limits p).


(** [round(x)] of Python on a float: to the nearest integer, a tie to the
    even one. *)
Definition py_round (x : Q) : Z :=
  let f := Qfloor x in
  let d := (x - inject_Z f)%Q in
  if Qltb d (1 # 2) then f
  else if Qltb (1 # 2) d then f + 1
  else if Z.even f then f else f + 1.

(** The decision interval the way the specification words it:
    [max(1, round(jitter(20 - 12 * aggressiveness ** 2, 0.15)))], the jitter
    factor being [1 + r]. *)
Definition interval_as_specified (aggr r : Q) : Z :=
  Z.max 1 (py_round ((20 - 12 * aggr * aggr) * (1 + r))).

(** What a run returned, and the world it left. *)
Definition result_of {A} (r : Res A) : option A :=
  match r with Ok a _ => Some a | _ => None end.

Definition world_after {A} (r : Res A) (w : World) : World :=
  match r with Ok _ w' => w' | _ => w end.

(** ** Concrete inputs and runs *)

(** A supplier whose every candidate is ["user"]: alphanumeric, of length 4. *)
Definition faker_short : Faker := faker_of [].

(** The catalog of three instruments priced 100, 200 and 50. *)
Definition catalog3 : Catalog :=
  {| TICKERS := ["AAA"; "BBB"; "CCC"]; PRICE_LIST := [100; 200; 50]%Q |}.

(** A run of the constructor on the built-in catalog, for the examples:
    the tape is 0 from the start, the first candidate handle is usable. *)
Definition demo_run : Res Person :=
  Person_new pow_chord (tape_of []) faker_demo builtin_catalog 1 world0.

(** A batch of three on the built-in catalog. The supplier repeats a
    handle and yields a short one; 3 attempts per persona are enough. *)
Definition demo_batch : Res (list Person) :=
  generate_aiuser_excel pow_chord (tape_of []) faker_demo builtin_catalog 3 3 world0.

(** A supplier that yields ["alice1"] twice and then ["bobby2"]. *)
Definition faker_repeat : Faker := faker_of ["alice1"; "alice1"; "bobby2"].

(** Two successive batches of one persona each, with that supplier. *)
Definition first_batch : Res (list Person) :=
  generate_aiuser_excel pow_chord (tape_of []) faker_repeat builtin_catalog 2 1 world0.

Definition second_batch (w : World) : Res (list Person) :=
  generate_aiuser_excel pow_chord (tape_of []) faker_repeat builtin_catalog 2 1 w.

(** * The rest of the program: rows, sheets and styling *)

(** ** Cell values and the serializers of [Person] *)

(** What a worksheet cell holds: [None], an [int], a [float], a [str] or
    a date (as a day number). *)
Inductive Cell :=
| CNone
| CInt (z : Z)
| CFloat (q : Q)
| CStr (s : string)
| CDate (d : Z).

(** [round(x, ndigits)] on a float, for [ndigits >= 0]: to the nearest
    multiple of [10 ** -ndigits], a tie to the even one. *)
Definition py_round_to (ndigits : nat) (x : Q) : Q :=
  let scale := inject_Z (10 ^ Z.of_nat ndigits) in
  (inject_Z (py_round (x * scale)) / scale)%Q.

Definition ToIdentityList (p : Person) : list Cell :=
  [ CInt (user_id (identity p));
    CStr (username (identity p));
    CStr (full_name (identity p));
    CStr (email (identity p));
    CDate (birthdate (identity p)) ].

Definition ToProfileList (p : Person) : list Cell :=
  [ CInt (user_id (identity p));
    CInt (seed p);
    CInt (interval_seconds (trade p));
    CFloat (py_round_to 4 (trade_prob (trade p)));
    CFloat (py_round_to 4 (use_market (orders p)));
    CFloat (py_round_to 4 (use_slip (orders p)));
    CFloat (py_round_to 4 (online_prob (trade p)));
    CFloat (py_round_to 4 (buy_bias (orders p)));
    CFloat (py_round_to 4 (min_trade_amount (limits p)));
    CFloat (py_round_to 4 (max_trade_amount (limits p)));
    CFloat (py_round_to 4 (per_pos_max (limits p)));
    CFloat (py_round_to 4 (min_cash (portfolio p)));
    CFloat (py_round_to 4 (max_cash (portfolio p)));
    CFloat (py_round_to 4 (slippage_tolerance (limits p)));
    CFloat (py_round_to 4 (min_limit_offset (limits p)));
    CFloat (py_round_to 4 (max_limit_offset (limits p)));
    CFloat (py_round_to 4 (aggressive (trade p)));
    CInt (min_stocks (portfolio p));
    CInt (max_stocks (portfolio p));
    CInt (max_daily_trades (limits p));
    CInt (max_orders (limits p));
    CStr (watchList_csv (portfolio p));
    CInt (strategy (trade p)) ].

(** One column of the holding row: the shares of [ticker], 0 when it is
    not held. *)
Definition holding_cell (h : gmap string Z) (ticker : string) : Cell :=
  match h !! ticker with
  | Some shares => CInt shares
  | None => CInt 0
  end.

(** [round(self.balance, 2)] is the balance itself: it is an [int]. *)
Definition ToHoldingList (cat : Catalog) (p : Person) : list Cell :=
  [ CInt (user_id (identity p)); CInt (balance (portfolio p)) ]
  ++ map (holding_cell (holdings (portfolio p))) (TICKERS cat).

(** ** Worksheets and workbooks (ExcelLayout.py over openpyxl)

    A worksheet is kept as openpyxl shows it to this program: the rows of
    values that were appended, the style of each cell that was styled, the
    extent of the cells that exist without a value, and the column widths.
    A workbook is the list of its titled worksheets, in order (a chart
    sheet is not a worksheet and is not modelled). A worksheet object is
    referred to by its position in the list, which nothing here changes:
    sheets are only added at the end. *)

Inductive Side := Thin | Thick.

Record Border := { b_top : Side; b_bottom : Side; b_left : Side; b_right : Side }.

Record Font := { font_color : string; font_bold : bool }.

(** A solid [PatternFill] is its colour. A cell attribute that was never
    assigned is [None]. *)
Record CellStyle := {
  cs_fill : option string; cs_font : option Font; cs_border : option Border }.

Record Worksheet := {
  ws_rows : list (list Cell);             (* the appended rows *)
  ws_styles : gmap (nat * nat) CellStyle; (* by (row, column), from 1 *)
  ws_touched : nat * nat;                 (* rows, columns of the cells made by iteration *)
  ws_widths : gmap nat Q                  (* column_dimensions[..].width, by column index *)
}.

Abbreviation Workbook := (list (string * Worksheet)).

Definition HEADER_COLOR : string := "4A7A41".
Definition HEADER_FONT_COLOR : string := "FFFFFF".
Definition ROW_FILL_COLOR : string := "0F1E25".
Definition ROW_ALT_FILL_COLOR : string := "1E2E35".
Definition TEXT_FONT_COLOR : string := "FFFFFF".
Definition BACKGROUND_COLOR : string := "000000".

(** A sheet as [create_sheet] makes it. *)
Definition empty_sheet : Worksheet :=
  {| ws_rows := []; ws_styles := ∅; ws_touched := (0, 0)%nat; ws_widths := ∅ |}.

(** [ws.max_row] and [ws.max_column]: over the cells that exist, 1 when
    there is none. *)
Definition max_row (ws : Worksheet) : nat :=
  Nat.max 1 (Nat.max (length (ws_rows ws)) (ws_touched ws).1).

Definition max_column (ws : Worksheet) : nat :=
  Nat.max 1 (Nat.max (max_list (length <$> ws_rows ws)) (ws_touched ws).2).

(** [ws.cell(row, column).value] *)
Definition cell_value (ws : Worksheet) (row column : nat) : Cell :=
  match row, column with
  | S r, S c => default CNone (ws_rows ws !! r ≫= (.!! c))
  | _, _ => CNone
  end.

(** [ws.append(row)] *)
Definition ws_append (row : list Cell) (ws : Worksheet) : Worksheet :=
  {| ws_rows := ws_rows ws ++ [row]; ws_styles := ws_styles ws;
     ws_touched := ws_touched ws; ws_widths := ws_widths ws |}.

(** [ws.delete_rows(1, ws.max_row)]: no cell is left; the column
    dimensions stay. *)
Definition delete_all_rows (ws : Worksheet) : Worksheet :=
  {| ws_rows := []; ws_styles := ∅; ws_touched := (0, 0)%nat;
     ws_widths := ws_widths ws |}.

(** [wb.sheetnames] *)
Definition sheetnames (wb : Workbook) : list string := wb.*1.

(** [wb[name]]: the first sheet of that title. *)
Fixpoint get_sheet (name : string) (wb : Workbook) : option Worksheet :=
  match wb with
  | [] => None
  | (n, ws) :: rest => if String.eqb n name then Some ws else get_sheet name rest
  end.

(** The position of the sheet that [wb[name]] is; [None] when
    [name in wb.sheetnames] is false. *)
Fixpoint sheet_index (name : string) (wb : Workbook) : option nat :=
  match wb with
  | [] => None
  | (n, _) :: rest =>
      if String.eqb n name then Some 0%nat else S <$> sheet_index name rest
  end.

(** A mutation [f] of the worksheet at position [i]. *)
Definition at_sheet (i : nat) (f : Worksheet -> Worksheet) (wb : Workbook) : Workbook :=
  alter (fun s => (s.1, f s.2)) i wb.

(** [title or self._default_title] *)
Definition title_or_default (title : string) : string :=
  match title with
  | EmptyString => "Sheet"
  | _ => title
  end.

(** A character that [INVALID_TITLE_REGEX] finds: a backslash, an
    asterisk, a question mark, a colon, a slash or a square bracket. *)
Definition invalid_title_char (c : ascii) : bool :=
  existsb (Nat.eqb (nat_of_ascii c)) [92; 42; 63; 58; 47; 91; 93]%nat.

Definition invalid_title (title : string) : bool :=
  negb (str_all (fun c => negb (invalid_title_char c)) title).

Section Titles.

(** [str.lower], and the count that [avoid_duplicate_name] appends to a
    title that is taken (as text; openpyxl computes it from the titles
    that contain the value). *)
Variable lower : string -> string.
Variable dedup_suffix : list string -> string -> string.

(** [avoid_duplicate_name(names, value)]: a title that matches [value]
    when case is ignored makes it append a count. *)
Definition avoid_duplicate_name (names : list string) (value : string) : string :=
  if existsb (fun n => String.eqb (lower n) (lower value)) names
  then value +:+ dedup_suffix names value
  else value.

(** [wb.create_sheet(title)]: the title setter raises [ValueError]
    ([None]) on an invalid character and renames on a clash; the sheet is
    added at the end, and its position is returned for the sheet. *)
Definition create_sheet (title : string) (wb : Workbook) : option (Workbook * nat) :=
  let value := title_or_default title in
  if invalid_title value then None
  else Some (wb ++ [(avoid_duplicate_name (sheetnames wb) value, empty_sheet)],
             length wb).

(** [load_or_create_workbook]; [disk] is the workbook at the path, if a
    file exists there. A new workbook has one sheet, titled [Sheet],
    which is renamed. *)
Definition load_or_create_workbook (disk : option Workbook) : Workbook :=
  match disk with
  | Some wb => wb
  | None => [(avoid_duplicate_name ["Sheet"%string] "Template", empty_sheet)]
  end.

(** [reset_or_create_sheet]: the workbook it leaves and the position of
    the worksheet it returns; [None] is the [ValueError] of
    [create_sheet]. *)
Definition reset_or_create_sheet (name : string) (wb : Workbook)
    : option (Workbook * nat) :=
  match sheet_index name wb with
  | Some i => Some (at_sheet i delete_all_rows wb, i)
  | None => create_sheet name wb
  end.

Definition stocks_header : list string :=
  ["StockId"; "Ticker"; "CompanyName"; "Price (USD)"].

Definition identity_header : list string :=
  ["UserId"; "Username"; "FullName"; "Email"; "Birthdate"].

Definition holding_header (tickers : list string) : list string :=
  ["UserId"; "Balance"] ++ tickers.

Definition profile_header : list string :=
  [ "UserId"; "Seed"; "DecisionIntervalSeconds"; "TradeProb";
    "UseMarketProb"; "UseSlippageMarketProb"; "OnlineProb";
    "BuyBiasPrc"; "MinTradeAmountPrc"; "MaxTradeAmountPrc";
    "PerPositionMaxPrc"; "MinCashReservePrc"; "MaxCashReservePrc";
    "SlippageTolerancePrc"; "MinLimitOffsetPrc"; "MaxLimitOffsetPrc";
    "AggressivenessPrc"; "MinOpenPositions"; "MaxOpenPositions";
    "MaxDailyTrades"; "MaxOpenOrders"; "WatchlistCsv"; "Strategy" ].

(** Reset or create the sheet [name] and write [header] as its first
    row; the position is that of the worksheet returned. *)
Definition prepare_sheet (name : string) (header : list string) (wb : Workbook)
    : option (Workbook * nat) :=
  match reset_or_create_sheet name wb with
  | Some (wb, ws) => Some (at_sheet ws (ws_append (CStr <$> header)) wb, ws)
  | None => None
  end.

Definition prepare_stocks_sheet (wb : Workbook) : option (Workbook * nat) :=
  prepare_sheet "Stocks" stocks_header wb.

Definition prepare_identity_sheet (wb : Workbook) : option (Workbook * nat) :=
  prepare_sheet "Identity" identity_header wb.

Definition prepare_holding_sheet (tickers : list string) (wb : Workbook)
    : option (Workbook * nat) :=
  prepare_sheet "Holding" (holding_header tickers) wb.

Definition prepare_profile_sheet (wb : Workbook) : option (Workbook * nat) :=
  prepare_sheet "Profile" profile_header wb.

(** [prepare_aiuser_sheets]: the workbook and the four worksheets of the
    dictionary it returns, in the order Stocks, Identity, Holding,
    Profile. *)
Definition prepare_aiuser_sheets (tickers : list string) (wb : Workbook)
    : option (Workbook * (nat * nat * nat * nat)) :=
  match prepare_stocks_sheet wb with
  | None => None
  | Some (wb, ws_stocks) =>
  match prepare_identity_sheet wb with
  | None => None
  | Some (wb, ws_identity) =>
  match prepare_holding_sheet tickers wb with
  | None => None
  | Some (wb, ws_holding) =>
  match prepare_profile_sheet wb with
  | None => None
  | Some (wb, ws_profile) =>
      Some (wb, (ws_stocks, ws_identity, ws_holding, ws_profile))
  end end end end.

End Titles.

(** ** Styling *)

Definition blank_style : CellStyle :=
  {| cs_fill := None; cs_font := None; cs_border := None |}.

Definition style_at (st : gmap (nat * nat) CellStyle) (row column : nat) : CellStyle :=
  default blank_style (st !! (row, column)).

(** [for row in rows r1..r2: for cell in columns c1..c2: paint(cell)]:
    what [iter_rows] and the assignments to the attributes of its cells
    come to. [paint row column] is the change of one cell. *)
Definition paint_cells (r1 r2 c1 c2 : nat) (paint : nat -> nat -> CellStyle -> CellStyle)
    (st : gmap (nat * nat) CellStyle) : gmap (nat * nat) CellStyle :=
  foldl (fun st r =>
           foldl (fun st c => <[(r, c) := paint r c (style_at st r c)]> st)
                 st (seq c1 (S c2 - c1)))
        st (seq r1 (S r2 - r1)).

Definition set_fill (colour : string) (s : CellStyle) : CellStyle :=
  {| cs_fill := Some colour; cs_font := cs_font s; cs_border := cs_border s |}.

(** The right side of a border: thick in the first and in the last
    column, [i in [1, max_used_col]]. *)
Definition right_side (i max_used_col : nat) : Side :=
  if (i =? 1)%nat || (i =? max_used_col)%nat then Thick else Thin.

Definition header_style (max_used_col i : nat) (s : CellStyle) : CellStyle :=
  {| cs_fill := Some HEADER_COLOR;
     cs_font := Some {| font_color := HEADER_FONT_COLOR; font_bold := true |};
     cs_border := Some {| b_top := Thick; b_bottom := Thick; b_left := Thin;
                          b_right := right_side i max_used_col |} |}.

Definition data_style (max_used_col idx i : nat) (s : CellStyle) : CellStyle :=
  {| cs_fill := Some (if Nat.even idx then ROW_FILL_COLOR else ROW_ALT_FILL_COLOR);
     cs_font := Some {| font_color := TEXT_FONT_COLOR; font_bold := false |};
     cs_border := Some {| b_top := Thin; b_bottom := Thin; b_left := Thin;
                          b_right := right_side i max_used_col |} |}.

Definition apply_dark_theme (ws : Worksheet) : Worksheet :=
  let max_used_row := max_row ws in
  let max_used_col := max_column ws in
  let bg_max_row := (max_used_row + 20)%nat in
  let bg_max_col := (max_used_col + 20)%nat in
  let st := paint_cells 1 bg_max_row 1 bg_max_col
              (fun _ _ => set_fill BACKGROUND_COLOR) (ws_styles ws) in
  let st := paint_cells 1 1 1 max_used_col
              (fun _ i => header_style max_used_col i) st in
  let st := paint_cells 2 max_used_row 1 max_used_col
              (fun idx i => data_style max_used_col idx i) st in
  {| ws_rows := ws_rows ws; ws_styles := st;
     ws_touched := (bg_max_row, bg_max_col); ws_widths := ws_widths ws |}.

(** ** Column widths *)

Section Autofit.

(** [str(value)] of a float and of a date. *)
Variable float_str : Q -> string.
Variable date_str : Z -> string.

(** [str(value)] of a cell value that is not [None]. *)
Definition cell_text (v : Cell) : string :=
  match v with
  | CNone => "None"
  | CInt z => pretty z
  | CFloat q => float_str q
  | CStr s => s
  | CDate d => date_str d
  end.

(** The inner loop of [autofit_columns]: the longest text of the column. *)
Definition column_max_length (ws : Worksheet) (column : nat) : nat :=
  foldl (fun max_length row =>
           match cell_value ws row column with
           | CNone => max_length
           | v => let length := String.length (cell_text v) in
                  if (max_length <? length)%nat then length else max_length
           end)
        0%nat (seq 1 (max_row ws)).

Definition adjusted_width (max_length : nat) (min_width max_width : Q) : Q :=
  let w := inject_Z (Z.of_nat max_length + 2) in
  let w := if Qltb w min_width then min_width else w in
  if Qltb max_width w then max_width else w.

(** [autofit_columns]; [get_column_letter] raises [ValueError] past the
    column 18278, so [None] is that exception. *)
Definition autofit_columns (min_width max_width : Q) (ws : Worksheet) : option Worksheet :=
  if 18278 <? Z.of_nat (max_column ws) then None
  else
    Some {| ws_rows := ws_rows ws; ws_styles := ws_styles ws;
            ws_touched := ws_touched ws;
            ws_widths :=
              foldl (fun widths col =>
                       <[col := adjusted_width (column_max_length ws col)
                                               min_width max_width]> widths)
                    (ws_widths ws) (seq 1 (max_column ws)) |}.

End Autofit.

(** ** [generate_aiuser_excel], with the workbook it writes *)

Section Batch.

Variable lower : string -> string.
Variable dedup_suffix : list string -> string -> string.
Variable float_str : Q -> string.
Variable date_str : Z -> string.
Variable pow : Q -> Q -> Q.
Variable rng : nat -> draw.
Variable fake : Faker.
Variable cat : Catalog.

(** The three [append] calls of one iteration; [sheets] holds the
    worksheets of the dictionary: Identity, Holding, Profile. *)
Definition append_person (sheets : nat * nat * nat) (p : Person) (wb : Workbook)
    : Workbook :=
  let '(ws_identity, ws_holding, ws_profile) := sheets in
  at_sheet ws_profile (ws_append (ToProfileList p))
    (at_sheet ws_holding (ws_append (ToHoldingList cat p))
       (at_sheet ws_identity (ws_append (ToIdentityList p)) wb)).

Fixpoint generate_rows (fuel : nat) (n : nat) (sheets : nat * nat * nat)
    (wb : Workbook) : M Workbook :=
  match n with
  | O => ret wb
  | S n' =>
      let! p := Person_new pow rng fake cat fuel in
      generate_rows fuel n' sheets (append_person sheets p wb)
  end.

(** [apply_dark_theme(ws); autofit_columns(ws)] on the worksheet at the
    position [ws]. A worksheet of the dictionary is always a sheet of the
    workbook, so the last case is not reached. *)
Definition finish_sheet (ws : nat) (wb : Workbook) : M Workbook :=
  match wb !! ws with
  | Some (title, sheet) =>
      match autofit_columns float_str date_str 8 40 (apply_dark_theme sheet) with
      | None => raise ValueError
      | Some sheet' => ret (<[ws := (title, sheet')]> wb)
      end
  | None => ret wb
  end.

(** The whole of [generate_aiuser_excel]: the workbook that is saved. *)
Definition generate_aiuser_excel_wb (disk : option Workbook) (fuel : nat)
    (num_people : Z) : M Workbook :=
  fun w =>
  let wb := load_or_create_workbook lower dedup_suffix disk in
  match prepare_identity_sheet lower dedup_suffix wb with
  | None => Raise ValueError
  | Some (wb, ws_identity) =>
  match prepare_holding_sheet lower dedup_suffix (TICKERS cat) wb with
  | None => Raise ValueError
  | Some (wb, ws_holding) =>
  match prepare_profile_sheet lower dedup_suffix wb with
  | None => Raise ValueError
  | Some (wb, ws_profile) =>
      (let! wb := generate_rows fuel (Z.to_nat num_people)
                    (ws_identity, ws_holding, ws_profile) wb in
       let! wb := finish_sheet ws_identity wb in
       let! wb := finish_sheet ws_holding wb in
       finish_sheet ws_profile wb) (set_idx 1 w)
  end end end.

End Batch.


(** ** More vocabulary *)

(** Every ticker of the catalog has a price above zero. *)
Definition prices_positive (cat : Catalog) : bool :=
  forallb (fun s => match PRICES cat !! s with
                    | Some p => Qltb 0 p
                    | None => false
                    end) (TICKERS cat).

(** What the holdings cost at the reference prices. *)
Definition holdings_cost (cat : Catalog) (h : gmap string Z) : Q :=
  foldr (fun kv acc =>
           (inject_Z kv.2 * default 0 (PRICES cat !! kv.1) + acc)%Q)
        0%Q (map_to_list h).

(** The part of [s] before the first [c]: [s.split(c)[0]]. *)
Fixpoint str_before (c : ascii) (s : string) : string :=
  match s with
  | EmptyString => EmptyString
  | String a s' => if Ascii.eqb a c then EmptyString else String a (str_before c s')
  end.

(** The data rows of a sheet: all but the header. *)
Definition data_rows (ws : Worksheet) : list (list Cell) := tail (ws_rows ws).

(** The stand-in for [**] clamped into [0,1]: for the powers of a base of
    [0,1); still exact for the base 0 and for the exponent 0. *)
Definition pow_clamped (x y : Q) : Q := clamp01 (pow_chord x y).

(** A run of the constructor with that power. *)
Definition demo_run_clamped : Res Person :=
  Person_new pow_clamped (tape_of []) faker_demo builtin_catalog 1 world0.

(** The ranges of the trade limits. The largest slippage tolerance is
    [0.03 * 1.2]; the bound leaves room for the last place of that
    product, which as a double lies above the double [0.036]. *)
Definition TradeLimits_ranges (lm : LimitData) : Prop :=
  (0.004 <= slippage_tolerance lm /\ slippage_tolerance lm <= 0.0361)%Q /\
  (0.016 <= max_limit_offset lm /\ max_limit_offset lm <= 0.06)%Q /\
  (0.00032 <= min_limit_offset lm
   /\ min_limit_offset lm <= 0.3 * max_limit_offset lm)%Q /\
  (0.05 <= per_pos_max lm /\ per_pos_max lm <= (1 # 6))%Q /\
  (0 < min_trade_amount lm /\ min_trade_amount lm < max_trade_amount lm
   /\ max_trade_amount lm < per_pos_max lm)%Q /\
  100 <= max_daily_trades lm <= 480 /\
  10 <= max_orders lm <= 60.

(** The rows of the sheet [name], if the workbook has it. *)
Definition sheet_rows (name : string) (wb : Workbook) : option (list (list Cell)) :=
  ws_rows <$> get_sheet name wb.

(** The cell of [row] in the column that [header] names [name]. *)
Definition cell_named (header : list string) (row : list Cell) (name : string)
    : option Cell :=
  match list_find (fun h => h = name) header with
  | Some (i, _) => row !! i
  | None => None
  end.

(** The title is free for [reset_or_create_sheet]: a sheet has it, or it
    is not empty and no sheet has a title that equals it when case is
    ignored. *)
Definition title_free (lower : string -> string) (names : list string)
    (title : string) : Prop :=
  title ∈ names \/
  (title <> EmptyString /\ forall n, n ∈ names -> lower n <> lower title).

(** The titles are free in a workbook with the sheets [names], and differ
    when case is ignored. *)
Definition titles_usable (lower : string -> string) (names titles : list string)
    : Prop :=
  NoDup (lower <$> titles) /\ Forall (title_free lower names) titles.

(** A sheet with no cell, whatever its column widths. *)
Definition no_cells (ws : Worksheet) : Prop :=
  ws_rows ws = [] /\ ws_styles ws = ∅ /\ ws_touched ws = (0, 0)%nat.


(** A sheet that holds [rows] and nothing else: no style, no cell
    without a value. *)
Definition fresh_sheet (rows : list (list Cell)) (widths : gmap nat Q) : Worksheet :=
  {| ws_rows := rows; ws_styles := ∅; ws_touched := (0, 0)%nat; ws_widths := widths |}.

(** The column widths that the sheet [name] has, none when there is no
    such sheet. *)
Definition old_widths (name : string) (wb : Workbook) : gmap nat Q :=
  default ∅ (ws_widths <$> get_sheet name wb).

(** The three sheets of a batch: the title, and the rows in order, the
    header first. *)
Definition batch_sheets (cat : Catalog) (ps : list Person)
    : list (string * list (list Cell)) :=
  [ ("Identity"%string, (CStr <$> identity_header) :: map ToIdentityList ps);
    ("Holding"%string,
     (CStr <$> holding_header (TICKERS cat)) :: map (ToHoldingList cat) ps);
    ("Profile"%string, (CStr <$> profile_header) :: map ToProfileList ps) ].

(** The titles of the three sheets with the number of columns of each. *)
Definition batch_columns (cat : Catalog) : list (string * nat) :=
  [ ("Identity"%string, 5%nat);
    ("Holding"%string, (2 + length (TICKERS cat))%nat);
    ("Profile"%string, 23%nat) ].

(** ** Examples of sheets *)

(** Stand-ins for [str] of a float and of a date. *)
Definition float_str_demo (q : Q) : string := "0.0".
Definition date_str_demo (d : Z) : string := "2000-01-01".

(** A sheet of two rows. *)
Definition demo_sheet : Worksheet :=
  fresh_sheet [ [CStr "UserId"; CStr "Username"]; [CInt 1; CStr "johnsmith"] ] ∅.

(** [str.lower] on the letters A to Z, and a count that is always 1. *)
Definition lower_ascii (s : string) : string :=
  string_of_list_ascii
    (map (fun c => let n := nat_of_ascii c in
                   if (65 <=? n)%nat && (n <=? 90)%nat then ascii_of_nat (n + 32) else c)
         (list_ascii_of_string s)).

Definition suffix_demo (names : list string) (value : string) : string := "1".

(** A run of [generate_aiuser_excel] for three personas with no file at
    the path. *)
Definition demo_workbook : Res Workbook :=
  generate_aiuser_excel_wb lower_ascii suffix_demo float_str_demo date_str_demo
    pow_chord (tape_of []) faker_demo builtin_catalog None 3 3 world0.

(** A workbook with a sheet whose title differs from [Identity] in case
    only, and the run on it with no persona. *)
Definition clash_workbook : Workbook := [("identity"%string, empty_sheet)].

Definition demo_clash : Res Workbook :=
  generate_aiuser_excel_wb lower_ascii suffix_demo float_str_demo date_str_demo
    pow_chord (tape_of []) faker_demo builtin_catalog (Some clash_workbook) 3 0 world0.

(** What [prepare_sheet name header] leaves of the workbook [wb]: the
    workbook [wb'] in which the worksheet at position [i], titled [t],
    holds the header and nothing else, and every other sheet is as it
    was. The sheet is the one that had the title, or a new last one. *)
Definition prepared (lower : string -> string)
    (dedup_suffix : list string -> string -> string)
    (name : string) (header : list string) (wb wb' : Workbook) (i : nat) (t : string)
    : Prop :=
  (forall j, j <> i -> wb' !! j = wb !! j) /\
  wb' !! i = Some (t, fresh_sheet [CStr <$> header] (old_widths name wb)) /\
  ((sheet_index name wb = Some i /\ t = name /\ sheetnames wb' = sheetnames wb) \/
   (sheet_index name wb = None /\ i = length wb /\
    t = avoid_duplicate_name lower dedup_suffix (sheetnames wb) (title_or_default name) /\
    sheetnames wb' = sheetnames wb ++ [t])).

(** A workbook on disk that has an Identity sheet with an old row. *)
Definition demo_disk : Workbook :=
  [ ("Template"%string, empty_sheet);
    ("Identity"%string, fresh_sheet [[CStr "UserId"]; [CInt 7]] ∅) ].
(** * Verification *)

(** ** Rational arithmetic *)

Lemma dr_range (d : draw) : (0 <= dr_val d /\ dr_val d < 1)%Q.
Proof.
  destruct d as [q Hq]; simpl. unfold in_unit in Hq.
  apply andb_prop in Hq as [H0 H1].
  apply Qle_bool_iff in H0. split; [exact H0|].
  apply Qnot_le_lt. intros H. apply Qle_bool_iff in H.
  rewrite H in H1. discriminate.
Qed.

Lemma Qltb_lt x y : Qltb x y = true <-> (x < y)%Q.
Proof.
  unfold Qltb. rewrite negb_true_iff. split.
  - intros H. apply Qnot_le_lt. intros Hle. apply Qle_bool_iff in Hle. congruence.
  - intros H. destruct (Qle_bool y x) eqn:E; [|reflexivity].
    apply Qle_bool_iff in E. exfalso. exact (Qlt_not_le _ _ H E).
Qed.

Lemma Qltb_ge x y : Qltb x y = false <-> (y <= x)%Q.
Proof.
  unfold Qltb. rewrite negb_false_iff. apply Qle_bool_iff.
Qed.

Ltac case_Qltb x y :=
  let E := fresh "E" in
  destruct (Qltb x y) eqn:E;
  [apply Qltb_lt in E | apply Qltb_ge in E].

Lemma clamp01_range x : (0 <= clamp01 x /\ clamp01 x <= 1)%Q.
Proof.
  unfold clamp01. case_Qltb x 0%Q; [lra|].
  case_Qltb 1%Q x; lra.
Qed.

Lemma clamp01_id x : (0 <= x <= 1)%Q -> clamp01 x = x.
Proof.
  intros [H0 H1]. unfold clamp01.
  case_Qltb x 0%Q; [lra|]. case_Qltb 1%Q x; [lra|reflexivity].
Qed.

Lemma py_min_le_l a b : (py_min a b <= a)%Q.
Proof. unfold py_min. case_Qltb b a; lra. Qed.

Lemma py_min_le_r a b : (py_min a b <= b)%Q.
Proof. unfold py_min. case_Qltb b a; lra. Qed.

Lemma py_min_glb a b c : (c <= a -> c <= b -> c <= py_min a b)%Q.
Proof. unfold py_min. case_Qltb b a; lra. Qed.

Lemma py_max_ge_l a b : (a <= py_max a b)%Q.
Proof. unfold py_max. case_Qltb a b; lra. Qed.

Lemma py_max_ge_r a b : (b <= py_max a b)%Q.
Proof. unfold py_max. case_Qltb a b; lra. Qed.

Lemma py_max_lub a b c : (a <= c -> b <= c -> py_max a b <= c)%Q.
Proof. unfold py_max. case_Qltb a b; lra. Qed.

Lemma Qfloor_bounds (x : Q) (lo hi : Z) :
  (inject_Z lo <= x)%Q -> (x < inject_Z hi)%Q -> lo <= Qfloor x < hi.
Proof.
  intros Hlo Hhi. split.
  - rewrite <- (Qfloor_Z lo). apply Qfloor_resp_le. exact Hlo.
  - destruct (Z_lt_le_dec (Qfloor x) hi) as [|Hge]; [assumption|exfalso].
    assert (inject_Z hi <= x)%Q.
    { apply Qle_trans with (inject_Z (Qfloor x)); [|apply Qfloor_le].
      rewrite <- Zle_Qle. exact Hge. }
    lra.
Qed.

Lemma py_int_nonneg (x : Q) : (0 <= x)%Q -> py_int x = Qfloor x.
Proof.
  intros H. unfold py_int. apply Qle_bool_iff in H. rewrite H. reflexivity.
Qed.

Lemma py_int_bounds (x : Q) (lo hi : Z) :
  0 <= lo -> (inject_Z lo <= x)%Q -> (x < inject_Z hi)%Q -> lo <= py_int x < hi.
Proof.
  intros H0 Hlo Hhi. rewrite py_int_nonneg.
  - apply Qfloor_bounds; assumption.
  - apply Qle_trans with (inject_Z lo); [|exact Hlo].
    change 0%Q with (inject_Z 0). rewrite <- Zle_Qle. exact H0.
Qed.

(** ** Rules of the weakest preconditions *)

Lemma same_registry_refl w : same_registry w w.
Proof. repeat split. Qed.

Lemma same_registry_trans w1 w2 w3 :
  same_registry w1 w2 -> same_registry w2 w3 -> same_registry w1 w3.
Proof.
  unfold same_registry. intros (?&?&?&?) (?&?&?&?).
  repeat split; congruence.
Qed.

Lemma wp_ok {A} E (m : M A) Q w a w' :
  wp E m Q w -> m w = Ok a w' -> Q a w'.
Proof. unfold wp. intros H Hm. rewrite Hm in H. exact H. Qed.

Lemma wp_ret {A} E (a : A) (Q : A -> World -> Prop) w : Q a w -> wp E (ret a) Q w.
Proof. intros H. exact H. Qed.

Lemma wp_bind {A B} E (m : M A) (k : A -> M B) Q w :
  wp E m (fun a w' => wp E (k a) Q w') w -> wp E (bind m k) Q w.
Proof. unfold wp, bind. destruct (m w); auto. Qed.

Lemma wp_mono {A} E (m : M A) (P Q : A -> World -> Prop) w :
  wp E m P w -> (forall a w', P a w' -> Q a w') -> wp E m Q w.
Proof. unfold wp. destruct (m w); auto. Qed.

Lemma wp_returns {A} (m : M A) Q w :
  wp False m Q w -> exists a w', m w = Ok a w' /\ Q a w'.
Proof. unfold wp. destruct (m w); [eauto | contradiction | contradiction]. Qed.

Lemma wpr_ret {A} E (a : A) (P : A -> Prop) w : P a -> wpr E (ret a) P w.
Proof. intros H. split; [exact H | apply same_registry_refl]. Qed.

Lemma wpr_raise {A} (E : Prop) e (P : A -> Prop) w : E -> wpr E (raise e) P w.
Proof. intros H. exact H. Qed.

Lemma wpr_bind {A B} E (m : M A) (k : A -> M B) (P1 : A -> Prop) (P2 : B -> Prop) w :
  wpr E m P1 w ->
  (forall a w', P1 a -> wpr E (k a) P2 w') ->
  wpr E (bind m k) P2 w.
Proof.
  intros Hm Hk. apply wp_bind. eapply wp_mono; [exact Hm|].
  intros a w' [Ha Hw]. eapply wp_mono; [exact (Hk a w' Ha)|].
  intros b w'' [Hb Hw']. split; [exact Hb|].
  eapply same_registry_trans; eassumption.
Qed.

Lemma wpr_bind_ret {A B} E (a : A) (k : A -> M B) (P : B -> Prop) w :
  wpr E (k a) P w -> wpr E (bind (ret a) k) P w.
Proof. intros H. exact H. Qed.

Lemma wpr_mono {A} E (m : M A) (P Q : A -> Prop) w :
  wpr E m P w -> (forall a, P a -> Q a) -> wpr E m Q w.
Proof.
  intros Hm HPQ. eapply wp_mono; [exact Hm|].
  intros a w' [Ha Hw]. split; auto.
Qed.

Lemma wpr_ok {A} E (m : M A) P w a w' :
  wpr E m P w -> m w = Ok a w' -> P a /\ same_registry w w'.
Proof. intros H Hm. exact (wp_ok _ _ _ _ _ _ H Hm). Qed.

Tactic Notation "wstep" constr(lem) :=
  eapply wpr_bind; [ eapply lem | cbv beta; intros ].

Tactic Notation "wstep" constr(lem) "as" ident(x) ident(H) :=
  eapply wpr_bind; [ eapply lem | cbv beta; intros x ? H ].

Section RandomSpecs.

Variable pow : Q -> Q -> Q.
Variable rng : nat -> draw.
Variable E : Prop.

Lemma wpr_random w :
  wpr E (random_random rng) (fun u => 0 <= u /\ u < 1)%Q w.
Proof.
  split; [apply dr_range|]. repeat split.
Qed.

Lemma wpr_uniform (a b : Q) w :
  (a <= b)%Q ->
  wpr E (random_uniform rng a b) (fun r => a <= r /\ r <= b)%Q w.
Proof.
  intros Hab. unfold random_uniform. wstep wpr_random.
  apply wpr_ret. destruct H. split; nra.
Qed.

Lemma wpr_randbelow (n : Z) w :
  0 < n -> wpr E (randbelow rng n) (fun r => 0 <= r < n) w.
Proof.
  intros Hn. unfold randbelow. wstep wpr_random.
  apply wpr_ret. destruct H as [H0 H1].
  assert (0 < inject_Z n)%Q.
  { change 0%Q with (inject_Z 0). rewrite <- Zlt_Qlt. exact Hn. }
  apply Qfloor_bounds.
  - change (inject_Z 0) with 0%Q. nra.
  - nra.
Qed.

Lemma wpr_randint (a b : Z) w :
  (b < a -> E) ->
  wpr E (random_randint rng a b) (fun r => a <= r <= b) w.
Proof.
  intros HE. unfold random_randint. destruct (Z.ltb_spec b a).
  - apply wpr_raise. auto.
  - wstep wpr_randbelow; [lia|]. apply wpr_ret. lia.
Qed.

Lemma wpr_choice {A} (l : list A) w :
  (l = [] -> E) ->
  wpr E (random_choice rng l) (fun x => x ∈ l) w.
Proof.
  intros HE. unfold random_choice. destruct l as [|x l'].
  - apply wpr_raise. auto.
  - wstep wpr_randbelow; [simpl; lia|]. apply wpr_ret.
    apply list_elem_of_In. apply nth_In. lia.
Qed.

Lemma wpr_skewed01 (skew : Q) w :
  wpr E (skewed01 pow rng skew) (fun y => exists u, (0 <= u /\ u < 1)%Q /\ y = pow u skew) w.
Proof.
  unfold skewed01. wstep wpr_random. apply wpr_ret. eauto.
Qed.

Lemma wpr_jitter (x rel : Q) w :
  (0 <= rel)%Q ->
  wpr E (jitter rng x rel)
      (fun y => exists r, (- rel <= r /\ r <= rel)%Q /\ y = (x * (1 + r))%Q) w.
Proof.
  intros Hrel. unfold jitter. wstep wpr_uniform; [lra|].
  apply wpr_ret. eauto.
Qed.

End RandomSpecs.

(** ** [random.sample] *)

Lemma pool_swap_remove {A} (pool : list A) (j : nat) (x y : A) :
  pool !! j = Some x ->
  pool !! (length pool - 1)%nat = Some y ->
  x :: take (length pool - 1) (<[j := y]> pool) ≡ₚ pool.
Proof.
  intros Hx Hy.
  assert (Hj : (j < length pool)%nat) by (apply lookup_lt_is_Some; eauto).
  set (n := (length pool - 1)%nat) in *.
  assert (Hpool : pool = take n pool ++ [y]).
  { rewrite <- (take_S_r _ _ _ Hy). symmetry. apply take_ge. lia. }
  destruct (decide (j = n)) as [->|Hne].
  - rewrite take_insert_ge by lia.
    assert (x = y) by congruence. subst y.
    rewrite Hpool at 2. apply Permutation_cons_append.
  - rewrite take_insert_lt by lia.
    set (q := take n pool) in *.
    assert (Hq : q !! j = Some x).
    { unfold q. rewrite lookup_take_lt by lia. exact Hx. }
    assert (Hlen : (j < length q)%nat) by (apply lookup_lt_is_Some; eauto).
    rewrite insert_take_drop by exact Hlen.
    rewrite Hpool. rewrite <- (take_drop_middle q j x Hq) at 3.
    rewrite <- !Permutation_middle. rewrite app_nil_r.
    apply perm_swap.
Qed.

Section SampleSpecs.

Variable rng : nat -> draw.
Variable E : Prop.

Lemma wpr_sample_pool {A} (k : nat) : forall (pool : list A) w,
  (k <= length pool)%nat ->
  wpr E (sample_pool rng pool k)
      (fun l => length l = k /\ exists rest, pool ≡ₚ l ++ rest) w.
Proof.
  induction k as [|k IH]; intros pool w Hk; simpl.
  - apply wpr_ret. split; [reflexivity|]. exists pool. reflexivity.
  - wstep wpr_randbelow; [lia|].
    destruct (lookup_lt_is_Some_2 pool (Z.to_nat a)) as [x Hx]; [lia|].
    destruct (lookup_lt_is_Some_2 pool (length pool - 1)) as [y Hy]; [lia|].
    rewrite Hx, Hy.
    wstep IH.
    { rewrite length_take, length_insert. lia. }
    apply wpr_ret. destruct H0 as [Hlen [rest Hrest]].
    split; [simpl; congruence|].
    exists rest. rewrite <- (pool_swap_remove pool _ x y Hx Hy).
    simpl. apply perm_skip. exact Hrest.
Qed.

Lemma wpr_sample {A} (population : list A) (k : Z) w :
  (k < 0 \/ Z.of_nat (length population) < k -> E) ->
  wpr E (random_sample rng population k)
      (fun l => 0 <= k /\ length l = Z.to_nat k /\
                exists rest, population ≡ₚ l ++ rest) w.
Proof.
  intros HE. unfold random_sample.
  destruct (Z.ltb_spec k 0); simpl.
  { apply wpr_raise. auto. }
  destruct (Z.ltb_spec (Z.of_nat (length population)) k).
  { apply wpr_raise. auto. }
  eapply wpr_mono; [apply wpr_sample_pool; lia|].
  intros l [Hl Hr]. auto.
Qed.

End SampleSpecs.

(** ** Handles: [generate_username] *)

Lemma str_all_filter f s : str_all f (str_filter f s) = true.
Proof.
  induction s as [|c s IH]; simpl; [reflexivity|].
  destruct (f c) eqn:Hc; simpl; [rewrite Hc|]; exact IH.
Qed.

Lemma str_all_take f n : forall s, str_all f s = true -> str_all f (str_take n s) = true.
Proof.
  unfold str_take. induction n as [|n IH]; intros [|c s] H; simpl in *; try reflexivity.
  apply andb_prop in H as [Hc Hs]. rewrite Hc. simpl. apply IH. exact Hs.
Qed.

Lemma length_str_take n : forall s,
  String.length (str_take n s) = Nat.min n (String.length s).
Proof.
  unfold str_take. induction n as [|n IH]; intros [|c s]; simpl; try reflexivity.
  rewrite IH. reflexivity.
Qed.

Lemma str_all_weaken (f g : ascii -> bool) s :
  (forall c, f c = true -> g c = true) -> str_all f s = true -> str_all g s = true.
Proof.
  intros Hfg. induction s as [|c s IH]; simpl; [reflexivity|].
  intros H. apply andb_prop in H as [Hc Hs]. rewrite (Hfg c Hc). simpl. auto.
Qed.

Lemma chomp_id (f : ascii -> bool) s :
  f newline = false -> str_all f s = true -> chomp s = s.
Proof.
  intros Hnl. induction s as [|c s IH]; [reflexivity|].
  intros H. simpl in H. apply andb_prop in H as [Hc Hs].
  simpl. destruct s as [|c' s'].
  - destruct (Ascii.eqb_spec c newline) as [->|]; [congruence|reflexivity].
  - rewrite IH by exact Hs. reflexivity.
Qed.

Lemma chomp_cleaned raw : chomp (cleaned_of raw) = cleaned_of raw.
Proof.
  apply (chomp_id isalnum); [reflexivity|].
  apply str_all_take, str_all_filter.
Qed.

Lemma accepted_valid used raw :
  accepted used raw = true ->
  valid_handle (cleaned_of raw) /\ cleaned_of raw ∉ used.
Proof.
  unfold accepted, USERNAME_RE_match. rewrite chomp_cleaned.
  rewrite !andb_true_iff, !Nat.leb_le.
  intros [[_ [[Hall Hlo] Hhi]] Hnew].
  apply negb_true_iff, bool_decide_eq_false in Hnew.
  split; [split; [exact Hall | split; assumption] | exact Hnew].
Qed.

Lemma skip_user_names_tick k w :
  skip_user_names k (tick_user_name w) = skip_user_names (S k) w.
Proof.
  unfold skip_user_names, tick_user_name. simpl. f_equal. lia.
Qed.

Section Handles.

Variable fake : Faker.

Lemma generate_username_step fuel w :
  generate_username fake (S fuel) w =
  let raw := candidate fake w 0 in
  if accepted (Person_usernames w) raw
  then Ok (cleaned_of raw) (add_username (cleaned_of raw) (tick_user_name w))
  else generate_username fake fuel (tick_user_name w).
Proof.
  unfold candidate. rewrite Nat.add_0_r.
  cbn [generate_username]. unfold bind, fake_user_name, accepted, cleaned_of.
  destruct (String.length _ <? 5)%nat; simpl; [reflexivity|].
  destruct (USERNAME_RE_match _); simpl; [|reflexivity].
  destruct (bool_decide _); reflexivity.
Qed.

Lemma candidate_tick w i : candidate fake (tick_user_name w) i = candidate fake w (S i).
Proof. unfold candidate. simpl. f_equal. lia. Qed.

(** While every candidate is rejected the loop goes on. *)
Lemma generate_username_spins fuel : forall w,
  (forall i, (i < fuel)%nat -> accepted (Person_usernames w) (candidate fake w i) = false) ->
  generate_username fake fuel w = Spin.
Proof.
  induction fuel as [|fuel IH]; intros w Hrej; [reflexivity|].
  rewrite generate_username_step. cbv zeta.
  rewrite (Hrej 0%nat) by lia. apply IH.
  intros i Hi. rewrite candidate_tick. apply (Hrej (S i)). lia.
Qed.

(** The first accepted candidate is returned, cleaned, and registered. *)
Lemma generate_username_finds k : forall fuel w,
  (k < fuel)%nat ->
  (forall i, (i < k)%nat -> accepted (Person_usernames w) (candidate fake w i) = false) ->
  accepted (Person_usernames w) (candidate fake w k) = true ->
  generate_username fake fuel w =
  Ok (cleaned_of (candidate fake w k))
     (add_username (cleaned_of (candidate fake w k)) (skip_user_names (S k) w)).
Proof.
  induction k as [|k IH]; intros [|fuel] w Hk Hrej Hacc; try lia;
    rewrite generate_username_step; cbv zeta.
  - rewrite Hacc. do 2 f_equal.
    unfold skip_user_names, tick_user_name. f_equal. lia.
  - rewrite (Hrej 0%nat) by lia.
    rewrite (IH fuel (tick_user_name w)).
    + rewrite candidate_tick, skip_user_names_tick. reflexivity.
    + lia.
    + intros i Hi. rewrite candidate_tick. apply (Hrej (S i)). lia.
    + rewrite candidate_tick. exact Hacc.
Qed.

(** The position of the first accepted candidate among the first [fuel]. *)
Lemma first_accepted used (c : nat -> string) (fuel : nat) :
  (forall i, (i < fuel)%nat -> accepted used (c i) = false) \/
  (exists k, (k < fuel)%nat /\
             (forall i, (i < k)%nat -> accepted used (c i) = false) /\
             accepted used (c k) = true).
Proof.
  induction fuel as [|fuel [IH|(k & Hk & Hrej & Hacc)]].
  - left. intros i Hi. lia.
  - destruct (accepted used (c fuel)) eqn:Hacc.
    + right. exists fuel. split; [lia|]. split; [|exact Hacc].
      intros i Hi. apply IH. exact Hi.
    + left. intros i Hi. destruct (decide (i = fuel)) as [->|]; [exact Hacc|].
      apply IH. lia.
  - right. exists k. split; [lia|]. split; assumption.
Qed.

End Handles.

(** C1 (as the code has it): [generate_username] has no attempt bound and
    raises no exhaustion error. Whatever the number [fuel] of iterations
    that is granted, either every candidate read so far was rejected and
    the loop is still running, or the loop has returned the first accepted
    candidate, cleaned: a handle of 5 to 20 ASCII letters and digits that
    was not in use, and that is registered from then on. *)
Theorem generate_username_returns_or_spins (fake : Faker) (fuel : nat) (w : World) :
  (generate_username fake fuel w = Spin /\
   forall i, (i < fuel)%nat ->
     accepted (Person_usernames w) (candidate fake w i) = false)
  \/
  (exists k, (k < fuel)%nat /\
     (forall i, (i < k)%nat ->
        accepted (Person_usernames w) (candidate fake w i) = false) /\
     let h := cleaned_of (candidate fake w k) in
     generate_username fake fuel w = Ok h (add_username h (skip_user_names (S k) w)) /\
     valid_handle h /\ (h ∉ Person_usernames w)).
Proof.
  destruct (first_accepted (Person_usernames w) (candidate fake w) fuel)
    as [Hrej | (k & Hk & Hrej & Hacc)].
  - left. split; [|exact Hrej]. apply generate_username_spins. exact Hrej.
  - right. exists k. split; [exact Hk|]. split; [exact Hrej|]. cbv zeta.
    split; [apply generate_username_finds; assumption|].
    apply accepted_valid. exact Hacc.
Qed.

(** C1, as stated, fails: with a supplier of length-4 candidates no bound on
    the attempts ends the loop, by an error or otherwise. *)
Lemma generate_username_unbounded :
  ~ exists bound, stops_within faker_short world0 bound.
Proof.
  intros [bound Hstop]. apply Hstop.
  apply generate_username_spins. intros i _.
  unfold candidate, faker_short, faker_of. simpl.
  destruct i; reflexivity.
Qed.

(** With a usable supplier the loop does return: ["john.smith"] is cleaned
    to ["johnsmith"] at the first attempt. *)
Example generate_username_demo :
  match generate_username faker_demo 1 world0 with
  | Ok h w' => h = "johnsmith"%string /\ user_name_pos w' = 1%nat /\
               bool_decide ("johnsmith"%string ∈ Person_usernames w') = true
  | _ => False
  end.
Proof. vm_compute. repeat split. Qed.

Lemma generate_username_ok fake fuel w h w' :
  generate_username fake fuel w = Ok h w' ->
  valid_handle h /\ (h ∉ Person_usernames w) /\
  Person_usernames w' = ({[ h ]} ∪ Person_usernames w) /\
  Person_idx w' = Person_idx w /\ rng_pos w' = rng_pos w /\ fake_pos w' = fake_pos w.
Proof.
  intros Hrun.
  destruct (first_accepted (Person_usernames w) (candidate fake w) fuel)
    as [Hrej | (k & Hk & Hrej & Hacc)].
  - rewrite (generate_username_spins fake fuel w Hrej) in Hrun. discriminate.
  - rewrite (generate_username_finds fake k fuel w Hk Hrej Hacc) in Hrun.
    injection Hrun as <- <-.
    destruct (accepted_valid _ _ Hacc) as [Hvalid Hnew].
    repeat split; try assumption; apply Hvalid.
Qed.

Lemma Identity_ok fake fuel w idn w' :
  Identity fake fuel w = Ok idn w' ->
  user_id idn = Person_idx w /\ Person_idx w' = Person_idx w + 1 /\
  valid_handle (username idn) /\ (username idn ∉ Person_usernames w) /\
  Person_usernames w' = ({[ username idn ]} ∪ Person_usernames w) /\
  rng_pos w' = rng_pos w.
Proof.
  unfold Identity, bind, fake_call, ret. simpl.
  destruct (generate_username fake fuel _) as [h w1| |] eqn:Hgu; try discriminate.
  intros [= <- <-]. simpl.
  apply generate_username_ok in Hgu. simpl in Hgu.
  destruct Hgu as (Hv & Hnew & Hset & Hidx & Hrng & _).
  repeat split; try assumption; apply Hv.
Qed.

(** ** The stages that only draw random numbers *)

Section Stages.

Variable pow : Q -> Q -> Q.
Variable rng : nat -> draw.
Variable E : Prop.

Lemma interval_bounds (a r : Q) :
  (0 <= a /\ a <= 1)%Q -> (- 0.15 <= r /\ r <= 0.15)%Q ->
  1 <= py_int (py_max 1 ((20 - 12 * a * a) * (1 + r))) <= 23.
Proof.
  intros [Ha0 Ha1] [Hr0 Hr1].
  set (iv := ((20 - 12 * a * a) * (1 + r))%Q).
  assert (Hiv : (iv <= 23)%Q) by (unfold iv; nra).
  assert (H1 : (1 <= py_max 1 iv)%Q) by apply py_max_ge_l.
  assert (H2 : (py_max 1 iv <= 23)%Q) by (apply py_max_lub; lra).
  assert (1 <= py_int (py_max 1 iv) < 24); [|lia].
  apply py_int_bounds; [lia | exact H1 |].
  change (inject_Z 24) with 24%Q. lra.
Qed.

Lemma TradeProperties_spec w :
  wpr E (TradeProperties pow rng) TradeProperties_post w.
Proof.
  unfold TradeProperties.
  wstep wpr_skewed01 as base_agg Hbase. wstep wpr_jitter as a Ha; [lra|].
  wstep wpr_skewed01 as sk Hsk. wstep wpr_jitter as o Ho; [lra|].
  wstep wpr_jitter as iv Hiv; [lra|]. wstep wpr_jitter as tp Htp; [lra|].
  wstep wpr_choice as st Hst; [discriminate|].
  apply wpr_ret. unfold TradeProperties_post; simpl.
  destruct Hiv as (r & Hr & ->).
  pose proof (clamp01_range a) as Hagg.
  split; [exact Hagg|].
  split; [apply clamp01_range|]. split; [apply clamp01_range|].
  split; [exists r; split; [exact Hr | reflexivity]|].
  split; [|assumption].
  apply interval_bounds; assumption.
Qed.

Lemma OrderTypes_spec aggr w :
  wpr E (OrderTypes pow rng aggr) OrderTypes_post w.
Proof.
  unfold OrderTypes.
  wstep wpr_skewed01 as s1 Hs1. wstep wpr_skewed01 as s2 Hs2.
  wstep wpr_jitter as b Hb; [lra|].
  apply wpr_ret. unfold OrderTypes_post; simpl. split.
  - apply py_max_ge_l.
  - apply py_max_lub; [lra | apply py_min_le_l].
Qed.

Lemma inv_stocks_pos (n : Z) : 1 <= n -> (0 < 1 / inject_Z n)%Q.
Proof.
  intros Hn. unfold Qdiv. rewrite Qmult_1_l. apply Qinv_lt_0_compat.
  change 0%Q with (inject_Z 0). rewrite <- Zlt_Qlt. lia.
Qed.

Lemma TradeLimits_spec aggr max_stocks w :
  (max_stocks = 0 -> E) ->
  wpr E (TradeLimits rng aggr max_stocks) (TradeLimits_post aggr max_stocks) w.
Proof.
  intros HE. unfold TradeLimits.
  wstep wpr_jitter as st Hst; [lra|]. wstep wpr_jitter as ml Hml; [lra|].
  wstep wpr_uniform as u Hu; [lra|].
  destruct (Z.eqb_spec max_stocks 0) as [Hz|Hz].
  { apply wpr_raise. auto. }
  wstep wpr_jitter as pp Hpp; [lra|].
  wstep wpr_uniform as u1 Hu1; [lra|]. wstep wpr_uniform as u2 Hu2; [lra|].
  wstep wpr_jitter as jt Hjt; [lra|]. wstep wpr_jitter as jo Hjo; [lra|].
  apply wpr_ret. unfold TradeLimits_post, trade_chain; simpl.
  set (pm := (1 / inject_Z max_stocks)%Q).
  pose proof (clamp01_range pp) as Hc.
  pose proof (py_min_le_l (clamp01 pp) pm) as Hl.
  pose proof (py_min_le_r (clamp01 pp) pm) as Hr.
  split.
  { intros Hms. pose proof (inv_stocks_pos _ Hms) as Hpm. fold pm in Hpm.
    assert (0 <= py_min (clamp01 pp) pm)%Q by (apply py_min_glb; lra).
    repeat split; [nra | nra | exact Hr]. }
  split; [destruct Hpp as (r & Hrr & ->); exists r; split; [exact Hrr | reflexivity]|].
  split; [apply clamp01_range|].
  split.
  { pose proof (clamp01_range ml) as Hm.
    rewrite (clamp01_id (clamp01 ml)) by exact Hm.
    assert (Hmin : (0 <= clamp01 ml * u /\ clamp01 ml * u <= clamp01 ml)%Q) by nra.
    rewrite (clamp01_id (clamp01 ml * u)) by nra. lra. }
  split; lia.
Qed.

End Stages.

(** ** The portfolio stage *)

Lemma catalog_ok_price cat s :
  catalog_ok cat = true -> s ∈ TICKERS cat ->
  exists p, PRICES cat !! s = Some p /\ Qeq_bool p 0 = false.
Proof.
  unfold catalog_ok. rewrite andb_true_iff, forallb_forall.
  intros [Hall _] Hs. apply list_elem_of_In in Hs.
  specialize (Hall s Hs). unfold price_ok in Hall.
  destruct (PRICES cat !! s) as [p|]; [|discriminate].
  exists p. split; [reflexivity|]. apply negb_true_iff. exact Hall.
Qed.

Lemma catalog_ok_size cat : catalog_ok cat = true -> (20 < length (TICKERS cat))%nat.
Proof.
  unfold catalog_ok. rewrite andb_true_iff, Nat.ltb_lt. tauto.
Qed.

Lemma foldl_insert_is_Some {V} (l : list (string * V)) : forall (acc : gmap string V) s,
  is_Some (acc !! s) \/ s ∈ l.*1 ->
  is_Some (foldl (fun m kv => <[kv.1 := kv.2]> m) acc l !! s).
Proof.
  induction l as [|[k v] l IH]; intros acc s H; simpl.
  - destruct H as [H|H]; [exact H|]. inversion H.
  - apply IH. simpl in H.
    destruct (decide (k = s)) as [->|Hne].
    + left. rewrite lookup_insert_eq. eauto.
    + destruct H as [H|H].
      * left. rewrite lookup_insert_ne by exact Hne. exact H.
      * apply elem_of_cons in H as [->|H]; [congruence|]. right. exact H.
Qed.

Lemma dict_zip_is_Some {V} (keys : list string) (values : list V) s :
  (length keys <= length values)%nat -> s ∈ keys ->
  is_Some (dict_zip keys values !! s).
Proof.
  intros Hlen Hs. unfold dict_zip. apply foldl_insert_is_Some.
  right. rewrite fst_zip by exact Hlen. exact Hs.
Qed.

Lemma STOCKIDS_is_Some cat s : s ∈ TICKERS cat -> is_Some (STOCKIDS cat !! s).
Proof.
  intros Hs. unfold STOCKIDS. apply dict_zip_is_Some; [|exact Hs].
  rewrite length_seqZ. lia.
Qed.

Lemma Qeq_bool_stocks (n : Z) : 1 <= n -> Qeq_bool (inject_Z n) 0 = false.
Proof.
  intros Hn. destruct (Qeq_bool (inject_Z n) 0) eqn:Heq; [|reflexivity].
  apply Qeq_bool_iff in Heq. unfold Qeq in Heq. simpl in Heq. lia.
Qed.

Section PortfolioSpecs.

Variable E : Prop.

Lemma lookup_all_spec {V} (d : gmap string V) : forall l w,
  (forall s, s ∈ l -> is_Some (d !! s)) ->
  wpr E (lookup_all d l) (fun vs => length vs = length l) w.
Proof.
  induction l as [|s l IH]; intros w Hd; simpl.
  - apply wpr_ret. reflexivity.
  - destruct (Hd s) as [v Hv]; [left|]. rewrite Hv.
    wstep IH as vs Hvs.
    { intros t Ht. apply Hd. right. exact Ht. }
    apply wpr_ret. simpl. congruence.
Qed.

Lemma holdings_of_spec prices amount : forall l acc w,
  ((forall s, s ∈ l -> exists p, prices !! s = Some p /\ Qeq_bool p 0 = false) \/ E) ->
  wpr E (holdings_of prices amount l acc) (holdings_post prices amount l acc) w.
Proof.
  induction l as [|s l IH]; intros acc w Hok; simpl.
  - apply wpr_ret. split; [simpl; rewrite (right_id_L ∅ (∪)); reflexivity|].
    split; [|reflexivity].
    intros s Hs. inversion Hs.
  - assert (Hs : (exists p, prices !! s = Some p /\ Qeq_bool p 0 = false) \/ E).
    { destruct Hok as [Hok|He]; [left|right; exact He]. apply Hok. left. }
    destruct (prices !! s) as [price|] eqn:Hprice.
    2:{ destruct Hs as [(p & Hp & _)|He]; [discriminate | exact He]. }
    unfold py_floordiv. destruct (Qeq_bool price 0) eqn:Hzero.
    { destruct Hs as [(p & Hp & Hnz)|He]; [congruence | exact He]. }
    apply wpr_bind_ret. eapply wpr_mono.
    { apply IH. destruct Hok as [Hok|He]; [left|right; exact He].
      intros t Ht. apply Hok. right. exact Ht. }
    intros h (Hdom & Hval & Hrest).
    split.
    { rewrite Hdom, dom_insert_L. simpl.
      rewrite (assoc_L (∪)), (comm_L (∪) (dom acc) {[ s ]}). reflexivity. }
    split.
    + intros t Ht. destruct (decide (t ∈ l)) as [Hin|Hnin]; [apply Hval; exact Hin|].
      apply elem_of_cons in Ht as [->|Ht]; [|contradiction].
      exists price. split; [exact Hprice|]. split; [exact Hzero|].
      rewrite (Hrest s Hnin), lookup_insert_eq. reflexivity.
    + intros t Ht. apply not_elem_of_cons in Ht as [Hne Hnin].
      rewrite (Hrest t Hnin), lookup_insert_ne by congruence. reflexivity.
Qed.

End PortfolioSpecs.

Section PortfolioStage.

Variable pow : Q -> Q -> Q.
Variable rng : nat -> draw.
Variable cat : Catalog.
Variable E : Prop.

Lemma stock_band_spec aggr w :
  wpr E (stock_band rng aggr) (stock_band_post aggr) w.
Proof.
  unfold stock_band, stock_band_post.
  case_Qltb aggr 0.3%Q; [|case_Qltb aggr 0.6%Q].
  all: wstep wpr_randint as lo Hlo; [lia|].
  all: wstep wpr_randint as hi Hhi; [lia|].
  all: apply wpr_ret; simpl; repeat split; try lia.
  all: intros Hlt; lra.
Qed.

Lemma wpr_sample_log_balance (min_base max_factor : Q) w :
  wpr E (sample_log_balance pow rng min_base max_factor)
      (fun b => exists u, (0 <= u /\ u < 1)%Q /\
                          b = py_int (min_base * pow max_factor u)) w.
Proof.
  unfold sample_log_balance. wstep wpr_random as u Hu. apply wpr_ret. eauto.
Qed.

Lemma Portfolio_spec aggr w :
  catalog_ok cat = true \/ E ->
  wpr E (Portfolio pow rng cat aggr) (Portfolio_post pow cat aggr) w.
Proof.
  intros Hcat. unfold Portfolio.
  wstep wpr_sample_log_balance as bal Hbal.
  wstep wpr_jitter as mc Hmc; [lra|].
  wstep wpr_uniform as u Hu; [lra|].
  wstep stock_band_spec as band Hband.
  destruct band as [lo hi]. destruct Hband as (Hlo & Hlt & Hhi & Hlow).
  simpl in Hlo, Hlt, Hhi, Hlow. simpl fst. simpl snd.
  wstep wpr_randint as extra Hextra; [lia|].
  wstep wpr_sample as wl Hwl; [intros [Hbad|Hbad]; lia|].
  destruct Hwl as (Hsize & Hwlen & rest & Hperm).
  assert (Hsub : forall s, s ∈ wl -> s ∈ TICKERS cat).
  { intros s Hs. rewrite Hperm. apply elem_of_app. left. exact Hs. }
  wstep lookup_all_spec as ids Hids.
  { intros s Hs. apply STOCKIDS_is_Some, Hsub, Hs. }
  wstep wpr_randint as n Hn; [lia|].
  wstep wpr_sample as picked0 Hpicked.
  { intros Hbad. destruct Hcat as [Hok|He]; [exfalso|exact He].
    apply catalog_ok_size in Hok. lia. }
  destruct Hpicked as (_ & Hplen & rest' & Hperm').
  unfold py_floordiv. rewrite Qeq_bool_stocks by lia.
  apply wpr_bind_ret.
  set (picked := merge_sort String.le picked0).
  assert (Hsorted : picked ≡ₚ picked0) by apply merge_sort_Permutation.
  wstep holdings_of_spec as h Hh.
  { destruct Hcat as [Hok|He]; [left|right; exact He].
    intros s Hs. apply (catalog_ok_price _ _ Hok), Hsub.
    rewrite Hperm'. apply elem_of_app. left. rewrite <- Hsorted. exact Hs. }
  apply wpr_ret. unfold Portfolio_post, stock_band_post; simpl.
  pose proof (clamp01_range mc) as Hc.
  assert (Hlen : Z.of_nat (length picked) = n).
  { rewrite Hsorted, Hplen. lia. }
  split; [exact Hbal|].
  split; [nra|].
  split; [repeat split; solve [lia | apply Hlow; assumption]|].
  split; [exists extra; split; [exact Hextra | lia]|].
  split; [exists rest; exact Hperm|].
  split; [rewrite merge_sort_Permutation; exact Hids|].
  exists picked, rest'. split; [rewrite Hsorted; exact Hperm'|].
  split; [lia|]. rewrite Hlen. exact Hh.
Qed.

End PortfolioStage.

(** ** The constructor and the batch *)

Section PersonSpecs.

Variable pow : Q -> Q -> Q.
Variable rng : nat -> draw.
Variable fake : Faker.
Variable cat : Catalog.

Lemma Person_new_spec fuel w p w' :
  Person_new pow rng fake cat fuel w = Ok p w' -> Person_post pow cat w p w'.
Proof.
  unfold Person_new, bind. intros Hrun.
  destruct (random_randint rng 1000000 10000000 w) as [sd w1| |] eqn:Hsd;
    try discriminate.
  destruct (Identity fake fuel w1) as [idn w2| |] eqn:Hid; try discriminate.
  destruct (TradeProperties pow rng w2) as [tr w3| |] eqn:Htr; try discriminate.
  destruct (Portfolio pow rng cat (aggressive tr) w3) as [pf w4| |] eqn:Hpf;
    try discriminate.
  destruct (OrderTypes pow rng (aggressive tr) w4) as [od w5| |] eqn:Hod;
    try discriminate.
  destruct (TradeLimits rng (aggressive tr) (max_stocks pf) w5) as [lm w6| |] eqn:Hlm;
    try discriminate.
  injection Hrun as <- <-.
  destruct (wpr_ok True _ _ _ _ _
              (wpr_randint rng True 1000000 10000000 w (fun _ => I)) Hsd)
    as [Hseed (_ & _ & Hi1 & Hu1)].
  destruct (Identity_ok _ _ _ _ _ Hid) as (Huid & Hi2 & Hvalid & Hnew & Hu2 & _).
  destruct (wpr_ok True _ _ _ _ _ (TradeProperties_spec pow rng True w2) Htr)
    as [Htrade (_ & _ & Hi3 & Hu3)].
  destruct (wpr_ok True _ _ _ _ _
              (Portfolio_spec pow rng cat True (aggressive tr) w3 (or_intror I)) Hpf)
    as [Hport (_ & _ & Hi4 & Hu4)].
  destruct (wpr_ok True _ _ _ _ _
              (OrderTypes_spec pow rng True (aggressive tr) w4) Hod)
    as [Horder (_ & _ & Hi5 & Hu5)].
  destruct (wpr_ok True _ _ _ _ _
              (TradeLimits_spec rng True (aggressive tr) (max_stocks pf) w5 (fun _ => I)) Hlm)
    as [Hlimits (_ & _ & Hi6 & Hu6)].
  unfold Person_post, pid, pname; simpl.
  split; [congruence|]. split; [congruence|].
  split; [exact Hvalid|]. split; [congruence|]. split; [congruence|].
  split; [exact Hseed|]. split; [exact Htrade|]. split; [exact Hport|].
  split; [exact Horder | exact Hlimits].
Qed.

Lemma generate_people_spec fuel n : forall w ps w',
  generate_people pow rng fake cat fuel n w = Ok ps w' ->
  length ps = n /\
  map pid ps = seqZ (Person_idx w) (Z.of_nat n) /\
  Person_idx w' = Person_idx w + Z.of_nat n /\
  NoDup (map pname ps) /\
  (forall h, h ∈ map pname ps -> h ∉ Person_usernames w) /\
  Person_usernames w' = (list_to_set (map pname ps) ∪ Person_usernames w).
Proof.
  induction n as [|n IH]; intros w ps w'; simpl.
  - unfold ret. intros [= <- <-]. simpl.
    repeat split; try reflexivity; try lia.
    + constructor.
    + intros h Hh. inversion Hh.
    + rewrite (left_id_L ∅ (∪)). reflexivity.
  - unfold bind.
    destruct (Person_new pow rng fake cat fuel w) as [p w1| |] eqn:Hp; try discriminate.
    destruct (generate_people pow rng fake cat fuel n w1) as [ps' w2| |] eqn:Hps;
      try discriminate.
    unfold ret. intros [= <- <-].
    apply Person_new_spec in Hp.
    destruct Hp as (Hpid & Hidx & _ & Hnew & Huse & _).
    destruct (IH _ _ _ Hps) as (Hlen & Hids & Hidx' & Hnd & Hfresh & Huse').
    simpl. split; [congruence|].
    split.
    { rewrite seqZ_cons by lia. rewrite Hpid, Hids, Hidx. f_equal. f_equal; lia. }
    split; [lia|].
    split.
    { constructor; [|exact Hnd]. intros Hin. apply (Hfresh _ Hin).
      rewrite Huse. apply elem_of_union. left. apply elem_of_singleton. reflexivity. }
    split.
    { intros h Hh. apply elem_of_cons in Hh as [->|Hh]; [exact Hnew|].
      intros Hin. apply (Hfresh _ Hh). rewrite Huse.
      apply elem_of_union. right. exact Hin. }
    rewrite Huse', Huse.
    rewrite (assoc_L (∪)), (comm_L (∪) (list_to_set (map pname ps')) {[ pname p ]}).
    reflexivity.
Qed.

End PersonSpecs.

(** * The claims *)

Lemma NoDup_builtin : NoDup (TICKERS builtin_catalog).
Proof. apply (bool_decide_unpack _). vm_compute. exact I. Qed.

Lemma py_int_inject (z : Z) : py_int (inject_Z z) = z.
Proof.
  unfold py_int. destruct (Qle_bool 0 (inject_Z z)).
  - apply Qfloor_Z.
  - apply Qceiling_Z.
Qed.

Section Claims.

Variable pow : Q -> Q -> Q.
Variable rng : nat -> draw.
Variable fake : Faker.
Variable cat : Catalog.

(** C2: for every completed persona the trade limits are ordered,
    [min_trade_amount <= max_trade_amount <= per_pos_max <= 1/max_stocks],
    and [per_pos_max] is the smaller of the clamped, jittered value
    derived from the aggressiveness and of [1/max_stocks]. *)
Theorem trade_limits_chain fuel w p w' :
  Person_new pow rng fake cat fuel w = Ok p w' ->
  trade_chain (max_stocks (portfolio p)) (limits p) /\
  exists r, (- 0.15 <= r /\ r <= 0.15)%Q /\
    per_pos_max (limits p) =
    py_min (clamp01 ((0.08 + 0.22 * aggressive (trade p)) * (1 + r)))
           (1 / inject_Z (max_stocks (portfolio p))).
Proof.
  intros Hrun. apply Person_new_spec in Hrun.
  destruct Hrun as (_ & _ & _ & _ & _ & _ & _ & Hport & _ & Hlim).
  destruct Hport as (_ & _ & (_ & _ & Hmax & _) & _).
  destruct Hlim as (Hchain & Hpp & _).
  simpl in Hmax. split; [apply Hchain; lia | exact Hpp].
Qed.

Lemma picked_facts (l rest wl : list string) :
  NoDup wl -> wl ≡ₚ l ++ rest -> NoDup l /\ forall s, s ∈ l -> s ∈ wl.
Proof.
  intros Hnd Hperm. rewrite Hperm in Hnd. apply NoDup_app in Hnd as (Hl & _ & _).
  split; [exact Hl|]. intros s Hs. rewrite Hperm. apply elem_of_app. left. exact Hs.
Qed.

(** C3: for every completed persona the held instruments are on the
    watchlist, and their number lies between [min_stocks] and
    [max_stocks]. The tickers of the catalog are pairwise distinct. *)
Theorem holdings_within_watchlist fuel w p w' :
  NoDup (TICKERS cat) ->
  Person_new pow rng fake cat fuel w = Ok p w' ->
  (forall s, s ∈ dom (holdings (portfolio p)) -> s ∈ watchlist (portfolio p)) /\
  min_stocks (portfolio p) <= Z.of_nat (size (dom (holdings (portfolio p))))
    <= max_stocks (portfolio p).
Proof.
  intros Hnd Hrun. apply Person_new_spec in Hrun.
  destruct Hrun as (_ & _ & _ & _ & _ & _ & _ & Hport & _).
  destruct Hport as (_ & _ & _ & _ & (rest & Hwl) & _ & (picked & rest' & Hpk & Hn & Hh)).
  destruct (picked_facts _ _ _ Hnd Hwl) as [Hndw _].
  destruct (picked_facts _ _ _ Hndw Hpk) as [Hndp Hsub].
  destruct Hh as (Hdom & _ & _).
  rewrite Hdom, dom_empty_L, (left_id_L ∅ (∪)).
  split.
  - intros s Hs. apply Hsub. apply elem_of_list_to_set in Hs. exact Hs.
  - rewrite size_list_to_set by exact Hndp. exact Hn.
Qed.

(** C4 (as the code has it): for every completed persona, whatever the
    catalog, [1 <= min_stocks < max_stocks] and [6 <= max_stocks <= 20];
    below an aggressiveness of 0.3 the counts are in 1..4 and 6..12. The
    built-in catalog has 21 tickers, so there [max_stocks] is below the
    catalog size. *)
Theorem stock_counts_in_band fuel w p w' :
  Person_new pow rng fake cat fuel w = Ok p w' ->
  1 <= min_stocks (portfolio p) < max_stocks (portfolio p) /\
  6 <= max_stocks (portfolio p) <= 20 /\
  ((aggressive (trade p) < 0.3)%Q ->
   min_stocks (portfolio p) <= 4 /\ max_stocks (portfolio p) <= 12) /\
  length (TICKERS builtin_catalog) = 21%nat.
Proof.
  intros Hrun. apply Person_new_spec in Hrun.
  destruct Hrun as (_ & _ & _ & _ & _ & _ & _ & Hport & _).
  destruct Hport as (_ & _ & (Hlo & Hlt & Hhi & Hlow) & _).
  simpl in *. repeat split; try lia; try reflexivity; apply Hlow; assumption.
Qed.

(** C7: for every completed persona over a catalog of more than 20
    tickers, such as the built-in one, the watchlist has
    [min(catalog size, max_stocks + extra)] entries for some [extra] of
    3..8: more than [max_stocks] and at most the catalog size. *)
Theorem watchlist_size_bounds fuel w p w' :
  (20 < length (TICKERS cat))%nat ->
  Person_new pow rng fake cat fuel w = Ok p w' ->
  (exists extra, 3 <= extra <= 8 /\
     Z.of_nat (length (watchlist (portfolio p))) =
     Z.min (Z.of_nat (length (TICKERS cat))) (max_stocks (portfolio p) + extra)) /\
  max_stocks (portfolio p) < Z.of_nat (length (watchlist (portfolio p))) /\
  (length (watchlist (portfolio p)) <= length (TICKERS cat))%nat.
Proof.
  intros Hsize Hrun. apply Person_new_spec in Hrun.
  destruct Hrun as (_ & _ & _ & _ & _ & _ & _ & Hport & _).
  destruct Hport as (_ & _ & (_ & _ & Hhi & _) & (extra & Hextra & Hlen) & _).
  simpl in Hhi.
  split; [exists extra; split; assumption|]. lia.
Qed.

(** C10: the starting balance of every completed persona is the integer
    [int(10000 * 50 ** u)] for a draw [u] of [0,1); as [50 ** u] lies in
    [1, 50) for such [u], the balance lies in [10000, 500000). *)
Theorem balance_range fuel w p w' :
  (forall u, (0 <= u /\ u < 1)%Q -> (1 <= pow 50 u /\ pow 50 u < 50)%Q) ->
  Person_new pow rng fake cat fuel w = Ok p w' ->
  (exists u, (0 <= u /\ u < 1)%Q /\
     balance (portfolio p) = py_int (10000 * pow 50 u)) /\
  10000 <= balance (portfolio p) < 500000.
Proof.
  intros Hpow Hrun. apply Person_new_spec in Hrun.
  destruct Hrun as (_ & _ & _ & _ & _ & _ & _ & Hport & _).
  destruct Hport as ((u & Hu & Hbal) & _).
  split; [exists u; split; assumption|].
  rewrite Hbal. specialize (Hpow u Hu).
  apply py_int_bounds; [lia | |].
  - change (inject_Z 10000) with 10000%Q. lra.
  - change (inject_Z 500000) with 500000%Q. lra.
Qed.

End Claims.

Section MoreClaims.

Variable pow : Q -> Q -> Q.
Variable rng : nat -> draw.
Variable fake : Faker.
Variable cat : Catalog.


(** C6: the ids of a batch of [N] personas are 1, 2, .., [N] in the order
    of generation, and the handles are pairwise distinct. *)
Theorem batch_ids_and_handles fuel N w ps w' :
  generate_aiuser_excel pow rng fake cat fuel N w = Ok ps w' ->
  length ps = Z.to_nat N /\
  map pid ps = seqZ 1 (Z.of_nat (Z.to_nat N)) /\
  NoDup (map pname ps).
Proof.
  unfold generate_aiuser_excel. intros Hrun.
  apply generate_people_spec in Hrun.
  destruct Hrun as (Hlen & Hids & _ & Hnd & _).
  simpl in Hids. auto.
Qed.

(** C8 (as the code has it): each batch restarts the ids at 1, but the
    handle set is never cleared: the handles of an earlier batch stay
    reserved, and a later batch issues none of them again. *)
Theorem batches_restart_ids_keep_handles fuel N1 N2 w ps1 w1 ps2 w2 :
  generate_aiuser_excel pow rng fake cat fuel N1 w = Ok ps1 w1 ->
  generate_aiuser_excel pow rng fake cat fuel N2 w1 = Ok ps2 w2 ->
  map pid ps1 = seqZ 1 (Z.of_nat (Z.to_nat N1)) /\
  map pid ps2 = seqZ 1 (Z.of_nat (Z.to_nat N2)) /\
  (forall h, h ∈ map pname ps1 -> h ∈ Person_usernames w1) /\
  (forall h, h ∈ Person_usernames w1 -> h ∈ Person_usernames w2) /\
  (forall h, h ∈ map pname ps2 -> h ∉ Person_usernames w1) /\
  (forall h, h ∈ map pname ps1 -> h ∉ map pname ps2).
Proof.
  unfold generate_aiuser_excel. intros Hrun1 Hrun2.
  apply generate_people_spec in Hrun1, Hrun2.
  destruct Hrun1 as (_ & Hids1 & _ & _ & _ & Huse1).
  destruct Hrun2 as (_ & Hids2 & _ & _ & Hfresh2 & Huse2).
  simpl in *.
  assert (Hin1 : forall h, h ∈ map pname ps1 -> h ∈ Person_usernames w1).
  { intros h Hh. rewrite Huse1. apply elem_of_union. left.
    apply elem_of_list_to_set. exact Hh. }
  split; [exact Hids1|]. split; [exact Hids2|].
  split; [exact Hin1|].
  split; [intros h Hh; rewrite Huse2; apply elem_of_union; right; exact Hh|].
  split; [exact Hfresh2|].
  intros h Hh1 Hh2. exact (Hfresh2 h Hh2 (Hin1 h Hh1)).
Qed.

(** C9 (as the code has it): [TradeProperties] always returns, and the
    decision interval is [int(max(1, jitter(20 - 12 * aggressive ** 2, 0.15)))]:
    the jittered value is floored at 1 and then truncated, not rounded.
    It is an integer of 1..23 for the aggressiveness, which lies in [0,1]. *)
Theorem decision_interval_truncated w :
  exists tr w', TradeProperties pow rng w = Ok tr w' /\
    (0 <= aggressive tr /\ aggressive tr <= 1)%Q /\
    (exists r, (- 0.15 <= r /\ r <= 0.15)%Q /\
       interval_seconds tr =
       py_int (py_max 1 ((20 - 12 * aggressive tr * aggressive tr) * (1 + r)))) /\
    1 <= interval_seconds tr <= 23.
Proof.
  destruct (wp_returns _ _ _ (TradeProperties_spec pow rng False w))
    as (tr & w' & Hrun & Hpost & _).
  exists tr, w'. split; [exact Hrun|].
  destruct Hpost as (Hagg & _ & _ & Hiv & Hrange & _).
  auto.
Qed.

End MoreClaims.

(** ** Concrete runs *)

Lemma pow_chord_50 (u : Q) :
  (0 <= u /\ u < 1)%Q -> (1 <= pow_chord 50 u /\ pow_chord 50 u < 50)%Q.
Proof.
  intros [H0 H1]. unfold pow_chord.
  change (Qeq_bool 50 0) with false. cbv iota. lra.
Qed.

Lemma catalog_ok_builtin : catalog_ok builtin_catalog = true.
Proof. vm_compute. reflexivity. Qed.

Ltac run_ok r p w' Hrun :=
  destruct r as [p w'| |] eqn:Hrun;
  [ | vm_compute in Hrun; discriminate Hrun | vm_compute in Hrun; discriminate Hrun ].

Lemma trade_limits_chain_witness :
  exists p w', demo_run = Ok p w' /\
    trade_chain (max_stocks (portfolio p)) (limits p) /\
    exists r, (- 0.15 <= r /\ r <= 0.15)%Q /\
      per_pos_max (limits p) =
      py_min (clamp01 ((0.08 + 0.22 * aggressive (trade p)) * (1 + r)))
             (1 / inject_Z (max_stocks (portfolio p))).
Proof.
  run_ok demo_run p w' Hrun.
  exists p, w'. split; [reflexivity|].
  exact (trade_limits_chain pow_chord (tape_of []) faker_demo builtin_catalog
           1 world0 p w' Hrun).
Defined.

Lemma holdings_within_watchlist_witness :
  exists p w', demo_run = Ok p w' /\
    (forall s, s ∈ dom (holdings (portfolio p)) -> s ∈ watchlist (portfolio p)) /\
    min_stocks (portfolio p) <= Z.of_nat (size (dom (holdings (portfolio p))))
      <= max_stocks (portfolio p).
Proof.
  run_ok demo_run p w' Hrun.
  exists p, w'. split; [reflexivity|].
  exact (holdings_within_watchlist pow_chord (tape_of []) faker_demo builtin_catalog
           1 world0 p w' NoDup_builtin Hrun).
Defined.

Lemma stock_counts_in_band_witness :
  exists p w', demo_run = Ok p w' /\
    1 <= min_stocks (portfolio p) < max_stocks (portfolio p) /\
    6 <= max_stocks (portfolio p) <= 20 /\
    ((aggressive (trade p) < 0.3)%Q ->
     min_stocks (portfolio p) <= 4 /\ max_stocks (portfolio p) <= 12) /\
    length (TICKERS builtin_catalog) = 21%nat.
Proof.
  run_ok demo_run p w' Hrun.
  exists p, w'. split; [reflexivity|].
  exact (stock_counts_in_band pow_chord (tape_of []) faker_demo builtin_catalog
           1 world0 p w' Hrun).
Defined.

(** C4, as stated, fails: on the catalog of three instruments, with the
    aggressiveness 0, a persona is completed whose [max_stocks] is 6. *)
Lemma max_stocks_not_clamped_to_catalog :
  exists p w',
    Person_new pow_chord (tape_of []) faker_demo catalog3 1 world0 = Ok p w' /\
    (aggressive (trade p) == 0)%Q /\
    length (TICKERS catalog3) = 3%nat /\
    min_stocks (portfolio p) = 1 /\ max_stocks (portfolio p) = 6.
Proof.
  destruct (Person_new pow_chord (tape_of []) faker_demo catalog3 1 world0)
    as [p w'| |] eqn:Hrun;
    [ | vm_compute in Hrun; discriminate Hrun | vm_compute in Hrun; discriminate Hrun ].
  exists p, w'. split; [reflexivity|].
  vm_compute in Hrun. injection Hrun as <- <-.
  repeat split.
Qed.


(** Scenario B in the code: the amount per instrument is 4333. *)
Example amount_per_stock_scenario_B :
  (amount_per_stock 10000 0.1 0.2 2 == 4333)%Q.
Proof. vm_compute. reflexivity. Qed.


(** The share count at a stored price: an amount of 51371 buys 99 shares
    of MSFT, whose price is the double above the decimal 513.71, not the
    100 that the decimal would give. *)
Example shares_at_the_stored_price :
  exists price, PRICES builtin_catalog !! "MSFT"%string = Some price /\
    (513.71 < price)%Q /\
    py_int (floordiv 51371 price) = 99 /\
    py_int (floordiv 51371 513.71) = 100.
Proof. eexists. split; [vm_compute; reflexivity|]. vm_compute. auto. Qed.

Lemma batch_ids_and_handles_witness :
  exists ps w', demo_batch = Ok ps w' /\
    map pname ps = ["johnsmith"; "marialopez99"; "kimpossible"]%string /\
    length ps = Z.to_nat 3 /\
    map pid ps = seqZ 1 (Z.of_nat (Z.to_nat 3)) /\
    NoDup (map pname ps).
Proof.
  run_ok demo_batch ps w' Hrun.
  exists ps, w'. split; [reflexivity|].
  split.
  - vm_compute in Hrun. injection Hrun as <- <-. reflexivity.
  - exact (batch_ids_and_handles pow_chord (tape_of []) faker_demo builtin_catalog
             3 3 world0 ps w' Hrun).
Defined.

Lemma watchlist_size_bounds_witness :
  exists p w', demo_run = Ok p w' /\
    (exists extra, 3 <= extra <= 8 /\
       Z.of_nat (length (watchlist (portfolio p))) =
       Z.min (Z.of_nat (length (TICKERS builtin_catalog)))
             (max_stocks (portfolio p) + extra)) /\
    max_stocks (portfolio p) < Z.of_nat (length (watchlist (portfolio p))) /\
    (length (watchlist (portfolio p)) <= length (TICKERS builtin_catalog))%nat.
Proof.
  run_ok demo_run p w' Hrun.
  exists p, w'. split; [reflexivity|].
  apply (watchlist_size_bounds pow_chord (tape_of []) faker_demo builtin_catalog
           1 world0 p w'); [simpl; lia | exact Hrun].
Defined.

Lemma batches_restart_ids_keep_handles_witness :
  exists ps1 w1 ps2 w2,
    first_batch = Ok ps1 w1 /\ second_batch w1 = Ok ps2 w2 /\
    map pname ps1 = ["alice1"]%string /\ map pname ps2 = ["bobby2"]%string /\
    map pid ps1 = seqZ 1 (Z.of_nat (Z.to_nat 1)) /\
    map pid ps2 = seqZ 1 (Z.of_nat (Z.to_nat 1)) /\
    (forall h, h ∈ map pname ps1 -> h ∈ Person_usernames w1) /\
    (forall h, h ∈ Person_usernames w1 -> h ∈ Person_usernames w2) /\
    (forall h, h ∈ map pname ps2 -> h ∉ Person_usernames w1) /\
    (forall h, h ∈ map pname ps1 -> h ∉ map pname ps2).
Proof.
  run_ok first_batch ps1 w1 Hrun1.
  assert (Hw1 : w1 = world_after first_batch world0).
  { unfold world_after. rewrite Hrun1. reflexivity. }
  destruct (second_batch w1) as [ps2 w2| |] eqn:Hrun2;
    [ | rewrite Hw1 in Hrun2; vm_compute in Hrun2; discriminate Hrun2
      | rewrite Hw1 in Hrun2; vm_compute in Hrun2; discriminate Hrun2 ].
  exists ps1, w1, ps2, w2.
  split; [reflexivity|]. split; [exact Hrun2|].
  split.
  { vm_compute in Hrun1. injection Hrun1 as <- _. reflexivity. }
  split.
  { rewrite Hw1 in Hrun2. vm_compute in Hrun2. injection Hrun2 as <- _. reflexivity. }
  exact (batches_restart_ids_keep_handles pow_chord (tape_of []) faker_repeat
           builtin_catalog 2 1 1 world0 ps1 w1 ps2 w2 Hrun1 Hrun2).
Defined.

(** C8, as stated, fails: the second batch does not start from a fresh
    handle set. After a first batch that issued ["alice1"], the second
    batch issues ["bobby2"]; from a cleared handle set it would have issued
    ["alice1"], the supplier's next candidate. Both restart the ids at 1. *)
Lemma second_batch_sees_first_handles :
  let w1 := world_after first_batch world0 in
  (pname <$> default [] (result_of first_batch)) = ["alice1"]%string /\
  (pname <$> default [] (result_of (second_batch w1))) = ["bobby2"]%string /\
  (pname <$> default [] (result_of (second_batch (clear_usernames w1))))
    = ["alice1"]%string /\
  (pid <$> default [] (result_of (second_batch w1))) = [1].
Proof. vm_compute. repeat split. Qed.

(** C9, as stated, fails: with the aggressiveness 0 and the jitter factor
    0.99 the jittered interval is 19.8; the code stores 19, the formula
    of the claim gives 20. *)
Lemma decision_interval_not_rounded :
  exists tr w',
    TradeProperties pow_chord (tape_of [0; 0; 0; 0; 7 # 15]%Q) world0 = Ok tr w' /\
    (aggressive tr == 0)%Q /\
    interval_seconds tr = 19 /\
    interval_as_specified (aggressive tr) (- 0.15 + (0.15 - - 0.15) * (7 # 15)) = 20.
Proof.
  destruct (TradeProperties pow_chord (tape_of [0; 0; 0; 0; 7 # 15]%Q) world0)
    as [tr w'| |] eqn:Hrun;
    [ | vm_compute in Hrun; discriminate Hrun | vm_compute in Hrun; discriminate Hrun ].
  exists tr, w'. split; [reflexivity|].
  vm_compute in Hrun. injection Hrun as <- <-.
  vm_compute. repeat split.
Qed.

Lemma balance_range_witness :
  exists p w', demo_run = Ok p w' /\
    (exists u, (0 <= u /\ u < 1)%Q /\
       balance (portfolio p) = py_int (10000 * pow_chord 50 u)) /\
    10000 <= balance (portfolio p) < 500000.
Proof.
  run_ok demo_run p w' Hrun.
  exists p, w'. split; [reflexivity|].
  exact (balance_range pow_chord (tape_of []) faker_demo builtin_catalog
           1 world0 p w' pow_chord_50 Hrun).
Defined.

(** ** Completion and ranges *)

Section Completion.

Variable pow : Q -> Q -> Q.
Variable rng : nat -> draw.
Variable fake : Faker.
Variable cat : Catalog.

Lemma generate_username_returns fuel w k :
  (k < fuel)%nat ->
  accepted (Person_usernames w) (candidate fake w k) = true ->
  exists h w', generate_username fake fuel w = Ok h w'.
Proof.
  intros Hk Hacc.
  destruct (first_accepted (Person_usernames w) (candidate fake w) fuel)
    as [Hrej | (k' & Hk' & Hrej & Hacc')].
  - rewrite (Hrej k Hk) in Hacc. discriminate.
  - rewrite (generate_username_finds fake k' fuel w Hk' Hrej Hacc'). eauto.
Qed.

Lemma Identity_returns fuel w k :
  (k < fuel)%nat ->
  accepted (Person_usernames w) (candidate fake w k) = true ->
  exists idn w', Identity fake fuel w = Ok idn w'.
Proof.
  intros Hk Hacc. unfold Identity, bind, fake_call, ret.
  destruct (generate_username_returns fuel
              (tick_fake (set_idx (Person_idx w + 1) w)) k Hk Hacc) as (h & w1 & Hgu).
  rewrite Hgu. eauto.
Qed.

(** The constructor returns as soon as the handle loop does: on a catalog
    with non-zero prices and more than 20 tickers no stage raises. *)
Lemma Person_new_returns fuel w k :
  catalog_ok cat = true ->
  (k < fuel)%nat ->
  accepted (Person_usernames w) (candidate fake w k) = true ->
  exists p w', Person_new pow rng fake cat fuel w = Ok p w'.
Proof.
  intros Hcat Hk Hacc. unfold Person_new, bind.
  destruct (wp_returns _ _ _ (wpr_randint rng False 1000000 10000000 w
                                ltac:(intros; lia)))
    as (sd & w1 & -> & _ & (Hpos & _ & _ & Huse)).
  destruct (Identity_returns fuel w1 k Hk) as (idn & w2 & ->).
  { unfold candidate. rewrite Huse, Hpos. exact Hacc. }
  destruct (wp_returns _ _ _ (TradeProperties_spec pow rng False w2))
    as (tr & w3 & -> & _).
  destruct (wp_returns _ _ _
              (Portfolio_spec pow rng cat False (aggressive tr) w3 (or_introl Hcat)))
    as (pf & w4 & -> & Hport & _).
  destruct (wp_returns _ _ _ (OrderTypes_spec pow rng False (aggressive tr) w4))
    as (od & w5 & -> & _).
  destruct Hport as (_ & _ & (_ & _ & Hhi & _) & _). simpl in Hhi.
  destruct (wp_returns _ _ _
              (TradeLimits_spec rng False (aggressive tr) (max_stocks pf) w5
                 ltac:(intros; lia)))
    as (lm & w6 & -> & _).
  unfold ret. eauto.
Qed.

(** Every probability and fraction of a completed persona lies in [0,1],
    the cash and limit-offset pairs are ordered, the buy bias lies in
    [0.40, 0.60], and the daily limits are at least 100 trades and 10
    open orders. *)
Theorem fractions_in_range fuel w p w' :
  Person_new pow rng fake cat fuel w = Ok p w' ->
  (0 <= aggressive (trade p) /\ aggressive (trade p) <= 1)%Q /\
  (0 <= online_prob (trade p) /\ online_prob (trade p) <= 1)%Q /\
  (0 <= trade_prob (trade p) /\ trade_prob (trade p) <= 1)%Q /\
  (0 <= min_cash (portfolio p) /\ min_cash (portfolio p) <= max_cash (portfolio p)
   /\ max_cash (portfolio p) <= 1)%Q /\
  (0.40 <= buy_bias (orders p) /\ buy_bias (orders p) <= 0.60)%Q /\
  (0 <= slippage_tolerance (limits p) /\ slippage_tolerance (limits p) <= 1)%Q /\
  (0 <= min_limit_offset (limits p)
   /\ min_limit_offset (limits p) <= max_limit_offset (limits p)
   /\ max_limit_offset (limits p) <= 1)%Q /\
  100 <= max_daily_trades (limits p) /\ 10 <= max_orders (limits p).
Proof.
  intros Hrun. apply Person_new_spec in Hrun.
  destruct Hrun as (_ & _ & _ & _ & _ & _ & Htr & Hport & Hod & Hlim).
  destruct Htr as (Hagg & Hon & Htp & _).
  destruct Hport as (_ & Hcash & _).
  destruct Hlim as (_ & _ & Hslip & Hoff & Hdaily & Horders).
  repeat (split; [assumption|]). assumption.
Qed.

End Completion.

(** On the built-in catalog a persona is completed whenever one of the
    first [fuel] candidate handles is acceptable: no stage raises. *)
Theorem Person_new_returns_builtin pow rng fake fuel w k :
  (k < fuel)%nat ->
  accepted (Person_usernames w) (candidate fake w k) = true ->
  exists p w', Person_new pow rng fake builtin_catalog fuel w = Ok p w'.
Proof.
  intros Hk Hacc.
  exact (Person_new_returns pow rng fake builtin_catalog fuel w k
           catalog_ok_builtin Hk Hacc).
Qed.

(** On the catalog of three instruments the constructor can raise: when
    more than three instruments are drawn to be held, [random.sample]
    has too small a watchlist to draw from. *)
Example three_ticker_catalog_can_raise :
  Person_new pow_chord
    (tape_of [0; 0; 0; 0; 0; 0; 0; 0; 0; 0; 0; 0; 0; 0; 0; 0; 0; 0.9]%Q)
    faker_demo catalog3 1 world0 = Raise ValueError.
Proof. vm_compute. reflexivity. Qed.

Lemma Person_new_returns_builtin_witness :
  exists p w', demo_run = Ok p w'.
Proof.
  apply (Person_new_returns_builtin pow_chord (tape_of []) faker_demo 1 world0 0);
    [lia | vm_compute; reflexivity].
Defined.

Lemma fractions_in_range_witness :
  exists p w', demo_run = Ok p w' /\
    (0 <= aggressive (trade p) /\ aggressive (trade p) <= 1)%Q /\
    (0 <= online_prob (trade p) /\ online_prob (trade p) <= 1)%Q /\
    (0 <= trade_prob (trade p) /\ trade_prob (trade p) <= 1)%Q /\
    (0 <= min_cash (portfolio p) /\ min_cash (portfolio p) <= max_cash (portfolio p)
     /\ max_cash (portfolio p) <= 1)%Q /\
    (0.40 <= buy_bias (orders p) /\ buy_bias (orders p) <= 0.60)%Q /\
    (0 <= slippage_tolerance (limits p) /\ slippage_tolerance (limits p) <= 1)%Q /\
    (0 <= min_limit_offset (limits p)
     /\ min_limit_offset (limits p) <= max_limit_offset (limits p)
     /\ max_limit_offset (limits p) <= 1)%Q /\
    100 <= max_daily_trades (limits p) /\ 10 <= max_orders (limits p).
Proof.
  run_ok demo_run p w' Hrun.
  exists p, w'. split; [reflexivity|].
  exact (fractions_in_range pow_chord (tape_of []) faker_demo builtin_catalog
           1 world0 p w' Hrun).
Defined.

(** * More of the generator *)

(** ** The stages of a completed constructor *)

Lemma Person_new_stages pow rng fake cat fuel w p w' :
  Person_new pow rng fake cat fuel w = Ok p w' ->
  exists sd w1 w2 w3 w4 w5,
    random_randint rng 1000000 10000000 w = Ok sd w1 /\
    Identity fake fuel w1 = Ok (identity p) w2 /\
    TradeProperties pow rng w2 = Ok (trade p) w3 /\
    Portfolio pow rng cat (aggressive (trade p)) w3 = Ok (portfolio p) w4 /\
    OrderTypes pow rng (aggressive (trade p)) w4 = Ok (orders p) w5 /\
    TradeLimits rng (aggressive (trade p)) (max_stocks (portfolio p)) w5
      = Ok (limits p) w'.
Proof.
  unfold Person_new, bind. intros Hrun.
  destruct (random_randint rng 1000000 10000000 w) as [sd w1| |] eqn:Hsd;
    try discriminate.
  destruct (Identity fake fuel w1) as [idn w2| |] eqn:Hid; try discriminate.
  destruct (TradeProperties pow rng w2) as [tr w3| |] eqn:Htr; try discriminate.
  destruct (Portfolio pow rng cat (aggressive tr) w3) as [pf w4| |] eqn:Hpf;
    try discriminate.
  destruct (OrderTypes pow rng (aggressive tr) w4) as [od w5| |] eqn:Hod;
    try discriminate.
  destruct (TradeLimits rng (aggressive tr) (max_stocks pf) w5) as [lm w6| |] eqn:Hlm;
    try discriminate.
  injection Hrun as <- <-. simpl.
  exists sd, w1, w2, w3, w4, w5. repeat split; assumption.
Qed.

(** ** What the holdings cost *)

Lemma floor_share (amount price : Q) :
  (0 <= amount)%Q -> (0 < price)%Q ->
  0 <= Qfloor (amount / price) /\
  (inject_Z (Qfloor (amount / price)) * price <= amount)%Q.
Proof.
  intros Ha Hp.
  assert (Hq : (0 <= amount / price)%Q).
  { apply Qle_shift_div_l; [exact Hp | lra]. }
  split.
  - rewrite <- (Qfloor_Z 0). apply Qfloor_resp_le. exact Hq.
  - pose proof (Qfloor_le (amount / price)) as Hfl.
    assert (Heq : (amount == amount / price * price)%Q).
    { field. intros H0. rewrite H0 in Hp. exact (Qlt_irrefl 0 Hp). }
    rewrite Heq at 2. apply Qmult_le_compat_r; [exact Hfl | lra].
Qed.

Lemma cost_sum_bound {A} (f : A -> Q) (l : list A) (a : Q) :
  (0 <= a)%Q -> Forall (fun x => (f x <= a)%Q) l ->
  (foldr (fun x acc => f x + acc) 0 l <= inject_Z (Z.of_nat (length l)) * a)%Q.
Proof.
  intros Ha. induction 1 as [|x l Hx _ IH]; simpl foldr; simpl length.
  - change (inject_Z (Z.of_nat 0)) with 0%Q. lra.
  - rewrite Nat2Z.inj_succ. unfold Z.succ. rewrite inject_Z_plus.
    change (inject_Z 1) with 1%Q. lra.
Qed.

Lemma size_list_to_set_le (l : list string) :
  (size (list_to_set (C := gset string) l) <= length l)%nat.
Proof.
  unfold size, set_size. simpl. apply submseteq_length.
  apply NoDup_submseteq; [apply NoDup_elements|].
  intros x Hx. apply elem_of_elements, elem_of_list_to_set in Hx. exact Hx.
Qed.

Lemma prices_positive_lookup cat s :
  prices_positive cat = true -> s ∈ TICKERS cat ->
  exists p, PRICES cat !! s = Some p /\ (0 < p)%Q.
Proof.
  unfold prices_positive. rewrite forallb_forall.
  intros Hall Hs. apply list_elem_of_In in Hs. specialize (Hall s Hs).
  destruct (PRICES cat !! s) as [p|]; [|discriminate].
  exists p. split; [reflexivity|]. apply Qltb_lt. exact Hall.
Qed.

Section Affordable.

Variable pow : Q -> Q -> Q.
Variable rng : nat -> draw.
Variable fake : Faker.
Variable cat : Catalog.

(** The initial portfolio is affordable. On a catalog with positive
    prices, and with a power that is not negative, every share count of a
    completed persona is at least 0, and the holdings cost, at the
    reference prices, at most [balance * (1 - (2*min_cash + max_cash)/3)],
    the part of the balance outside the cash reserve, hence at most the
    balance. *)
Theorem holdings_affordable fuel w p w' :
  (forall u, (0 <= u /\ u < 1)%Q -> (0 <= pow 50 u)%Q) ->
  prices_positive cat = true ->
  Person_new pow rng fake cat fuel w = Ok p w' ->
  (forall s shares, holdings (portfolio p) !! s = Some shares -> 0 <= shares) /\
  (holdings_cost cat (holdings (portfolio p))
   <= inject_Z (balance (portfolio p))
      * (1 - (min_cash (portfolio p) * 2 + max_cash (portfolio p)) / 3))%Q /\
  (holdings_cost cat (holdings (portfolio p)) <= inject_Z (balance (portfolio p)))%Q.
Proof.
  intros Hpow Hprices Hrun. apply Person_new_spec in Hrun.
  destruct Hrun as (_ & _ & _ & _ & _ & _ & _ & Hport & _).
  destruct Hport as ((u & Hu & Hbal) & Hcash & (Hlo & _) & _ & (rest & Hwl) & _
                     & (picked & rest' & Hpk & Hn & Hh)).
  simpl in Hlo.
  set (pf := portfolio p) in *.
  set (X := (inject_Z (balance pf) * (1 - (min_cash pf * 2 + max_cash pf) / 3))%Q).
  set (n := Z.of_nat (length picked)) in *.
  set (amount := amount_per_stock (balance pf) (min_cash pf) (max_cash pf) n) in *.
  assert (Hb0 : (0 <= inject_Z (balance pf))%Q).
  { rewrite Hbal. change 0%Q with (inject_Z 0). rewrite <- Zle_Qle.
    specialize (Hpow u Hu).
    assert (H10 : (0 <= 10000 * pow 50 u)%Q) by (clear - Hpow; lra).
    rewrite py_int_nonneg by exact H10.
    rewrite <- (Qfloor_Z 0). apply Qfloor_resp_le. exact H10. }
  assert (HX : (0 <= X /\ X <= inject_Z (balance pf))%Q).
  { unfold X.
    assert (Hf : (0 <= 1 - (min_cash pf * 2 + max_cash pf) / 3
                  /\ 1 - (min_cash pf * 2 + max_cash pf) / 3 <= 1)%Q).
    { destruct Hcash as (Hc0 & Hc1 & Hc2).
      change ((min_cash pf * 2 + max_cash pf) / 3)%Q
        with ((min_cash pf * 2 + max_cash pf) * (1 # 3))%Q.
      lra. }
    revert Hf. generalize (1 - (min_cash pf * 2 + max_cash pf) / 3)%Q.
    intros f Hf. clear - Hb0 Hf. nra. }
  assert (Hn1 : (0 < inject_Z n)%Q).
  { change 0%Q with (inject_Z 0). rewrite <- Zlt_Qlt. lia. }
  destruct (floor_share X (inject_Z n) (proj1 HX) Hn1) as [_ Hsplit].
  assert (Hamount : (0 <= amount /\ inject_Z n * amount <= X)%Q).
  { unfold amount, amount_per_stock, floordiv. fold X. split.
    - change 0%Q with (inject_Z 0). rewrite <- Zle_Qle.
      apply (floor_share X (inject_Z n) (proj1 HX) Hn1).
    - rewrite Qmult_comm. exact Hsplit. }
  destruct Hh as (Hdom & Hval & _).
  rewrite dom_empty_L, (left_id_L ∅ (∪)) in Hdom.
  assert (Hheld : forall s shares, holdings pf !! s = Some shares ->
            0 <= shares /\
            (inject_Z shares * default 0 (PRICES cat !! s) <= amount)%Q).
  { intros s shares Hs.
    assert (Hin : s ∈ picked).
    { apply (elem_of_list_to_set (C := gset string)). rewrite <- Hdom.
      apply elem_of_dom. eauto. }
    destruct (Hval s Hin) as (price & Hprice & _ & Hshares).
    rewrite Hs in Hshares. injection Hshares as ->.
    destruct (prices_positive_lookup cat s Hprices) as (price' & Hp' & Hpos).
    { rewrite Hwl. apply elem_of_app. left.
      rewrite Hpk. apply elem_of_app. left. exact Hin. }
    rewrite Hprice in Hp'. injection Hp' as <-.
    rewrite Hprice. simpl. unfold floordiv. rewrite py_int_inject.
    apply floor_share; [apply Hamount | exact Hpos]. }
  split; [intros s shares Hs; apply (Hheld s shares Hs)|].
  assert (Hcost : (holdings_cost cat (holdings pf) <= X)%Q).
  { unfold holdings_cost.
    eapply Qle_trans; [apply (cost_sum_bound _ _ amount (proj1 Hamount))|].
    - apply Forall_forall. intros [s shares] Hkv.
      apply elem_of_map_to_list in Hkv. apply (Hheld s shares Hkv).
    - rewrite length_map_to_list.
      assert (Hsize : (size (holdings pf) <= length picked)%nat).
      { rewrite <- (size_dom (D := gset string)), Hdom. apply size_list_to_set_le. }
      assert (Hle : (inject_Z (Z.of_nat (size (holdings pf))) <= inject_Z n)%Q).
      { rewrite <- Zle_Qle. unfold n. lia. }
      destruct Hamount as [Ha0 Hna]. nra. }
  split; [exact Hcost | lra].
Qed.

End Affordable.

(** ** The watchlist ids *)

Lemma foldl_insert_notin {V} (l : list (string * V)) : forall (acc : gmap string V) k,
  k ∉ l.*1 ->
  foldl (fun m kv => <[kv.1 := kv.2]> m) acc l !! k = acc !! k.
Proof.
  induction l as [|[k0 v0] l IH]; intros acc k Hk; simpl; [reflexivity|].
  simpl in Hk. apply not_elem_of_cons in Hk as [Hne Hk].
  rewrite IH by exact Hk. apply lookup_insert_ne. congruence.
Qed.

Lemma foldl_insert_lookup {V} (l : list (string * V)) : forall (acc : gmap string V) k v,
  NoDup (l.*1) -> (k, v) ∈ l ->
  foldl (fun m kv => <[kv.1 := kv.2]> m) acc l !! k = Some v.
Proof.
  induction l as [|[k0 v0] l IH]; intros acc k v Hnd Hin; simpl.
  - inversion Hin.
  - simpl in Hnd. apply NoDup_cons in Hnd as [Hk0 Hnd].
    apply elem_of_cons in Hin as [Heq|Hin].
    + injection Heq as -> ->. rewrite foldl_insert_notin by exact Hk0.
      apply lookup_insert_eq.
    + apply IH; assumption.
Qed.

Lemma dict_zip_lookup {V} (keys : list string) (values : list V) i k v :
  NoDup keys -> (length keys <= length values)%nat ->
  keys !! i = Some k -> values !! i = Some v ->
  dict_zip keys values !! k = Some v.
Proof.
  intros Hnd Hlen Hk Hv. unfold dict_zip. apply foldl_insert_lookup.
  - rewrite fst_zip by exact Hlen. exact Hnd.
  - apply list_elem_of_lookup. exists i.
    apply lookup_zip_with_Some. exists k, v. auto.
Qed.

Lemma dict_zip_lookup_None {V} (keys : list string) (values : list V) k :
  k ∉ keys -> dict_zip keys values !! k = None.
Proof.
  intros Hk. unfold dict_zip. rewrite foldl_insert_notin; [apply lookup_empty|].
  intros Hin. apply Hk. apply list_elem_of_fmap in Hin as ([k' v'] & -> & Hin).
  simpl. eapply elem_of_zip_l. exact Hin.
Qed.

(** The id of a ticker is its position in [TICKERS], counted from 1. *)
Lemma STOCKIDS_position cat s id :
  NoDup (TICKERS cat) ->
  STOCKIDS cat !! s = Some id <->
  exists i, TICKERS cat !! i = Some s /\ id = Z.of_nat i + 1.
Proof.
  intros Hnd.
  assert (Hfwd : forall i, TICKERS cat !! i = Some s ->
                           STOCKIDS cat !! s = Some (Z.of_nat i + 1)).
  { intros i Hi. unfold STOCKIDS.
    apply (dict_zip_lookup _ _ i); [exact Hnd | rewrite length_seqZ; lia | exact Hi |].
    rewrite lookup_seqZ_lt; [f_equal; lia|].
    apply lookup_lt_Some in Hi. lia. }
  split.
  - intros Hid. destruct (decide (s ∈ TICKERS cat)) as [Hin|Hnin].
    + apply list_elem_of_lookup in Hin as [i Hi]. exists i. split; [exact Hi|].
      rewrite (Hfwd i Hi) in Hid. congruence.
    + unfold STOCKIDS in Hid. rewrite dict_zip_lookup_None in Hid by exact Hnin.
      discriminate.
  - intros (i & Hi & ->). apply Hfwd. exact Hi.
Qed.

Lemma lookup_all_values {V} (d : gmap string V) : forall l w,
  wpr True (lookup_all d l) (fun vs => Forall2 (fun s v => d !! s = Some v) l vs) w.
Proof.
  induction l as [|s l IH]; intros w; simpl.
  - apply wpr_ret. constructor.
  - destruct (d !! s) as [v|] eqn:Hv; [|exact I].
    wstep IH as vs Hvs. apply wpr_ret. constructor; assumption.
Qed.

(** What [Portfolio] makes of the watchlist. *)
Lemma Portfolio_ids_spec pow rng cat aggr w :
  wpr True (Portfolio pow rng cat aggr)
    (fun pf =>
       (exists ids,
          Forall2 (fun s v => STOCKIDS cat !! s = Some v) (watchlist pf) ids /\
          watch_ids pf = merge_sort Z.le ids) /\
       watchList_csv pf = String.concat "," (map pretty (watch_ids pf))) w.
Proof.
  unfold Portfolio.
  wstep wpr_sample_log_balance as bal Hbal.
  wstep wpr_jitter as mc Hmc; [lra|].
  wstep wpr_uniform as u Hu; [lra|].
  wstep stock_band_spec as band Hband.
  wstep wpr_randint as extra Hextra; [exact (fun _ => I)|].
  wstep wpr_sample as wl Hwl; [exact (fun _ => I)|].
  wstep (lookup_all_values (STOCKIDS cat)) as ids Hids.
  wstep wpr_randint as n Hn; [exact (fun _ => I)|].
  wstep wpr_sample as picked0 Hpicked; [exact (fun _ => I)|].
  unfold py_floordiv. destruct (Qeq_bool (inject_Z n) 0); [exact I|].
  apply wpr_bind_ret.
  wstep holdings_of_spec as h Hh; [right; exact I|].
  apply wpr_ret. simpl. split; [exists ids; split; [exact Hids | reflexivity]|].
  reflexivity.
Qed.

Lemma sorted_distinct_strict (l : list Z) :
  StronglySorted Z.le l -> NoDup l -> StronglySorted Z.lt l.
Proof.
  induction 1 as [|x l Hs IH Hall]; intros Hnd; constructor.
  - apply IH. apply NoDup_cons in Hnd. tauto.
  - apply NoDup_cons in Hnd as [Hx _].
    apply Forall_forall. intros y Hy.
    rewrite Forall_forall in Hall. specialize (Hall y Hy).
    assert (x <> y) by (intros ->; contradiction). lia.
Qed.

Lemma ids_distinct cat (wl : list string) (ids : list Z) :
  NoDup (TICKERS cat) -> NoDup wl ->
  Forall2 (fun s v => STOCKIDS cat !! s = Some v) wl ids -> NoDup ids.
Proof.
  intros Hcat Hnd Hall. induction Hall as [|s v wl ids Hs Hall IH].
  - constructor.
  - apply NoDup_cons in Hnd as [Hs' Hnd]. constructor; [|apply IH; exact Hnd].
    intros Hv. apply list_elem_of_lookup in Hv as [j Hj].
    destruct (Forall2_lookup_r _ _ _ _ _ Hall Hj) as (s' & Hs'j & Hid').
    apply (STOCKIDS_position _ _ _ Hcat) in Hs as (i & Hi & ->).
    apply (STOCKIDS_position _ _ _ Hcat) in Hid' as (i' & Hi' & Heq).
    assert (i = i') by lia. subst i'.
    assert (s = s') by congruence. subst s'.
    apply Hs'. apply list_elem_of_lookup. eauto.
Qed.

Section WatchlistIds.

Variable pow : Q -> Q -> Q.
Variable rng : nat -> draw.
Variable fake : Faker.
Variable cat : Catalog.

(** On a catalog of distinct tickers, the watchlist ids of a completed
    persona are strictly ascending, they are the positions (from 1) in
    [TICKERS] of the tickers of the watchlist, one id per ticker, and the
    stored text is their decimal forms joined by commas. *)
Theorem watchlist_ids_ascending fuel w p w' :
  NoDup (TICKERS cat) ->
  Person_new pow rng fake cat fuel w = Ok p w' ->
  StronglySorted Z.lt (watch_ids (portfolio p)) /\
  (forall id, id ∈ watch_ids (portfolio p) <->
     exists i s, TICKERS cat !! i = Some s /\ s ∈ watchlist (portfolio p)
                 /\ id = Z.of_nat i + 1) /\
  length (watch_ids (portfolio p)) = length (watchlist (portfolio p)) /\
  watchList_csv (portfolio p)
  = String.concat "," (map pretty (watch_ids (portfolio p))).
Proof.
  intros Hcat Hrun.
  pose proof (Person_new_spec _ _ _ _ _ _ _ _ Hrun) as Hpost.
  destruct Hpost as (_ & _ & _ & _ & _ & _ & _ & Hport & _).
  destruct Hport as (_ & _ & _ & _ & (rest & Hwl) & Hlen & _).
  destruct (Person_new_stages _ _ _ _ _ _ _ _ Hrun)
    as (sd & w1 & w2 & w3 & w4 & w5 & _ & _ & _ & Hpf & _).
  destruct (wpr_ok True _ _ _ _ _ (Portfolio_ids_spec pow rng cat _ w3) Hpf)
    as [[(ids & Hids & Hsorted) Hcsv] _].
  assert (Hndw : NoDup (watchlist (portfolio p))).
  { rewrite Hwl in Hcat. apply NoDup_app in Hcat. tauto. }
  pose proof (ids_distinct cat _ _ Hcat Hndw Hids) as Hndi.
  assert (Hperm : watch_ids (portfolio p) ≡ₚ ids).
  { rewrite Hsorted. apply merge_sort_Permutation. }
  split.
  { apply sorted_distinct_strict.
    - rewrite Hsorted. apply (StronglySorted_merge_sort Z.le).
    - rewrite Hperm. exact Hndi. }
  split; [|split; [exact Hlen | exact Hcsv]].
  intros id. rewrite Hperm. split.
  - intros Hid. apply list_elem_of_lookup in Hid as [j Hj].
    destruct (Forall2_lookup_r _ _ _ _ _ Hids Hj) as (s & Hs & Hlk).
    apply (STOCKIDS_position _ _ _ Hcat) in Hlk as (i & Hi & ->).
    exists i, s. split; [exact Hi|]. split; [|reflexivity].
    apply list_elem_of_lookup. eauto.
  - intros (i & s & Hi & Hs & ->).
    apply list_elem_of_lookup in Hs as [j Hj].
    destruct (Forall2_lookup_l _ _ _ _ _ Hids Hj) as (v & Hv & Hlk).
    apply (STOCKIDS_position _ _ _ Hcat) in Hlk as (i' & Hi' & ->).
    assert (i = i') by exact (NoDup_lookup _ _ _ _ Hcat Hi Hi'). subst i'.
    apply list_elem_of_lookup. eauto.
Qed.

End WatchlistIds.

(** ** Ranges of the order types and of the trade limits *)

Lemma inv_stocks_bounds (n : Z) :
  6 <= n <= 20 -> ((1 # 20) <= 1 / inject_Z n /\ 1 / inject_Z n <= (1 # 6))%Q.
Proof.
  intros Hn.
  assert (H6 : (6 <= inject_Z n)%Q).
  { change 6%Q with (inject_Z 6). rewrite <- Zle_Qle. lia. }
  assert (H20 : (inject_Z n <= 20)%Q).
  { change 20%Q with (inject_Z 20). rewrite <- Zle_Qle. lia. }
  assert (Hpos : (0 < 1 / inject_Z n)%Q) by (apply inv_stocks_pos; lia).
  assert (Hone : (1 / inject_Z n * inject_Z n == 1)%Q).
  { field. intros H0. rewrite H0 in H6. lra. }
  revert Hpos Hone. generalize (1 / inject_Z n)%Q. intros x Hpos Hone.
  split; nra.
Qed.

Lemma inject_Z_bounds (z lo hi : Z) :
  lo <= z <= hi -> (inject_Z lo <= inject_Z z /\ inject_Z z <= inject_Z hi)%Q.
Proof. intros [H1 H2]. rewrite <- !Zle_Qle. auto. Qed.

Section Ranges.

Variable pow : Q -> Q -> Q.
Variable rng : nat -> draw.
Variable fake : Faker.
Variable cat : Catalog.

Lemma OrderTypes_ranges_spec aggr w :
  (forall u s, (0 <= u /\ u < 1)%Q -> (0 < s)%Q -> (0 <= pow u s /\ pow u s <= 1)%Q) ->
  wpr True (OrderTypes pow rng aggr)
    (fun od => (0.05 <= use_market od /\ use_market od <= 0.25)%Q /\
               (0.50 <= use_slip od /\ use_slip od <= 0.90)%Q) w.
Proof.
  intros Hpow. unfold OrderTypes.
  wstep wpr_skewed01 as s1 Hs1. wstep wpr_skewed01 as s2 Hs2.
  wstep wpr_jitter as b Hb; [lra|].
  apply wpr_ret. simpl.
  destruct Hs1 as (u1 & Hu1 & ->). destruct Hs2 as (u2 & Hu2 & ->).
  pose proof (Hpow u1 1.5%Q Hu1 ltac:(lra)) as H1.
  pose proof (Hpow u2 0.5%Q Hu2 ltac:(lra)) as H2.
  split; lra.
Qed.

(** With a power that maps a base of [0,1) and a positive exponent into
    [0,1], as exponentiation does, the probability of a market order of a
    completed persona lies in [0.05, 0.25] and that of a slippage order in
    [0.50, 0.90]. *)
Theorem order_type_probabilities fuel w p w' :
  (forall u s, (0 <= u /\ u < 1)%Q -> (0 < s)%Q -> (0 <= pow u s /\ pow u s <= 1)%Q) ->
  Person_new pow rng fake cat fuel w = Ok p w' ->
  (0.05 <= use_market (orders p) /\ use_market (orders p) <= 0.25)%Q /\
  (0.50 <= use_slip (orders p) /\ use_slip (orders p) <= 0.90)%Q.
Proof.
  intros Hpow Hrun.
  destruct (Person_new_stages _ _ _ _ _ _ _ _ Hrun)
    as (sd & w1 & w2 & w3 & w4 & w5 & _ & _ & _ & _ & Hod & _).
  exact (proj1 (wpr_ok True _ _ _ _ _ (OrderTypes_ranges_spec _ w4 Hpow) Hod)).
Qed.

Lemma TradeLimits_ranges_spec aggr max_stocks w :
  (0 <= aggr /\ aggr <= 1)%Q -> 6 <= max_stocks <= 20 ->
  wpr True (TradeLimits rng aggr max_stocks) TradeLimits_ranges w.
Proof.
  intros Hagg Hms. unfold TradeLimits.
  wstep wpr_jitter as st Hst; [lra|]. wstep wpr_jitter as ml Hml; [lra|].
  wstep wpr_uniform as u Hu; [lra|].
  destruct (Z.eqb_spec max_stocks 0) as [Hz|Hz]; [lia|].
  wstep wpr_jitter as pp Hpp; [lra|].
  wstep wpr_uniform as u1 Hu1; [lra|]. wstep wpr_uniform as u2 Hu2; [lra|].
  wstep wpr_jitter as jt Hjt; [lra|]. wstep wpr_jitter as jo Hjo; [lra|].
  apply wpr_ret. unfold TradeLimits_ranges; simpl.
  destruct Hst as (r1 & Hr1 & ->). destruct Hml as (r2 & Hr2 & ->).
  destruct Hpp as (r3 & Hr3 & ->). destruct Hjt as (r4 & Hr4 & ->).
  destruct Hjo as (r5 & Hr5 & ->).
  destruct (inv_stocks_bounds max_stocks Hms) as [Hpm1 Hpm2].
  revert Hpm1 Hpm2. generalize (1 / inject_Z max_stocks)%Q. intros pm Hpm1 Hpm2.
  assert (Hslip : (0.004 <= (0.005 + 0.025 * aggr) * (1 + r1)
                   /\ (0.005 + 0.025 * aggr) * (1 + r1) <= 0.036)%Q) by nra.
  assert (Hlim : (0.016 <= (0.02 + 0.03 * aggr) * (1 + r2)
                  /\ (0.02 + 0.03 * aggr) * (1 + r2) <= 0.06)%Q) by nra.
  assert (Hper : (0.068 <= (0.08 + 0.22 * aggr) * (1 + r3)
                  /\ (0.08 + 0.22 * aggr) * (1 + r3) <= 0.345)%Q) by nra.
  rewrite (clamp01_id ((0.005 + 0.025 * aggr) * (1 + r1))) by lra.
  rewrite (clamp01_id ((0.02 + 0.03 * aggr) * (1 + r2))) by lra.
  rewrite (clamp01_id ((0.02 + 0.03 * aggr) * (1 + r2))) by lra.
  rewrite (clamp01_id ((0.08 + 0.22 * aggr) * (1 + r3))) by lra.
  revert Hslip Hlim Hper.
  generalize ((0.005 + 0.025 * aggr) * (1 + r1))%Q.
  generalize ((0.02 + 0.03 * aggr) * (1 + r2))%Q.
  generalize ((0.08 + 0.22 * aggr) * (1 + r3))%Q.
  intros per lim slip Hslip Hlim Hper.
  assert (Hmin : (0.00032 <= lim * u /\ lim * u <= 0.3 * lim)%Q) by nra.
  rewrite (clamp01_id (lim * u)) by nra.
  pose proof (py_min_le_l per pm) as Hl.
  pose proof (py_min_le_r per pm) as Hr.
  assert (Hppm : (0.05 <= py_min per pm)%Q) by (apply py_min_glb; lra).
  revert Hl Hr Hppm. generalize (py_min per pm). intros ppm Hl Hr Hppm.
  split; [lra|]. split; [exact Hlim|]. split; [exact Hmin|].
  split; [lra|]. split; [nra|].
  assert (Hbt : 100 <= py_int (100 + 300 * aggr) < 401).
  { apply py_int_bounds; [lia | |].
    - change (inject_Z 100) with 100%Q. lra.
    - change (inject_Z 401) with 401%Q. lra. }
  assert (Hbo : 10 <= py_int (10 + 40 * aggr) < 51).
  { apply py_int_bounds; [lia | |].
    - change (inject_Z 10) with 10%Q. lra.
    - change (inject_Z 51) with 51%Q. lra. }
  pose proof (inject_Z_bounds (py_int (100 + 300 * aggr)) 100 400 ltac:(lia)) as Hbt'.
  change (inject_Z 100) with 100%Q in Hbt'. change (inject_Z 400) with 400%Q in Hbt'.
  pose proof (inject_Z_bounds (py_int (10 + 40 * aggr)) 10 50 ltac:(lia)) as Hbo'.
  change (inject_Z 10) with 10%Q in Hbo'. change (inject_Z 50) with 50%Q in Hbo'.
  revert Hbt' Hbo'.
  generalize (inject_Z (py_int (100 + 300 * aggr))).
  generalize (inject_Z (py_int (10 + 40 * aggr))).
  intros bo bt Hbt' Hbo'.
  assert (Hjt : 0 <= py_int (bt * (1 + r4)) < 481).
  { apply py_int_bounds; [lia | |].
    - change (inject_Z 0) with 0%Q. nra.
    - change (inject_Z 481) with 481%Q. nra. }
  assert (Hjo : 0 <= py_int (bo * (1 + r5)) < 61).
  { apply py_int_bounds; [lia | |].
    - change (inject_Z 0) with 0%Q. nra.
    - change (inject_Z 61) with 61%Q. nra. }
  split; lia.
Qed.

(** The trade limits of a completed persona lie in fixed ranges: the
    slippage tolerance in [0.004, 0.0361], the larger limit offset in
    [0.016, 0.06] and the smaller one between 0.00032 and 0.3 times the
    larger, the per-position maximum in [0.05, 1/6]; the trade amounts are
    strictly ordered, [0 < min_trade_amount < max_trade_amount <
    per_pos_max]; there are 100 to 480 daily trades and 10 to 60 open
    orders. *)
Theorem trade_limits_ranges fuel w p w' :
  Person_new pow rng fake cat fuel w = Ok p w' ->
  TradeLimits_ranges (limits p).
Proof.
  intros Hrun.
  pose proof (Person_new_spec _ _ _ _ _ _ _ _ Hrun) as Hpost.
  destruct Hpost as (_ & _ & _ & _ & _ & _ & (Hagg & _) & Hport & _).
  destruct Hport as (_ & _ & (_ & _ & Hhi & _) & _). simpl in Hhi.
  destruct (Person_new_stages _ _ _ _ _ _ _ _ Hrun)
    as (sd & w1 & w2 & w3 & w4 & w5 & _ & _ & _ & _ & _ & Hlm).
  exact (proj1 (wpr_ok True _ _ _ _ _
                  (TradeLimits_ranges_spec _ _ w5 Hagg Hhi) Hlm)).
Qed.

End Ranges.

(** ** The contact address *)

Lemma str_before_append (c : ascii) (h rest : string) :
  str_all (fun a => negb (Ascii.eqb a c)) h = true ->
  str_before c (h +:+ String c rest) = h.
Proof.
  induction h as [|a h IH]; simpl.
  - intros _. rewrite Ascii.eqb_refl. reflexivity.
  - intros H. apply andb_prop in H as [Ha Hh].
    apply negb_true_iff in Ha. rewrite Ha. f_equal. apply IH. exact Hh.
Qed.

Lemma Identity_email fake fuel w idn w' :
  Identity fake fuel w = Ok idn w' ->
  exists domain, email idn = username idn +:+ "@" +:+ domain.
Proof.
  unfold Identity, bind, fake_call, ret. simpl.
  destruct (generate_username fake fuel _) as [h w1| |]; try discriminate.
  intros [= <- <-]. simpl. eauto.
Qed.

(** The contact address of a completed persona is its handle, an [@] and
    a domain; as a handle has no [@], the part of the address before the
    first [@] is the handle again. *)
Theorem email_starts_with_handle pow rng fake cat fuel w p w' :
  Person_new pow rng fake cat fuel w = Ok p w' ->
  (exists domain,
     email (identity p) = username (identity p) +:+ "@" +:+ domain) /\
  str_before "@" (email (identity p)) = username (identity p).
Proof.
  intros Hrun.
  pose proof (Person_new_spec _ _ _ _ _ _ _ _ Hrun) as Hpost.
  destruct Hpost as (_ & _ & [Hall _] & _).
  destruct (Person_new_stages _ _ _ _ _ _ _ _ Hrun)
    as (sd & w1 & w2 & w3 & w4 & w5 & _ & Hid & _).
  destruct (Identity_email _ _ _ _ _ Hid) as [domain Hemail].
  split; [exists domain; exact Hemail|].
  rewrite Hemail. apply str_before_append.
  unfold pname in Hall. eapply str_all_weaken; [|exact Hall].
  intros c Hc. apply negb_true_iff.
  destruct (Ascii.eqb_spec c "@") as [->|]; [discriminate Hc | reflexivity].
Qed.

(** ** The helpers [clamp01] and [jitter] *)

(** [clamp01] maps into [0,1], leaves the values of [0,1] as they are, so
    that clamping twice is clamping once, and keeps the order. *)
Theorem clamp01_closure (x y : Q) :
  (0 <= clamp01 x /\ clamp01 x <= 1)%Q /\
  ((0 <= x /\ x <= 1)%Q -> clamp01 x = x) /\
  clamp01 (clamp01 x) = clamp01 x /\
  ((x <= y)%Q -> (clamp01 x <= clamp01 y)%Q).
Proof.
  split; [apply clamp01_range|].
  split; [apply clamp01_id|].
  split; [apply clamp01_id, clamp01_range|].
  intros Hxy. unfold clamp01.
  case_Qltb x 0%Q; case_Qltb y 0%Q; try lra;
    case_Qltb 1%Q y; try lra; case_Qltb 1%Q x; lra.
Qed.

(** [jitter(x, rel)] with [0 <= rel <= 1] always returns, reads one value
    of the random source, and neither changes the sign of [x] nor more
    than doubles it: the factor lies in [0, 2]. *)
Theorem jitter_keeps_sign rng (x rel : Q) w :
  (0 <= rel)%Q -> (rel <= 1)%Q ->
  exists y w', jitter rng x rel w = Ok y w' /\
    rng_pos w' = S (rng_pos w) /\
    ((0 <= x)%Q -> (0 <= y)%Q /\ (y <= 2 * x)%Q) /\
    ((x <= 0)%Q -> (2 * x <= y)%Q /\ (y <= 0)%Q).
Proof.
  intros Hrel Hrel1. unfold jitter, random_uniform, random_random, bind, ret.
  eexists. eexists. split; [reflexivity|]. split; [reflexivity|].
  destruct (dr_range (rng (rng_pos w))) as [Hu0 Hu1].
  set (u := dr_val (rng (rng_pos w))) in *.
  set (r := (- rel + (rel - - rel) * u)%Q).
  assert (Hr : (- rel <= r /\ r <= rel)%Q) by (unfold r; nra).
  clearbody r. split; intros Hx; split; nra.
Qed.

(** * Sheets (ExcelLayout.py) *)

(** ** Sheets by title and by position *)

Lemma get_sheet_None name wb : name ∉ sheetnames wb -> get_sheet name wb = None.
Proof.
  unfold sheetnames. induction wb as [|[n ws] wb IH]; simpl; [reflexivity|].
  intros Hn. apply not_elem_of_cons in Hn as [Hne Hn].
  destruct (String.eqb_spec n name) as [->|]; [contradiction | apply IH, Hn].
Qed.

Lemma sheet_index_None name wb :
  sheet_index name wb = None <-> name ∉ sheetnames wb.
Proof.
  unfold sheetnames. induction wb as [|[n ws] wb IH]; simpl.
  - split; [intros _ H; inversion H | reflexivity].
  - destruct (String.eqb_spec n name) as [->|Hne].
    + split; [discriminate|]. intros H. exfalso. apply H, list_elem_of_here.
    + rewrite fmap_None, IH, not_elem_of_cons.
      split; [intros H; split; [congruence | exact H] | tauto].
Qed.

Lemma sheet_index_Some name wb i :
  sheet_index name wb = Some i ->
  exists ws, wb !! i = Some (name, ws) /\ get_sheet name wb = Some ws.
Proof.
  revert i. induction wb as [|[n ws] wb IH]; intros i; simpl; [discriminate|].
  destruct (String.eqb_spec n name) as [->|Hne].
  - intros [= <-]. eauto.
  - destruct (sheet_index name wb) as [k|] eqn:Hk; simpl; [|discriminate].
    intros [= <-]. destruct (IH k eq_refl) as (ws' & H1 & H2). eauto.
Qed.

Lemma sheet_index_elem name wb i :
  sheet_index name wb = Some i -> name ∈ sheetnames wb.
Proof.
  intros Hi. destruct (decide (name ∈ sheetnames wb)) as [|Hn]; [assumption|].
  apply sheet_index_None in Hn. congruence.
Qed.

Lemma sheet_index_names name wb wb' :
  sheetnames wb = sheetnames wb' -> sheet_index name wb = sheet_index name wb'.
Proof.
  unfold sheetnames. revert wb'.
  induction wb as [|[n ws] wb IH]; intros [|[n' ws'] wb']; simpl;
    try discriminate; [reflexivity|].
  intros [= -> H]. rewrite (IH _ H). reflexivity.
Qed.

Lemma sheet_index_snoc name wb t ws :
  sheet_index name (wb ++ [(t, ws)]) =
  match sheet_index name wb with
  | Some i => Some i
  | None => if String.eqb t name then Some (length wb) else None
  end.
Proof.
  induction wb as [|[n ws0] wb IH]; simpl.
  - destruct (String.eqb t name); reflexivity.
  - destruct (String.eqb n name); [reflexivity|]. rewrite IH.
    destruct (sheet_index name wb); simpl; [reflexivity|].
    destruct (String.eqb t name); reflexivity.
Qed.

Lemma get_sheet_ext name wb wb' :
  sheet_index name wb' = sheet_index name wb ->
  (forall i, sheet_index name wb = Some i -> wb' !! i = wb !! i) ->
  get_sheet name wb' = get_sheet name wb.
Proof.
  intros Hidx Hsame.
  destruct (sheet_index name wb) as [i|] eqn:Hi.
  - destruct (sheet_index_Some _ _ _ Hi) as (ws & Hl & ->).
    destruct (sheet_index_Some _ _ _ Hidx) as (ws' & Hl' & ->).
    rewrite (Hsame i eq_refl), Hl in Hl'. congruence.
  - rewrite !get_sheet_None; [reflexivity | apply sheet_index_None; assumption ..].
Qed.

Lemma at_sheet_lookup i f wb :
  at_sheet i f wb !! i = (fun s => (s.1, f s.2)) <$> wb !! i.
Proof. apply list_lookup_alter_eq. Qed.

Lemma at_sheet_lookup_ne i j f wb : j <> i -> at_sheet i f wb !! j = wb !! j.
Proof. intros H. apply list_lookup_alter_ne. congruence. Qed.

Lemma sheetnames_at_sheet i f wb : sheetnames (at_sheet i f wb) = sheetnames wb.
Proof.
  unfold sheetnames, at_sheet. revert i.
  induction wb as [|[t ws] wb IH]; intros [|i]; simpl; try reflexivity.
  f_equal. apply IH.
Qed.

Lemma sheetnames_insert i t ws ws0 wb :
  wb !! i = Some (t, ws0) -> sheetnames (<[i := (t, ws)]> wb) = sheetnames wb.
Proof.
  unfold sheetnames. revert i.
  induction wb as [|a wb IH]; intros [|i] H; simpl in *; try discriminate.
  - injection H as ->. reflexivity.
  - f_equal. apply IH. exact H.
Qed.

Lemma at_sheet_id i f wb t ws :
  wb !! i = Some (t, ws) -> f ws = ws -> at_sheet i f wb = wb.
Proof.
  intros Hi Hf. apply list_eq. intros j.
  destruct (decide (j = i)) as [->|Hne].
  - rewrite at_sheet_lookup, Hi. simpl. rewrite Hf. reflexivity.
  - apply at_sheet_lookup_ne. exact Hne.
Qed.

Lemma append_empty_r (s : string) : s +:+ EmptyString = s.
Proof.
  induction s as [|a s IH]; [reflexivity|].
  change (String a (s +:+ EmptyString) = String a s). f_equal. exact IH.
Qed.

Lemma title_or_default_id (title : string) :
  title <> EmptyString -> title_or_default title = title.
Proof. destruct title; [congruence | reflexivity]. Qed.

Lemma snoc_lookup_ne {A} (l : list A) (x : A) (j : nat) :
  j <> length l -> (l ++ [x]) !! j = l !! j.
Proof.
  intros Hj. destruct (decide (j < length l)%nat).
  - apply lookup_app_l. assumption.
  - rewrite !lookup_ge_None_2; [reflexivity | lia | rewrite length_app; simpl; lia].
Qed.

Lemma filter_ext_in {A} (P1 P2 : A -> Prop)
    `{!forall x, Decision (P1 x)} `{!forall x, Decision (P2 x)} (l : list A) :
  (forall x, x ∈ l -> (P1 x <-> P2 x)) -> filter P1 l = filter P2 l.
Proof.
  induction l as [|a l IH]; intros Hext; [reflexivity|].
  rewrite !filter_cons.
  assert (Ha : P1 a <-> P2 a) by (apply Hext, list_elem_of_here).
  rewrite IH by (intros x Hx; apply Hext, list_elem_of_further, Hx).
  destruct (decide (P1 a)), (decide (P2 a)); tauto || reflexivity.
Qed.

Lemma add_names (l : list string) : forall names,
  NoDup l ->
  foldl (fun ns a => if bool_decide (a ∈ ns) then ns else ns ++ [a]) names l =
  names ++ filter (fun n => n ∉ names) l.
Proof.
  induction l as [|a l IH]; intros names Hnd.
  - simpl. rewrite filter_nil, app_nil_r. reflexivity.
  - apply NoDup_cons in Hnd as [Ha Hnd]. simpl. rewrite IH by exact Hnd.
    rewrite filter_cons.
    destruct (decide (a ∈ names)) as [Hin|Hin].
    + rewrite bool_decide_eq_true_2 by exact Hin.
      rewrite decide_False by tauto. reflexivity.
    + rewrite bool_decide_eq_false_2 by exact Hin.
      rewrite decide_True by exact Hin.
      rewrite <- app_assoc. simpl. f_equal. f_equal.
      apply filter_ext_in. intros x Hx.
      rewrite elem_of_app, list_elem_of_singleton.
      split; [tauto|]. intros Hxn [H| ->]; [tauto | contradiction].
Qed.

(** ** [reset_or_create_sheet] *)

Section SheetTitles.

Variable lower : string -> string.
Variable dedup_suffix : list string -> string -> string.

Lemma avoid_dup_free names title :
  (forall n, n ∈ names -> lower n <> lower title) ->
  avoid_duplicate_name lower dedup_suffix names title = title.
Proof.
  intros Hfree. unfold avoid_duplicate_name.
  destruct (existsb _ names) eqn:E; [|reflexivity].
  apply existsb_exists in E as (n & Hn & He). apply String.eqb_eq in He.
  exfalso. apply (Hfree n); [apply list_elem_of_In; exact Hn | exact He].
Qed.

Lemma avoid_dup_prefix names value :
  exists s, avoid_duplicate_name lower dedup_suffix names value = value +:+ s.
Proof.
  unfold avoid_duplicate_name. destruct (existsb _ names); [eauto|].
  exists EmptyString. rewrite append_empty_r. reflexivity.
Qed.

Lemma reset_inv name wb wb' i :
  reset_or_create_sheet lower dedup_suffix name wb = Some (wb', i) ->
  (forall j, j <> i -> wb' !! j = wb !! j) /\
  exists t ws',
    wb' !! i = Some (t, ws') /\ no_cells ws' /\
    ws_widths ws' = old_widths name wb /\
    ((sheet_index name wb = Some i /\ t = name /\ sheetnames wb' = sheetnames wb) \/
     (sheet_index name wb = None /\ i = length wb /\
      t = avoid_duplicate_name lower dedup_suffix (sheetnames wb)
            (title_or_default name) /\
      sheetnames wb' = sheetnames wb ++ [t])).
Proof.
  unfold reset_or_create_sheet.
  destruct (sheet_index name wb) as [k|] eqn:Hi.
  - intros [= <- <-].
    destruct (sheet_index_Some _ _ _ Hi) as (ws & Hl & Hg).
    split; [intros j Hj; apply at_sheet_lookup_ne; exact Hj|].
    exists name, (delete_all_rows ws). rewrite at_sheet_lookup, Hl. simpl.
    split; [reflexivity|]. split; [repeat split|].
    split; [unfold old_widths; rewrite Hg; reflexivity|].
    left. split; [reflexivity|]. split; [reflexivity|]. apply sheetnames_at_sheet.
  - unfold create_sheet. cbv zeta.
    destruct (invalid_title (title_or_default name)); [discriminate|].
    intros [= <- <-].
    split; [intros j Hj; apply snoc_lookup_ne; exact Hj|].
    eexists _, empty_sheet.
    split; [rewrite lookup_app_r by lia; rewrite Nat.sub_diag; reflexivity|].
    split; [repeat split|].
    split.
    { unfold old_widths. rewrite get_sheet_None by (apply sheet_index_None; exact Hi).
      reflexivity. }
    right. split; [reflexivity|]. split; [reflexivity|]. split; [reflexivity|].
    unfold sheetnames. rewrite fmap_app. reflexivity.
Qed.

Lemma reset_None name wb :
  reset_or_create_sheet lower dedup_suffix name wb = None <->
  (name ∉ sheetnames wb) /\ invalid_title (title_or_default name) = true.
Proof.
  unfold reset_or_create_sheet, create_sheet. cbv zeta.
  rewrite <- sheet_index_None.
  destruct (sheet_index name wb) as [k|].
  - split; [discriminate | intros [H _]; discriminate H].
  - destruct (invalid_title (title_or_default name)).
    + split; auto.
    + split; [discriminate | intros [_ H]; discriminate H].
Qed.

(** [reset_or_create_sheet] raises only for a new title with an invalid
    character. Otherwise the worksheet it returns has no cell (rows,
    styles and all; it keeps the column widths it had) and no other sheet
    is touched: the sheet is the first one of that title, or a new last
    one, titled as [avoid_duplicate_name] decides. When the title is free
    (a sheet has it, or no title equals it when case is ignored), the
    sheet is the one of that title afterwards, distinct titles stay
    distinct, and a second reset changes nothing. *)
Theorem reset_or_create_sheet_effect (name : string) (wb : Workbook) :
  match reset_or_create_sheet lower dedup_suffix name wb with
  | Some (wb', ws) =>
      (exists title sheet,
         wb' !! ws = Some (title, sheet) /\ no_cells sheet /\
         ws_widths sheet = old_widths name wb) /\
      (forall j, j <> ws -> wb' !! j = wb !! j) /\
      (if bool_decide (name ∈ sheetnames wb)
       then sheet_index name wb = Some ws /\ sheetnames wb' = sheetnames wb
       else ws = length wb /\
            sheetnames wb' =
            sheetnames wb ++
            [avoid_duplicate_name lower dedup_suffix (sheetnames wb)
               (title_or_default name)]) /\
      (title_free lower (sheetnames wb) name ->
         sheet_index name wb' = Some ws /\
         sheetnames wb' =
           (if bool_decide (name ∈ sheetnames wb) then sheetnames wb
            else sheetnames wb ++ [name]) /\
         (NoDup (sheetnames wb) -> NoDup (sheetnames wb')) /\
         reset_or_create_sheet lower dedup_suffix name wb' = Some (wb', ws))
  | None => (name ∉ sheetnames wb) /\ invalid_title (title_or_default name) = true
  end.
Proof.
  destruct (reset_or_create_sheet lower dedup_suffix name wb) as [[wb' i]|] eqn:Hreset;
    [|apply reset_None; exact Hreset].
  destruct (reset_inv _ _ _ _ Hreset) as (Hother & t & ws' & Hl & Hno & Hwd & Hcase).
  split; [eauto|]. split; [exact Hother|].
  destruct Hcase as [(Hi & -> & Hnames)|(Hi & -> & -> & Hnames)].
  - pose proof (sheet_index_elem _ _ _ Hi) as Hin.
    rewrite (bool_decide_eq_true_2 _ Hin).
    split; [auto|]. intros _.
    assert (Hi' : sheet_index name wb' = Some i).
    { rewrite <- Hi. apply sheet_index_names. exact Hnames. }
    split; [exact Hi'|]. split; [exact Hnames|].
    split; [rewrite Hnames; auto|].
    unfold reset_or_create_sheet. rewrite Hi'. f_equal. f_equal.
    destruct Hno as (Hrows & Hst & Htouch).
    apply (at_sheet_id _ _ _ _ _ Hl).
    destruct ws' as [rows st touched widths]. simpl in *. subst. reflexivity.
  - pose proof (proj1 (sheet_index_None _ _) Hi) as Hnin.
    rewrite (bool_decide_eq_false_2 _ Hnin).
    split; [auto|]. intros [Hin|[Hne Hfree]]; [contradiction|].
    rewrite (title_or_default_id _ Hne) in *.
    rewrite (avoid_dup_free _ _ Hfree) in *.
    assert (Hi' : sheet_index name wb' = Some (length wb)).
    { rewrite (sheet_index_names name wb' (wb ++ [(name, empty_sheet)]))
        by (rewrite Hnames; unfold sheetnames; rewrite fmap_app; reflexivity).
      rewrite sheet_index_snoc, Hi, String.eqb_refl. reflexivity. }
    split; [exact Hi'|]. split; [exact Hnames|].
    split.
    { intros Hnd. rewrite Hnames. apply NoDup_app. split; [exact Hnd|].
      split; [|apply NoDup_singleton].
      intros x Hx Hx'. apply list_elem_of_singleton in Hx'. subst x. contradiction. }
    unfold reset_or_create_sheet. rewrite Hi'. f_equal. f_equal.
    destruct Hno as (Hrows & Hst & Htouch).
    apply (at_sheet_id _ _ _ _ _ Hl).
    destruct ws' as [rows st touched widths]. simpl in *. subst. reflexivity.
Qed.

(** ** [prepare_sheet] and the four sheets *)

Lemma prepare_inv name header wb wb' i :
  prepare_sheet lower dedup_suffix name header wb = Some (wb', i) ->
  exists t, prepared lower dedup_suffix name header wb wb' i t.
Proof.
  unfold prepare_sheet.
  destruct (reset_or_create_sheet lower dedup_suffix name wb) as [[wb1 k]|] eqn:Hreset;
    [|discriminate].
  intros [= <- <-].
  destruct (reset_inv _ _ _ _ Hreset)
    as (Hother & t & ws' & Hl & (Hrows & Hst & Htouch) & Hwd & Hcase).
  exists t. split.
  { intros j Hj. rewrite at_sheet_lookup_ne by exact Hj. apply Hother, Hj. }
  split.
  { rewrite at_sheet_lookup, Hl. simpl. do 2 f_equal.
    destruct ws' as [rows st touched widths]. simpl in *. subst. reflexivity. }
  rewrite sheetnames_at_sheet. exact Hcase.
Qed.

Lemma prepare_is_Some name header wb :
  invalid_title (title_or_default name) = false ->
  exists wb' i, prepare_sheet lower dedup_suffix name header wb = Some (wb', i).
Proof.
  intros Hvalid. unfold prepare_sheet.
  destruct (reset_or_create_sheet lower dedup_suffix name wb) as [[wb1 k]|] eqn:Hreset;
    [eauto|].
  apply reset_None in Hreset as [_ Hinv]. congruence.
Qed.

Lemma prepared_length name header wb wb' i t :
  prepared lower dedup_suffix name header wb wb' i t ->
  (i < length wb')%nat /\ (forall k x, wb !! k = Some x -> k = i \/ wb' !! k = Some x).
Proof.
  intros (Hother & Hl & _). split; [apply lookup_lt_Some in Hl; exact Hl|].
  intros k x Hk. destruct (decide (k = i)) as [|Hne]; [left; assumption|].
  right. rewrite Hother by exact Hne. exact Hk.
Qed.

Lemma prepared_index name header wb wb' i t n :
  prepared lower dedup_suffix name header wb wb' i t ->
  n <> t -> sheet_index n wb' = sheet_index n wb.
Proof.
  intros (Hother & Hl & [(Hi & -> & Hnames)|(Hi & -> & Ht & Hnames)]) Hn.
  - apply sheet_index_names. exact Hnames.
  - rewrite (sheet_index_names n wb' (wb ++ [(t, empty_sheet)]))
      by (rewrite Hnames; unfold sheetnames; rewrite fmap_app; reflexivity).
    rewrite sheet_index_snoc. destruct (sheet_index n wb); [reflexivity|].
    destruct (String.eqb_spec t n) as [->|]; [contradiction | reflexivity].
Qed.

Lemma prepared_other name header wb wb' i t n :
  prepared lower dedup_suffix name header wb wb' i t ->
  n <> t -> get_sheet n wb' = get_sheet n wb.
Proof.
  intros Hp Hn. pose proof (prepared_index _ _ _ _ _ _ n Hp Hn) as Hidx.
  apply get_sheet_ext; [exact Hidx|].
  intros j Hj. destruct Hp as (Hother & Hl & _). apply Hother. intros ->.
  rewrite <- Hidx in Hj. destruct (sheet_index_Some _ _ _ Hj) as (ws & Hl' & _).
  congruence.
Qed.

Lemma prepared_distinct name header wb wb' i t k tk ws :
  prepared lower dedup_suffix name header wb wb' i t ->
  wb !! k = Some (tk, ws) -> tk <> name -> i <> k.
Proof.
  intros (_ & _ & [(Hi & _)|(_ & -> & _)]) Hk Hne.
  - destruct (sheet_index_Some _ _ _ Hi) as (ws' & Hl & _). congruence.
  - apply lookup_lt_Some in Hk. lia.
Qed.

Lemma prepared_free name header wb wb' i t :
  prepared lower dedup_suffix name header wb wb' i t ->
  title_free lower (sheetnames wb) name ->
  t = name /\ sheet_index name wb' = Some i /\
  sheetnames wb' = (if bool_decide (name ∈ sheetnames wb) then sheetnames wb
                    else sheetnames wb ++ [name]).
Proof.
  intros (Hother & Hl & [(Hi & -> & Hnames)|(Hi & -> & Ht & Hnames)]) Hfree.
  - split; [reflexivity|].
    split; [rewrite <- Hi; apply sheet_index_names; exact Hnames|].
    rewrite (bool_decide_eq_true_2 _ (sheet_index_elem _ _ _ Hi)). exact Hnames.
  - pose proof (proj1 (sheet_index_None _ _) Hi) as Hnin.
    destruct Hfree as [Hin|[Hne Hfree]]; [contradiction|].
    rewrite (title_or_default_id _ Hne), (avoid_dup_free _ _ Hfree) in Ht. subst t.
    split; [reflexivity|]. split.
    + rewrite (sheet_index_names name wb' (wb ++ [(name, empty_sheet)]))
        by (rewrite Hnames; unfold sheetnames; rewrite fmap_app; reflexivity).
      rewrite sheet_index_snoc, Hi, String.eqb_refl. reflexivity.
    + rewrite (bool_decide_eq_false_2 _ Hnin). exact Hnames.
Qed.

Lemma prepared_title name header wb wb' i t :
  prepared lower dedup_suffix name header wb wb' i t ->
  t = name \/ exists s, t = title_or_default name +:+ s.
Proof.
  intros (_ & _ & [(_ & -> & _)|(_ & _ & -> & _)]); [left; reflexivity|].
  right. apply avoid_dup_prefix.
Qed.

Lemma title_free_step names title t :
  title_free lower names title -> lower t <> lower title ->
  title_free lower (if bool_decide (t ∈ names) then names else names ++ [t]) title.
Proof.
  intros Hfree Hlow. destruct (bool_decide (t ∈ names)); [exact Hfree|].
  destruct Hfree as [Hin|[Hne Hfree]].
  - left. apply elem_of_app. left. exact Hin.
  - right. split; [exact Hne|]. intros n Hn.
    apply elem_of_app in Hn as [Hn|Hn]; [apply Hfree, Hn|].
    apply list_elem_of_singleton in Hn. subst n. exact Hlow.
Qed.

Lemma prepare_step name header wb :
  invalid_title (title_or_default name) = false ->
  title_free lower (sheetnames wb) name ->
  exists wb' i,
    prepare_sheet lower dedup_suffix name header wb = Some (wb', i) /\
    prepared lower dedup_suffix name header wb wb' i name /\
    sheet_index name wb' = Some i /\
    sheetnames wb' = (if bool_decide (name ∈ sheetnames wb) then sheetnames wb
                      else sheetnames wb ++ [name]) /\
    sheet_rows name wb' = Some [CStr <$> header] /\
    (forall n, n <> name ->
       get_sheet n wb' = get_sheet n wb /\ sheet_index n wb' = sheet_index n wb).
Proof.
  intros Hvalid Hfree.
  destruct (prepare_is_Some name header wb Hvalid) as (wb' & i & Hprep).
  destruct (prepare_inv _ _ _ _ _ Hprep) as (t & Hp).
  destruct (prepared_free _ _ _ _ _ _ Hp Hfree) as (-> & Hi & Hnames).
  exists wb', i. split; [exact Hprep|]. split; [exact Hp|].
  split; [exact Hi|]. split; [exact Hnames|].
  split.
  { destruct (sheet_index_Some _ _ _ Hi) as (ws & Hl & Hg).
    destruct Hp as (_ & Hl' & _). rewrite Hl in Hl'. injection Hl' as ->.
    unfold sheet_rows. rewrite Hg. reflexivity. }
  intros n Hn.
  split; [eapply prepared_other | eapply prepared_index]; eauto.
Qed.

Lemma lower_distinct (titles : list string) i j x y :
  NoDup (lower <$> titles) ->
  titles !! i = Some x -> titles !! j = Some y -> i <> j -> lower x <> lower y.
Proof.
  intros Hnd Hi Hj Hij Heq. apply Hij.
  apply (NoDup_lookup _ _ _ (lower x) Hnd).
  - rewrite list_lookup_fmap, Hi. reflexivity.
  - rewrite list_lookup_fmap, Hj, Heq. reflexivity.
Qed.

(** When the four titles are free in the workbook, [prepare_aiuser_sheets]
    returns the four worksheets of those titles, each with its header as
    its only row, whatever the workbook held; every sheet of another
    title is untouched. The sheets that were there keep their places, and
    the new ones follow in the order Stocks, Identity, Holding, Profile. *)
Theorem prepare_aiuser_sheets_headers (tickers : list string) (wb : Workbook) :
  titles_usable lower (sheetnames wb)
    ["Stocks"; "Identity"; "Holding"; "Profile"]%string ->
  exists wb' ws_stocks ws_identity ws_holding ws_profile,
    prepare_aiuser_sheets lower dedup_suffix tickers wb
      = Some (wb', (ws_stocks, ws_identity, ws_holding, ws_profile)) /\
    sheet_index "Stocks" wb' = Some ws_stocks /\
    sheet_index "Identity" wb' = Some ws_identity /\
    sheet_index "Holding" wb' = Some ws_holding /\
    sheet_index "Profile" wb' = Some ws_profile /\
    sheet_rows "Stocks" wb' = Some [CStr <$> stocks_header] /\
    sheet_rows "Identity" wb' = Some [CStr <$> identity_header] /\
    sheet_rows "Holding" wb' = Some [CStr <$> holding_header tickers] /\
    sheet_rows "Profile" wb' = Some [CStr <$> profile_header] /\
    (forall n, n ∉ ["Stocks"; "Identity"; "Holding"; "Profile"]%string ->
       get_sheet n wb' = get_sheet n wb) /\
    sheetnames wb' =
      sheetnames wb ++
      filter (fun n => n ∉ sheetnames wb)
             ["Stocks"; "Identity"; "Holding"; "Profile"]%string.
Proof.
  intros [Hlow Hfree].
  apply Forall_cons in Hfree as [F1 Hfree]. apply Forall_cons in Hfree as [F2 Hfree].
  apply Forall_cons in Hfree as [F3 Hfree]. apply Forall_cons in Hfree as [F4 _].
  pose proof (fun i j x y Hi Hj Hij => lower_distinct _ i j x y Hlow Hi Hj Hij) as Hd.
  unfold prepare_aiuser_sheets, prepare_stocks_sheet, prepare_identity_sheet,
    prepare_holding_sheet, prepare_profile_sheet.
  destruct (prepare_step "Stocks" stocks_header wb eq_refl F1)
    as (wb1 & i1 & -> & _ & Hi1 & Hn1 & Hr1 & Ho1).
  assert (F2' : title_free lower (sheetnames wb1) "Identity").
  { rewrite Hn1. apply title_free_step; [exact F2|].
    apply (Hd 0 1)%nat; [reflexivity | reflexivity | lia]. }
  destruct (prepare_step "Identity" identity_header wb1 eq_refl F2')
    as (wb2 & i2 & -> & _ & Hi2 & Hn2 & Hr2 & Ho2).
  assert (F3' : title_free lower (sheetnames wb2) "Holding").
  { rewrite Hn2, Hn1. apply title_free_step; [apply title_free_step; [exact F3|]|].
    - apply (Hd 0 2)%nat; [reflexivity | reflexivity | lia].
    - apply (Hd 1 2)%nat; [reflexivity | reflexivity | lia]. }
  destruct (prepare_step "Holding" (holding_header tickers) wb2 eq_refl F3')
    as (wb3 & i3 & -> & _ & Hi3 & Hn3 & Hr3 & Ho3).
  assert (F4' : title_free lower (sheetnames wb3) "Profile").
  { rewrite Hn3, Hn2, Hn1.
    apply title_free_step; [apply title_free_step; [apply title_free_step; [exact F4|]|]|].
    - apply (Hd 0 3)%nat; [reflexivity | reflexivity | lia].
    - apply (Hd 1 3)%nat; [reflexivity | reflexivity | lia].
    - apply (Hd 2 3)%nat; [reflexivity | reflexivity | lia]. }
  destruct (prepare_step "Profile" profile_header wb3 eq_refl F4')
    as (wb4 & i4 & -> & _ & Hi4 & Hn4 & Hr4 & Ho4).
  exists wb4, i1, i2, i3, i4. split; [reflexivity|].
  assert (Hne : forall a b : string, a <> b -> a <> b) by auto.
  split.
  { rewrite (proj2 (Ho4 "Stocks"%string ltac:(discriminate))),
      (proj2 (Ho3 "Stocks"%string ltac:(discriminate))),
      (proj2 (Ho2 "Stocks"%string ltac:(discriminate))). exact Hi1. }
  split.
  { rewrite (proj2 (Ho4 "Identity"%string ltac:(discriminate))),
      (proj2 (Ho3 "Identity"%string ltac:(discriminate))). exact Hi2. }
  split; [rewrite (proj2 (Ho4 "Holding"%string ltac:(discriminate))); exact Hi3|].
  split; [exact Hi4|].
  unfold sheet_rows in *.
  split.
  { rewrite (proj1 (Ho4 "Stocks"%string ltac:(discriminate))),
      (proj1 (Ho3 "Stocks"%string ltac:(discriminate))),
      (proj1 (Ho2 "Stocks"%string ltac:(discriminate))). exact Hr1. }
  split.
  { rewrite (proj1 (Ho4 "Identity"%string ltac:(discriminate))),
      (proj1 (Ho3 "Identity"%string ltac:(discriminate))). exact Hr2. }
  split; [rewrite (proj1 (Ho4 "Holding"%string ltac:(discriminate))); exact Hr3|].
  split; [exact Hr4|].
  split.
  { intros n Hn.
    assert (Hn' : n <> "Stocks"%string /\ n <> "Identity"%string /\
                  n <> "Holding"%string /\ n <> "Profile"%string).
    { repeat split; intros ->; apply Hn;
        repeat first [apply list_elem_of_here | apply list_elem_of_further]. }
    destruct Hn' as (N1 & N2 & N3 & N4).
    rewrite (proj1 (Ho4 n N4)), (proj1 (Ho3 n N3)), (proj1 (Ho2 n N2)).
    exact (proj1 (Ho1 n N1)). }
  rewrite Hn4, Hn3, Hn2, Hn1.
  apply (add_names ["Stocks"; "Identity"; "Holding"; "Profile"]%string (sheetnames wb)).
  repeat (apply NoDup_cons; split;
          [rewrite ?elem_of_cons; intros H;
           repeat (destruct H as [H|H]; [discriminate H|]); inversion H|]).
  apply NoDup_nil. constructor.
Qed.

End SheetTitles.

(** ** [apply_dark_theme] *)

Lemma paint_row_lookup paint r c1 n : forall st r' c',
  foldl (fun st c => <[(r, c) := paint r c (style_at st r c)]> st) st (seq c1 n)
    !! (r', c') =
  if decide (r' = r /\ (c1 <= c' < c1 + n)%nat)
  then Some (paint r c' (style_at st r c')) else st !! (r', c').
Proof.
  induction n as [|n IH]; intros st r' c'.
  - simpl. destruct (decide _) as [[_ H]|]; [lia | reflexivity].
  - rewrite seq_S, foldl_app. simpl.
    set (stn := foldl _ st (seq c1 n)) in *.
    destruct (decide ((r', c') = (r, (c1 + n)%nat))) as [[= -> ->]|Hne].
    + rewrite lookup_insert_eq.
      rewrite decide_True by (split; [reflexivity | lia]).
      unfold style_at at 1. unfold stn. rewrite IH.
      rewrite decide_False by lia. reflexivity.
    + rewrite lookup_insert_ne by congruence.
      unfold stn. rewrite IH.
      destruct (decide (r' = r /\ (c1 <= c' < c1 + n)%nat)) as [[-> H]|H].
      * rewrite decide_True by (split; [reflexivity | lia]). reflexivity.
      * rewrite decide_False; [reflexivity|].
        intros [-> H']. apply H. split; [reflexivity|].
        destruct (decide (c' = (c1 + n)%nat)) as [->|]; [congruence | lia].
Qed.

Lemma paint_rows_lookup paint r1 m c1 n : forall st r c,
  foldl (fun st r =>
           foldl (fun st c => <[(r, c) := paint r c (style_at st r c)]> st)
                 st (seq c1 n))
        st (seq r1 m) !! (r, c) =
  if decide ((r1 <= r < r1 + m)%nat /\ (c1 <= c < c1 + n)%nat)
  then Some (paint r c (style_at st r c)) else st !! (r, c).
Proof.
  induction m as [|m IH]; intros st r c.
  - simpl. destruct (decide _) as [[H _]|]; [lia | reflexivity].
  - rewrite seq_S, foldl_app. simpl.
    set (stm := foldl _ st (seq r1 m)) in *.
    rewrite paint_row_lookup.
    destruct (decide (r = (r1 + m)%nat /\ (c1 <= c < c1 + n)%nat)) as [[-> H]|H].
    + rewrite decide_True by lia.
      unfold style_at at 1. unfold stm. rewrite IH.
      rewrite decide_False by lia. reflexivity.
    + unfold stm. rewrite IH.
      destruct (decide ((r1 <= r < r1 + m)%nat /\ (c1 <= c < c1 + n)%nat)) as [H'|H'].
      * rewrite decide_True by lia. reflexivity.
      * rewrite decide_False by lia. reflexivity.
Qed.

Lemma paint_cells_lookup r1 r2 c1 c2 paint st r c :
  paint_cells r1 r2 c1 c2 paint st !! (r, c) =
  if decide ((r1 <= r <= r2)%nat /\ (c1 <= c <= c2)%nat)
  then Some (paint r c (style_at st r c)) else st !! (r, c).
Proof.
  unfold paint_cells. rewrite paint_rows_lookup.
  destruct (decide ((r1 <= r <= r2)%nat /\ (c1 <= c <= c2)%nat)) as [H|H].
  - rewrite decide_True by lia. reflexivity.
  - rewrite decide_False by lia. reflexivity.
Qed.

Lemma paint_cells_style r1 r2 c1 c2 paint st r c :
  style_at (paint_cells r1 r2 c1 c2 paint st) r c =
  if decide ((r1 <= r <= r2)%nat /\ (c1 <= c <= c2)%nat)
  then paint r c (style_at st r c) else style_at st r c.
Proof.
  unfold style_at at 1. rewrite paint_cells_lookup.
  destruct (decide _); reflexivity.
Qed.

Lemma max_row_theme ws : max_row (apply_dark_theme ws) = (max_row ws + 20)%nat.
Proof.
  unfold apply_dark_theme, max_row. cbv zeta. cbn [ws_rows ws_touched fst snd].
  unfold max_row. lia.
Qed.

Lemma max_column_theme ws :
  max_column (apply_dark_theme ws) = (max_column ws + 20)%nat.
Proof.
  unfold apply_dark_theme, max_column. cbv zeta. cbn [ws_rows ws_touched fst snd].
  unfold max_column. lia.
Qed.

(** [apply_dark_theme] styles a sheet of [R] rows and [C] columns so:
    the header row has the header fill, a bold white font and thick top
    and bottom borders; the data rows alternate between the two row
    colours, the even rows with the primary one, and have thin borders;
    in both, the right side is thick in the first and in the last column;
    the cells of the 20 rows and columns beyond get a black fill and keep
    their font and border; no other cell is styled, and no value changes.
    The sheet's extent grows to [R + 20] rows and [C + 20] columns. *)
Theorem apply_dark_theme_styles (ws : Worksheet) (r c : nat) :
  let R := max_row ws in
  let C := max_column ws in
  let s := style_at (ws_styles (apply_dark_theme ws)) r c in
  ((1 <= c <= C)%nat ->
     (r = 1%nat ->
        s = {| cs_fill := Some HEADER_COLOR;
               cs_font := Some {| font_color := HEADER_FONT_COLOR; font_bold := true |};
               cs_border := Some {| b_top := Thick; b_bottom := Thick; b_left := Thin;
                                    b_right := if bool_decide (c = 1%nat \/ c = C)
                                               then Thick else Thin |} |}) /\
     ((2 <= r <= R)%nat ->
        s = {| cs_fill := Some (if Nat.even r then ROW_FILL_COLOR
                                else ROW_ALT_FILL_COLOR);
               cs_font := Some {| font_color := TEXT_FONT_COLOR; font_bold := false |};
               cs_border := Some {| b_top := Thin; b_bottom := Thin; b_left := Thin;
                                    b_right := if bool_decide (c = 1%nat \/ c = C)
                                               then Thick else Thin |} |})) /\
  ((1 <= r <= R + 20)%nat -> (1 <= c <= C + 20)%nat -> (R < r \/ C < c)%nat ->
     s = set_fill BACKGROUND_COLOR (style_at (ws_styles ws) r c)) /\
  ((r = 0 \/ c = 0 \/ R + 20 < r \/ C + 20 < c)%nat ->
     ws_styles (apply_dark_theme ws) !! (r, c) = ws_styles ws !! (r, c)) /\
  ws_rows (apply_dark_theme ws) = ws_rows ws /\
  ws_widths (apply_dark_theme ws) = ws_widths ws /\
  max_row (apply_dark_theme ws) = (R + 20)%nat /\
  max_column (apply_dark_theme ws) = (C + 20)%nat.
Proof.
  cbv zeta.
  assert (HR : (1 <= max_row ws)%nat) by (unfold max_row; lia).
  assert (Hside : forall i, right_side i (max_column ws) =
            if bool_decide (i = 1%nat \/ i = max_column ws) then Thick else Thin).
  { intros i. unfold right_side.
    destruct (Nat.eqb_spec i 1) as [->|H1]; cbn [orb].
    - rewrite bool_decide_eq_true_2 by (left; reflexivity). reflexivity.
    - destruct (Nat.eqb_spec i (max_column ws)) as [->|H2].
      + rewrite bool_decide_eq_true_2 by (right; reflexivity). reflexivity.
      + rewrite bool_decide_eq_false_2 by tauto. reflexivity. }
  split; [intros Hc; split|].
  - intros ->. unfold apply_dark_theme. simpl.
    rewrite paint_cells_style, decide_False by lia.
    rewrite paint_cells_style, decide_True by lia.
    unfold header_style. rewrite Hside. reflexivity.
  - intros Hr. unfold apply_dark_theme. simpl.
    rewrite paint_cells_style, decide_True by lia.
    unfold data_style. rewrite Hside. reflexivity.
  - split.
    { intros Hr Hc Hout. unfold apply_dark_theme. simpl.
      rewrite paint_cells_style, decide_False by lia.
      rewrite paint_cells_style, decide_False by lia.
      rewrite paint_cells_style, decide_True by lia. reflexivity. }
    split.
    { intros Hout. unfold apply_dark_theme. simpl.
      rewrite !paint_cells_lookup.
      rewrite !decide_False by lia. reflexivity. }
    split; [reflexivity|]. split; [reflexivity|].
    split; [apply max_row_theme | apply max_column_theme].
Qed.

(** ** [autofit_columns] *)

Lemma foldl_insert_seq_lookup {A} (g : nat -> A) a n : forall (m : gmap nat A) c,
  foldl (fun widths col => <[col := g col]> widths) m (seq a n) !! c =
  if decide (a <= c < a + n)%nat then Some (g c) else m !! c.
Proof.
  induction n as [|n IH]; intros m c.
  - simpl. rewrite decide_False by lia. reflexivity.
  - rewrite seq_S, foldl_app. simpl.
    destruct (decide (c = (a + n)%nat)) as [->|Hne].
    + rewrite lookup_insert_eq, decide_True by lia. reflexivity.
    + rewrite lookup_insert_ne by congruence. rewrite IH.
      destruct (decide (a <= c < a + n)%nat).
      * rewrite decide_True by lia. reflexivity.
      * rewrite decide_False by lia. reflexivity.
Qed.

Lemma adjusted_width_bounds L min_width max_width :
  (adjusted_width L min_width max_width <= max_width)%Q /\
  ((min_width <= max_width)%Q ->
     (min_width <= adjusted_width L min_width max_width)%Q) /\
  ((min_width <= inject_Z (Z.of_nat L + 2))%Q ->
   (inject_Z (Z.of_nat L + 2) <= max_width)%Q ->
     adjusted_width L min_width max_width = inject_Z (Z.of_nat L + 2)).
Proof.
  unfold adjusted_width. cbv zeta.
  generalize (inject_Z (Z.of_nat L + 2)). intros w.
  case_Qltb w min_width.
  - case_Qltb max_width min_width; repeat split; intros; try lra.
  - case_Qltb max_width w; repeat split; intros; try reflexivity; try lra.
Qed.

Section AutofitFacts.

Variable float_str : Q -> string.
Variable date_str : Z -> string.

Lemma column_max_fold ws column rows : forall acc,
  let L := foldl (fun max_length row =>
             match cell_value ws row column with
             | CNone => max_length
             | v => let length := String.length (cell_text float_str date_str v) in
                    if (max_length <? length)%nat then length else max_length
             end) acc rows in
  (acc <= L)%nat /\
  (forall row, row ∈ rows -> cell_value ws row column <> CNone ->
     (String.length (cell_text float_str date_str (cell_value ws row column)) <= L)%nat) /\
  (L = acc \/ exists row, row ∈ rows /\ cell_value ws row column <> CNone /\
                 String.length (cell_text float_str date_str (cell_value ws row column)) = L).
Proof.
  induction rows as [|row rows IH]; intros acc; cbv zeta.
  - simpl. split; [lia|]. split; [|left; reflexivity].
    intros row H. inversion H.
  - simpl.
    match goal with
    | |- context [foldl _ ?a rows] =>
        set (acc' := a); destruct (IH acc') as (Hle & Hall & Hex)
    end.
    assert (Hacc : (acc <= acc')%nat /\
              (cell_value ws row column <> CNone ->
                 (String.length (cell_text float_str date_str (cell_value ws row column)) <= acc')%nat) /\
              (acc' = acc \/ (cell_value ws row column <> CNone /\
                 String.length (cell_text float_str date_str (cell_value ws row column)) = acc'))).
    { unfold acc'. destruct (cell_value ws row column) eqn:Hv;
        [ split; [lia|]; split; [intros H; contradiction | left; reflexivity] | ..];
        cbv zeta;
        match goal with
        | |- context [(?a <? ?b)%nat] => destruct (Nat.ltb_spec a b)
        end;
        cbn [cell_text];
        (split; [lia|]; split; [intros _; lia|]);
        first [left; reflexivity | right; split; [discriminate | reflexivity]]. }
    destruct Hacc as (Hacc1 & Hacc2 & Hacc3).
    split; [etransitivity; [exact Hacc1 | exact Hle]|]. split.
    + intros r Hr Hv. apply elem_of_cons in Hr as [->|Hr].
      * etransitivity; [exact (Hacc2 Hv) | exact Hle].
      * apply Hall; assumption.
    + destruct Hex as [Hex|(r & Hr & Hv & Hlen)].
      * destruct Hacc3 as [Hacc3|(Hv & Hlen)].
        -- left. rewrite <- Hacc3. exact Hex.
        -- right. exists row. split; [apply list_elem_of_here|].
           split; [exact Hv|]. rewrite Hlen. symmetry. exact Hex.
      * right. exists r. split; [apply list_elem_of_further; exact Hr|].
        split; assumption.
Qed.

Lemma column_max_length_spec ws column :
  let L := column_max_length float_str date_str ws column in
  (forall row, (1 <= row <= max_row ws)%nat -> cell_value ws row column <> CNone ->
     (String.length (cell_text float_str date_str (cell_value ws row column)) <= L)%nat) /\
  (L = 0%nat \/ exists row, (1 <= row <= max_row ws)%nat /\
                 cell_value ws row column <> CNone /\
                 String.length (cell_text float_str date_str (cell_value ws row column)) = L).
Proof.
  cbv zeta. unfold column_max_length.
  destruct (column_max_fold ws column (seq 1 (max_row ws)) 0%nat)
    as (_ & Hall & Hex).
  split.
  - intros row Hrow. apply Hall. apply elem_of_seq. lia.
  - destruct Hex as [Hex|(row & Hrow & Hv & Hlen)]; [left; exact Hex|].
    right. exists row. apply elem_of_seq in Hrow.
    split; [lia|]. split; assumption.
Qed.

Lemma autofit_columns_inv min_width max_width ws ws' :
  autofit_columns float_str date_str min_width max_width ws = Some ws' ->
  Z.of_nat (max_column ws) <= 18278 /\
  ws_rows ws' = ws_rows ws /\ ws_styles ws' = ws_styles ws /\
  ws_touched ws' = ws_touched ws /\
  forall col, ws_widths ws' !! col =
    if decide (1 <= col <= max_column ws)%nat
    then Some (adjusted_width (column_max_length float_str date_str ws col)
                              min_width max_width)
    else ws_widths ws !! col.
Proof.
  unfold autofit_columns.
  destruct (Z.ltb_spec 18278 (Z.of_nat (max_column ws))) as [|Hle]; [discriminate|].
  intros [= <-]. simpl.
  split; [lia|]. repeat split.
  intros col.
  rewrite (foldl_insert_seq_lookup
             (fun col => adjusted_width (column_max_length float_str date_str ws col)
                                        min_width max_width)).
  destruct (decide (1 <= col <= max_column ws)%nat).
  - rewrite decide_True by lia. reflexivity.
  - rewrite decide_False by lia. reflexivity.
Qed.

(** [autofit_columns] sets the width of every column of the sheet, and
    of no other, to the length of the longest text of the column plus 2,
    clamped: the width never exceeds [max_width], is at least [min_width]
    when [min_width <= max_width], and is exactly the longest length plus
    2 when that lies between the two. A column with no value counts as
    length 0. Values and styles are as before. *)
Theorem autofit_columns_widths min_width max_width ws ws' :
  autofit_columns float_str date_str min_width max_width ws = Some ws' ->
  ws_rows ws' = ws_rows ws /\ ws_styles ws' = ws_styles ws /\
  (forall col, (col = 0 \/ max_column ws < col)%nat ->
     ws_widths ws' !! col = ws_widths ws !! col) /\
  (forall col, (1 <= col <= max_column ws)%nat ->
     exists width L,
       ws_widths ws' !! col = Some width /\
       (forall row, (1 <= row <= max_row ws)%nat ->
          cell_value ws row col <> CNone ->
          (String.length (cell_text float_str date_str (cell_value ws row col)) <= L)%nat) /\
       (L = 0%nat \/ exists row, (1 <= row <= max_row ws)%nat /\
                      cell_value ws row col <> CNone /\
                      String.length (cell_text float_str date_str (cell_value ws row col)) = L) /\
       (width <= max_width)%Q /\
       ((min_width <= max_width)%Q -> (min_width <= width)%Q) /\
       ((min_width <= inject_Z (Z.of_nat L + 2))%Q ->
        (inject_Z (Z.of_nat L + 2) <= max_width)%Q ->
          width = inject_Z (Z.of_nat L + 2))).
Proof.
  intros Hfit. apply autofit_columns_inv in Hfit.
  destruct Hfit as (_ & Hrows & Hst & _ & Hwd).
  split; [exact Hrows|]. split; [exact Hst|]. split.
  - intros col Hcol. rewrite Hwd, decide_False by lia. reflexivity.
  - intros col Hcol.
    exists (adjusted_width (column_max_length float_str date_str ws col)
                           min_width max_width),
           (column_max_length float_str date_str ws col).
    split; [rewrite Hwd, decide_True by lia; reflexivity|].
    destruct (column_max_length_spec ws col) as (Hall & Hex).
    split; [exact Hall|]. split; [exact Hex|].
    apply adjusted_width_bounds.
Qed.

End AutofitFacts.

(** * The workbook of a batch (GenerateAIUsers.py) *)

Lemma max_list_const (k : nat) (l : list nat) :
  l <> [] -> (forall x, x ∈ l -> x = k) -> max_list l = k.
Proof.
  induction l as [|a l IH]; [congruence|]. intros _ Hall. simpl.
  assert (a = k) as -> by (apply Hall, list_elem_of_here).
  destruct l as [|b l]; [simpl; lia|].
  rewrite IH; [lia | discriminate |].
  intros x Hx. apply Hall, list_elem_of_further, Hx.
Qed.

Lemma NoDup_three {A} (a b c : A) :
  NoDup [a; b; c] -> a <> b /\ a <> c /\ b <> c.
Proof.
  intros Hnd. apply NoDup_cons in Hnd as [Ha Hnd]. apply NoDup_cons in Hnd as [Hb _].
  rewrite !elem_of_cons in Ha. rewrite elem_of_cons in Hb.
  repeat split; intros ->; tauto.
Qed.

Lemma not_in_three {A} (a b c j : A) :
  j ∉ [a; b; c] <-> j <> a /\ j <> b /\ j <> c.
Proof.
  rewrite !elem_of_cons. split.
  - intros H. repeat split; intros ->; tauto.
  - intros (H1 & H2 & H3) [->|[->|[->|H]]]; try tauto. inversion H.
Qed.

Lemma fresh_extent rows widths k :
  rows <> [] -> (forall row, row ∈ rows -> length row = k) -> (1 <= k)%nat ->
  max_row (fresh_sheet rows widths) = length rows /\
  max_column (fresh_sheet rows widths) = k.
Proof.
  intros Hne Hall Hk. unfold max_row, max_column, fresh_sheet. simpl.
  rewrite (max_list_const k).
  - destruct rows; [congruence|]. simpl. lia.
  - destruct rows; [congruence | discriminate].
  - intros x Hx. apply list_elem_of_fmap in Hx as (row & -> & Hrow).
    apply Hall, Hrow.
Qed.

Section Workbook.

Variable lower : string -> string.
Variable dedup_suffix : list string -> string -> string.
Variable float_str : Q -> string.
Variable date_str : Z -> string.
Variable pow : Q -> Q -> Q.
Variable rng : nat -> draw.
Variable fake : Faker.
Variable cat : Catalog.

(** ** The worksheets of the dictionary, by position *)

Lemma append_person_lookup iI iH iP p wb :
  NoDup [iI; iH; iP] ->
  append_person cat (iI, iH, iP) p wb !! iI =
    (fun s => (s.1, ws_append (ToIdentityList p) s.2)) <$> wb !! iI /\
  append_person cat (iI, iH, iP) p wb !! iH =
    (fun s => (s.1, ws_append (ToHoldingList cat p) s.2)) <$> wb !! iH /\
  append_person cat (iI, iH, iP) p wb !! iP =
    (fun s => (s.1, ws_append (ToProfileList p) s.2)) <$> wb !! iP /\
  (forall j, j ∉ [iI; iH; iP] -> append_person cat (iI, iH, iP) p wb !! j = wb !! j) /\
  sheetnames (append_person cat (iI, iH, iP) p wb) = sheetnames wb.
Proof.
  intros Hnd. destruct (NoDup_three _ _ _ Hnd) as (H1 & H2 & H3).
  unfold append_person. split; [|split; [|split; [|split]]].
  - rewrite !at_sheet_lookup_ne by congruence. apply at_sheet_lookup.
  - rewrite at_sheet_lookup_ne by congruence.
    rewrite at_sheet_lookup, at_sheet_lookup_ne by congruence. reflexivity.
  - rewrite at_sheet_lookup, !at_sheet_lookup_ne by congruence. reflexivity.
  - intros j Hj. apply not_in_three in Hj as (J1 & J2 & J3).
    rewrite !at_sheet_lookup_ne by congruence. reflexivity.
  - rewrite !sheetnames_at_sheet. reflexivity.
Qed.

Lemma append_people iI iH iP ps : forall wb tI tH tP ri wi rh wh rp wp,
  NoDup [iI; iH; iP] ->
  wb !! iI = Some (tI, fresh_sheet ri wi) ->
  wb !! iH = Some (tH, fresh_sheet rh wh) ->
  wb !! iP = Some (tP, fresh_sheet rp wp) ->
  foldl (fun wb p => append_person cat (iI, iH, iP) p wb) wb ps !! iI =
    Some (tI, fresh_sheet (ri ++ map ToIdentityList ps) wi) /\
  foldl (fun wb p => append_person cat (iI, iH, iP) p wb) wb ps !! iH =
    Some (tH, fresh_sheet (rh ++ map (ToHoldingList cat) ps) wh) /\
  foldl (fun wb p => append_person cat (iI, iH, iP) p wb) wb ps !! iP =
    Some (tP, fresh_sheet (rp ++ map ToProfileList ps) wp) /\
  (forall j, j ∉ [iI; iH; iP] ->
     foldl (fun wb p => append_person cat (iI, iH, iP) p wb) wb ps !! j = wb !! j) /\
  sheetnames (foldl (fun wb p => append_person cat (iI, iH, iP) p wb) wb ps)
    = sheetnames wb.
Proof.
  induction ps as [|p ps IH]; intros wb tI tH tP ri wi rh wh rp wp Hnd Hi Hh Hp.
  - simpl. rewrite !app_nil_r. auto.
  - simpl.
    destruct (append_person_lookup iI iH iP p wb Hnd) as (Hi' & Hh' & Hp' & Ho' & Hn').
    rewrite Hi in Hi'. rewrite Hh in Hh'. rewrite Hp in Hp'.
    destruct (IH _ _ _ _ _ _ _ _ _ _ Hnd Hi' Hh' Hp') as (Hi2 & Hh2 & Hp2 & Ho2 & Hn2).
    rewrite <- !app_assoc in *. simpl in *.
    split; [exact Hi2|]. split; [exact Hh2|]. split; [exact Hp2|].
    split; [|congruence].
    intros j Hj. rewrite Ho2 by exact Hj. apply Ho'. exact Hj.
Qed.

Lemma generate_rows_people fuel n sheets : forall wb w,
  generate_rows pow rng fake cat fuel n sheets wb w =
  match generate_people pow rng fake cat fuel n w with
  | Ok ps w' => Ok (foldl (fun wb p => append_person cat sheets p wb) wb ps) w'
  | Raise e => Raise e
  | Spin => Spin
  end.
Proof.
  induction n as [|n IH]; intros wb w; simpl; [reflexivity|].
  unfold bind.
  destruct (Person_new pow rng fake cat fuel w) as [p w1| |]; try reflexivity.
  rewrite IH.
  destruct (generate_people pow rng fake cat fuel n w1) as [ps w2| |];
    reflexivity.
Qed.

Lemma finish_sheet_inv i wb w wb' w' t ws :
  wb !! i = Some (t, ws) ->
  finish_sheet float_str date_str i wb w = Ok wb' w' ->
  w' = w /\
  exists ws', autofit_columns float_str date_str 8 40 (apply_dark_theme ws) = Some ws' /\
    wb' = <[i := (t, ws')]> wb.
Proof.
  intros Hget. unfold finish_sheet. rewrite Hget.
  destruct (autofit_columns float_str date_str 8 40 (apply_dark_theme ws))
    as [ws'|]; [|discriminate].
  unfold ret. intros [= <- <-]. eauto.
Qed.

Lemma finish_sheet_ok i wb w t rows widths k :
  wb !! i = Some (t, fresh_sheet rows widths) ->
  rows <> [] -> (forall row, row ∈ rows -> length row = k) -> (1 <= k)%nat ->
  Z.of_nat k <= 18258 ->
  exists ws', finish_sheet float_str date_str i wb w = Ok (<[i := (t, ws')]> wb) w.
Proof.
  intros Hget Hne Hall Hk Hfit. unfold finish_sheet. rewrite Hget.
  unfold autofit_columns. rewrite max_column_theme.
  destruct (fresh_extent rows widths k Hne Hall Hk) as (_ & ->).
  destruct (Z.ltb_spec 18278 (Z.of_nat (k + 20))) as [|_]; [lia|].
  eexists. reflexivity.
Qed.

(** The three sheets that [generate_aiuser_excel] prepares, whatever the
    titles of the workbook: three different worksheets, each with its
    header only; no other sheet is touched. *)
Lemma prepared_three wb0 :
  exists wb1 wb2 wb3 iI iH iP tI tH tP,
    prepare_identity_sheet lower dedup_suffix wb0 = Some (wb1, iI) /\
    prepare_holding_sheet lower dedup_suffix (TICKERS cat) wb1 = Some (wb2, iH) /\
    prepare_profile_sheet lower dedup_suffix wb2 = Some (wb3, iP) /\
    prepared lower dedup_suffix "Identity" identity_header wb0 wb1 iI tI /\
    prepared lower dedup_suffix "Holding" (holding_header (TICKERS cat)) wb1 wb2 iH tH /\
    prepared lower dedup_suffix "Profile" profile_header wb2 wb3 iP tP /\
    NoDup [iI; iH; iP] /\
    wb3 !! iI = Some (tI, fresh_sheet [CStr <$> identity_header]
                            (old_widths "Identity" wb0)) /\
    wb3 !! iH = Some (tH, fresh_sheet [CStr <$> holding_header (TICKERS cat)]
                            (old_widths "Holding" wb0)) /\
    wb3 !! iP = Some (tP, fresh_sheet [CStr <$> profile_header]
                            (old_widths "Profile" wb0)) /\
    (forall j, j ∉ [iI; iH; iP] -> wb3 !! j = wb0 !! j).
Proof.
  unfold prepare_identity_sheet, prepare_holding_sheet, prepare_profile_sheet.
  destruct (prepare_is_Some lower dedup_suffix "Identity" identity_header wb0 eq_refl)
    as (wb1 & iI & E1).
  destruct (prepare_is_Some lower dedup_suffix "Holding"
              (holding_header (TICKERS cat)) wb1 eq_refl) as (wb2 & iH & E2).
  destruct (prepare_is_Some lower dedup_suffix "Profile" profile_header wb2 eq_refl)
    as (wb3 & iP & E3).
  destruct (prepare_inv _ _ _ _ _ _ _ E1) as (tI & P1).
  destruct (prepare_inv _ _ _ _ _ _ _ E2) as (tH & P2).
  destruct (prepare_inv _ _ _ _ _ _ _ E3) as (tP & P3).
  exists wb1, wb2, wb3, iI, iH, iP, tI, tH, tP.
  split; [exact E1|]. split; [exact E2|]. split; [exact E3|].
  split; [exact P1|]. split; [exact P2|]. split; [exact P3|].
  assert (TI : tI <> "Holding"%string /\ tI <> "Profile"%string).
  { destruct (prepared_title _ _ _ _ _ _ _ _ P1) as [->|[s ->]];
      split; discriminate. }
  assert (TH : tH <> "Profile"%string /\ tH <> "Identity"%string).
  { destruct (prepared_title _ _ _ _ _ _ _ _ P2) as [->|[s ->]];
      split; discriminate. }
  destruct TI as [TI1 TI2]. destruct TH as [TH1 TH2].
  pose proof P1 as (O1 & L1 & _). pose proof P2 as (O2 & L2 & _).
  pose proof P3 as (O3 & L3 & _).
  assert (D12 : iH <> iI) by (eapply prepared_distinct; [exact P2 | exact L1 | exact TI1]).
  assert (L1' : wb2 !! iI = wb1 !! iI) by (apply O2; congruence).
  assert (D13 : iP <> iI).
  { eapply prepared_distinct; [exact P3 | rewrite L1'; exact L1 | exact TI2]. }
  assert (D23 : iP <> iH) by (eapply prepared_distinct; [exact P3 | exact L2 | exact TH1]).
  split.
  { repeat (apply NoDup_cons; split); [| |apply not_elem_of_nil|apply NoDup_nil; exact I].
    - rewrite !elem_of_cons. intros [->|[->|H]]; [congruence | congruence | inversion H].
    - rewrite elem_of_cons. intros [->|H]; [congruence | inversion H]. }
  split; [rewrite O3 by congruence; rewrite L1'; exact L1|].
  split.
  { rewrite O3 by congruence. rewrite L2. do 3 f_equal. unfold old_widths.
    rewrite (prepared_other _ _ _ _ _ _ _ _ "Holding"%string P1); [reflexivity|].
    congruence. }
  split.
  { rewrite L3. do 3 f_equal. unfold old_widths.
    rewrite (prepared_other _ _ _ _ _ _ _ _ "Profile"%string P2) by congruence.
    rewrite (prepared_other _ _ _ _ _ _ _ _ "Profile"%string P1) by congruence.
    reflexivity. }
  intros j Hj. apply not_in_three in Hj as (J1 & J2 & J3).
  rewrite O3, O2, O1 by assumption. reflexivity.
Qed.

(** The run on the prepared workbook: the loop over the personas and the
    styling of the three sheets. *)
Lemma run_inv wb3 iI iH iP tI tH tP wI wH wP fuel n w1 wb' w' :
  NoDup [iI; iH; iP] ->
  wb3 !! iI = Some (tI, fresh_sheet [CStr <$> identity_header] wI) ->
  wb3 !! iH = Some (tH, fresh_sheet [CStr <$> holding_header (TICKERS cat)] wH) ->
  wb3 !! iP = Some (tP, fresh_sheet [CStr <$> profile_header] wP) ->
  (let! wb := generate_rows pow rng fake cat fuel n (iI, iH, iP) wb3 in
   let! wb := finish_sheet float_str date_str iI wb in
   let! wb := finish_sheet float_str date_str iH wb in
   finish_sheet float_str date_str iP wb) w1 = Ok wb' w' ->
  exists ps wsI wsH wsP,
    generate_people pow rng fake cat fuel n w1 = Ok ps w' /\
    wb' !! iI = Some (tI, wsI) /\
    autofit_columns float_str date_str 8 40
      (apply_dark_theme
         (fresh_sheet ((CStr <$> identity_header) :: map ToIdentityList ps) wI))
      = Some wsI /\
    wb' !! iH = Some (tH, wsH) /\
    autofit_columns float_str date_str 8 40
      (apply_dark_theme
         (fresh_sheet ((CStr <$> holding_header (TICKERS cat))
                       :: map (ToHoldingList cat) ps) wH))
      = Some wsH /\
    wb' !! iP = Some (tP, wsP) /\
    autofit_columns float_str date_str 8 40
      (apply_dark_theme
         (fresh_sheet ((CStr <$> profile_header) :: map ToProfileList ps) wP))
      = Some wsP /\
    (forall j, j ∉ [iI; iH; iP] -> wb' !! j = wb3 !! j) /\
    sheetnames wb' = sheetnames wb3.
Proof.
  intros Hnd Hi Hh Hp. destruct (NoDup_three _ _ _ Hnd) as (D1 & D2 & D3).
  unfold bind. rewrite generate_rows_people.
  destruct (generate_people pow rng fake cat fuel n w1) as [ps w2| |];
    try discriminate.
  destruct (append_people iI iH iP ps wb3 _ _ _ _ _ _ _ _ _ Hnd Hi Hh Hp)
    as (Hi1 & Hh1 & Hp1 & Ho1 & Hn1).
  set (wb4 := foldl (fun wb p => append_person cat (iI, iH, iP) p wb) wb3 ps) in *.
  simpl in Hi1, Hh1, Hp1.
  destruct (finish_sheet float_str date_str iI wb4 w2) as [wb5 w5| |] eqn:H5;
    try discriminate.
  destruct (finish_sheet_inv _ _ _ _ _ _ _ Hi1 H5) as (-> & wsI & HfitI & ->).
  assert (Hh5 : <[iI := (tI, wsI)]> wb4 !! iH = wb4 !! iH)
    by (apply list_lookup_insert_ne; congruence).
  rewrite Hh1 in Hh5.
  destruct (finish_sheet float_str date_str iH (<[iI := (tI, wsI)]> wb4) w2)
    as [wb6 w6| |] eqn:H6; try discriminate.
  destruct (finish_sheet_inv _ _ _ _ _ _ _ Hh5 H6) as (-> & wsH & HfitH & ->).
  assert (Hp6 : <[iH := (tH, wsH)]> (<[iI := (tI, wsI)]> wb4) !! iP = wb4 !! iP).
  { rewrite !list_lookup_insert_ne by congruence. reflexivity. }
  rewrite Hp1 in Hp6.
  intros H7.
  destruct (finish_sheet_inv _ _ _ _ _ _ _ Hp6 H7) as (-> & wsP & HfitP & ->).
  pose proof (lookup_lt_Some _ _ _ Hi1) as LI.
  pose proof (lookup_lt_Some _ _ _ Hh1) as LH.
  pose proof (lookup_lt_Some _ _ _ Hp1) as LP.
  exists ps, wsI, wsH, wsP. split; [reflexivity|].
  split.
  { rewrite !list_lookup_insert_ne by congruence.
    apply list_lookup_insert_eq. exact LI. }
  split; [exact HfitI|].
  split.
  { rewrite list_lookup_insert_ne by congruence.
    apply list_lookup_insert_eq. rewrite length_insert. exact LH. }
  split; [exact HfitH|].
  split; [apply list_lookup_insert_eq; rewrite !length_insert; exact LP|].
  split; [exact HfitP|].
  split.
  { intros j Hj. pose proof Hj as Hj'. apply not_in_three in Hj' as (J1 & J2 & J3).
    rewrite !list_lookup_insert_ne by congruence. apply Ho1. exact Hj. }
  rewrite (sheetnames_insert _ _ _ _ _ Hp6), (sheetnames_insert _ _ _ _ _ Hh5),
    (sheetnames_insert _ _ _ _ _ Hi1).
  exact Hn1.
Qed.

Lemma batch_sheets_shape ps name k :
  (name, k) ∈ batch_columns cat ->
  exists rows,
    (name, rows) ∈ batch_sheets cat ps /\
    length rows = S (length ps) /\
    (forall row, row ∈ rows -> length row = k) /\
    (1 <= k)%nat /\
    (forall i p, ps !! i = Some p ->
       exists row, rows !! S i = Some row /\ row !! 0%nat = Some (CInt (pid p))).
Proof.
  unfold batch_columns, batch_sheets. rewrite !elem_of_cons.
  intros [[= -> ->]|[[= -> ->]|[[= -> ->]|Hin]]]; [| | |inversion Hin].
  - exists ((CStr <$> identity_header) :: map ToIdentityList ps).
    split; [apply list_elem_of_here|].
    split; [simpl; rewrite length_map; reflexivity|].
    split.
    { intros row Hrow. apply elem_of_cons in Hrow as [->|Hrow]; [reflexivity|].
      apply list_elem_of_fmap in Hrow as (p & -> & _). reflexivity. }
    split; [lia|].
    intros i p Hp. exists (ToIdentityList p). simpl.
    change (map ToIdentityList ps) with (ToIdentityList <$> ps).
    rewrite list_lookup_fmap, Hp. split; reflexivity.
  - exists ((CStr <$> holding_header (TICKERS cat)) :: map (ToHoldingList cat) ps).
    split; [apply list_elem_of_further, list_elem_of_here|].
    split; [simpl; rewrite length_map; reflexivity|].
    split.
    { intros row Hrow. apply elem_of_cons in Hrow as [->|Hrow].
      - unfold holding_header. rewrite length_fmap. reflexivity.
      - apply list_elem_of_fmap in Hrow as (p & -> & _).
        unfold ToHoldingList. simpl. rewrite length_map. reflexivity. }
    split; [lia|].
    intros i p Hp. exists (ToHoldingList cat p). simpl.
    change (map (ToHoldingList cat) ps) with (ToHoldingList cat <$> ps).
    rewrite list_lookup_fmap, Hp. split; reflexivity.
  - exists ((CStr <$> profile_header) :: map ToProfileList ps).
    split; [apply list_elem_of_further, list_elem_of_further, list_elem_of_here|].
    split; [simpl; rewrite length_map; reflexivity|].
    split.
    { intros row Hrow. apply elem_of_cons in Hrow as [->|Hrow]; [reflexivity|].
      apply list_elem_of_fmap in Hrow as (p & -> & _). reflexivity. }
    split; [lia|].
    intros i p Hp. exists (ToProfileList p). simpl.
    change (map ToProfileList ps) with (ToProfileList <$> ps).
    rewrite list_lookup_fmap, Hp. split; reflexivity.
Qed.

Lemma batch_sheets_columns ps name rows :
  (name, rows) ∈ batch_sheets cat ps ->
  exists k, (name, k) ∈ batch_columns cat /\
    rows <> [] /\ (forall row, row ∈ rows -> length row = k) /\ (1 <= k)%nat /\
    (Z.of_nat k <= 2 + Z.of_nat (length (TICKERS cat)) \/ Z.of_nat k <= 23).
Proof.
  unfold batch_columns, batch_sheets. rewrite !elem_of_cons.
  intros [[= -> ->]|[[= -> ->]|[[= -> ->]|Hin]]]; [| | |inversion Hin].
  - exists 5%nat. split; [apply list_elem_of_here|].
    split; [discriminate|]. split; [|lia].
    intros row Hrow. apply elem_of_cons in Hrow as [->|Hrow]; [reflexivity|].
    apply list_elem_of_fmap in Hrow as (p & -> & _). reflexivity.
  - exists (2 + length (TICKERS cat))%nat.
    split; [apply list_elem_of_further, list_elem_of_here|].
    split; [discriminate|]. split; [|lia].
    intros row Hrow. apply elem_of_cons in Hrow as [->|Hrow].
    + simpl. do 2 f_equal. apply length_fmap.
    + apply list_elem_of_fmap in Hrow as (p & -> & _).
      unfold ToHoldingList. simpl. rewrite length_map. reflexivity.
  - exists 23%nat.
    split; [apply list_elem_of_further, list_elem_of_further, list_elem_of_here|].
    split; [discriminate|]. split; [|lia].
    intros row Hrow. apply elem_of_cons in Hrow as [->|Hrow]; [reflexivity|].
    apply list_elem_of_fmap in Hrow as (p & -> & _). reflexivity.
Qed.

Lemma batch_sheets_functional ps name rows rows' :
  (name, rows) ∈ batch_sheets cat ps -> (name, rows') ∈ batch_sheets cat ps ->
  rows = rows'.
Proof.
  unfold batch_sheets. rewrite !elem_of_cons.
  intros [[= -> ->]|[[= -> ->]|[[= -> ->]|Hin]]]; [| | |inversion Hin];
  intros [[= <-]|[[= <-]|[[= <-]|Hin]]]; try reflexivity; inversion Hin.
Qed.

Lemma run_total wb3 iI iH iP tI tH tP wI wH wP fuel n w1 :
  Z.of_nat (length (TICKERS cat)) <= 18256 ->
  NoDup [iI; iH; iP] ->
  wb3 !! iI = Some (tI, fresh_sheet [CStr <$> identity_header] wI) ->
  wb3 !! iH = Some (tH, fresh_sheet [CStr <$> holding_header (TICKERS cat)] wH) ->
  wb3 !! iP = Some (tP, fresh_sheet [CStr <$> profile_header] wP) ->
  match generate_people pow rng fake cat fuel n w1 with
  | Ok ps w' =>
      exists wb',
        (let! wb := generate_rows pow rng fake cat fuel n (iI, iH, iP) wb3 in
         let! wb := finish_sheet float_str date_str iI wb in
         let! wb := finish_sheet float_str date_str iH wb in
         finish_sheet float_str date_str iP wb) w1 = Ok wb' w'
  | Raise e =>
      (let! wb := generate_rows pow rng fake cat fuel n (iI, iH, iP) wb3 in
       let! wb := finish_sheet float_str date_str iI wb in
       let! wb := finish_sheet float_str date_str iH wb in
       finish_sheet float_str date_str iP wb) w1 = Raise e
  | Spin =>
      (let! wb := generate_rows pow rng fake cat fuel n (iI, iH, iP) wb3 in
       let! wb := finish_sheet float_str date_str iI wb in
       let! wb := finish_sheet float_str date_str iH wb in
       finish_sheet float_str date_str iP wb) w1 = Spin
  end.
Proof.
  intros Hcat Hnd Hi Hh Hp. destruct (NoDup_three _ _ _ Hnd) as (D1 & D2 & D3).
  unfold bind. rewrite generate_rows_people.
  destruct (generate_people pow rng fake cat fuel n w1) as [ps w2| |];
    try reflexivity.
  destruct (append_people iI iH iP ps wb3 _ _ _ _ _ _ _ _ _ Hnd Hi Hh Hp)
    as (Hi1 & Hh1 & Hp1 & _).
  set (wb4 := foldl (fun wb p => append_person cat (iI, iH, iP) p wb) wb3 ps) in *.
  simpl in Hi1, Hh1, Hp1.
  assert (Hfin : forall name rows i t wd wb,
            (name, rows) ∈ batch_sheets cat ps ->
            wb !! i = Some (t, fresh_sheet rows wd) ->
            exists ws', finish_sheet float_str date_str i wb w2
                        = Ok (<[i := (t, ws')]> wb) w2).
  { intros name rows i t wd wb Hin Hget.
    destruct (batch_sheets_columns ps name rows Hin)
      as (k & _ & Hne & Hall & Hk & Hbound).
    apply (finish_sheet_ok i wb w2 t rows wd k Hget Hne Hall Hk). lia. }
  destruct (Hfin "Identity"%string _ iI tI wI wb4 ltac:(apply list_elem_of_here) Hi1)
    as (wsI & ->).
  destruct (Hfin "Holding"%string _ iH tH wH (<[iI := (tI, wsI)]> wb4)
              ltac:(apply list_elem_of_further, list_elem_of_here)
              ltac:(rewrite list_lookup_insert_ne by congruence; exact Hh1))
    as (wsH & ->).
  destruct (Hfin "Profile"%string _ iP tP wP
              (<[iH := (tH, wsH)]> (<[iI := (tI, wsI)]> wb4))
              ltac:(apply list_elem_of_further, list_elem_of_further,
                      list_elem_of_here)
              ltac:(rewrite !list_lookup_insert_ne by congruence; exact Hp1))
    as (wsP & ->).
  eexists. reflexivity.
Qed.

(** The state of the workbook when [generate_aiuser_excel] saves it,
    when the three titles are free. *)
Lemma generate_wb_inv disk fuel N w wb' w' :
  titles_usable lower (sheetnames (load_or_create_workbook lower dedup_suffix disk))
    ["Identity"; "Holding"; "Profile"]%string ->
  generate_aiuser_excel_wb lower dedup_suffix float_str date_str pow rng fake cat
    disk fuel N w = Ok wb' w' ->
  exists ps,
    generate_aiuser_excel pow rng fake cat fuel N w = Ok ps w' /\
    (forall name rows, (name, rows) ∈ batch_sheets cat ps ->
       exists ws',
         get_sheet name wb' = Some ws' /\
         autofit_columns float_str date_str 8 40
           (apply_dark_theme
              (fresh_sheet rows
                 (old_widths name (load_or_create_workbook lower dedup_suffix disk))))
         = Some ws') /\
    (forall n, n ∉ ["Identity"; "Holding"; "Profile"]%string ->
       get_sheet n wb' = get_sheet n (load_or_create_workbook lower dedup_suffix disk)) /\
    sheetnames wb' =
      sheetnames (load_or_create_workbook lower dedup_suffix disk) ++
      filter (fun n => n ∉ sheetnames (load_or_create_workbook lower dedup_suffix disk))
             ["Identity"; "Holding"; "Profile"]%string.
Proof.
  intros [Hlow Hfree].
  apply Forall_cons in Hfree as [F1 Hfree]. apply Forall_cons in Hfree as [F2 Hfree].
  apply Forall_cons in Hfree as [F3 _].
  pose proof (fun i j x y Hi Hj Hij => lower_distinct lower _ i j x y Hlow Hi Hj Hij)
    as Hd.
  unfold generate_aiuser_excel_wb, generate_aiuser_excel. cbv zeta.
  set (wb0 := load_or_create_workbook lower dedup_suffix disk) in *.
  destruct (prepared_three wb0)
    as (wb1 & wb2 & wb3 & iI & iH & iP & tI & tH & tP & -> & -> & -> &
        P1 & P2 & P3 & Hnd & LI & LH & LP & Hother).
  destruct (prepared_free _ _ _ _ _ _ _ _ P1 F1) as (-> & I1 & N1).
  assert (F2' : title_free lower (sheetnames wb1) "Holding").
  { rewrite N1. apply title_free_step; [exact F2|].
    apply (Hd 0 1)%nat; [reflexivity | reflexivity | lia]. }
  destruct (prepared_free _ _ _ _ _ _ _ _ P2 F2') as (-> & I2 & N2).
  assert (F3' : title_free lower (sheetnames wb2) "Profile").
  { rewrite N2, N1. apply title_free_step; [apply title_free_step; [exact F3|]|].
    - apply (Hd 0 2)%nat; [reflexivity | reflexivity | lia].
    - apply (Hd 1 2)%nat; [reflexivity | reflexivity | lia]. }
  destruct (prepared_free _ _ _ _ _ _ _ _ P3 F3') as (-> & I3 & N3).
  intros Hrun.
  destruct (run_inv _ _ _ _ _ _ _ _ _ _ _ _ _ _ _ Hnd LI LH LP Hrun)
    as (ps & wsI & wsH & wsP & Hps & GI & FI & GH & FH & GP & FP & Hsame & Hnames).
  assert (X1 : sheet_index "Identity" wb' = Some iI).
  { rewrite (sheet_index_names _ wb' wb3 Hnames).
    rewrite (prepared_index _ _ _ _ _ _ _ _ "Identity"%string P3) by discriminate.
    rewrite (prepared_index _ _ _ _ _ _ _ _ "Identity"%string P2) by discriminate.
    exact I1. }
  assert (X2 : sheet_index "Holding" wb' = Some iH).
  { rewrite (sheet_index_names _ wb' wb3 Hnames).
    rewrite (prepared_index _ _ _ _ _ _ _ _ "Holding"%string P3) by discriminate.
    exact I2. }
  assert (X3 : sheet_index "Profile" wb' = Some iP).
  { rewrite (sheet_index_names _ wb' wb3 Hnames). exact I3. }
  exists ps. split; [exact Hps|].
  split.
  { intros name rows Hin. unfold batch_sheets in Hin.
    rewrite !elem_of_cons in Hin.
    destruct Hin as [[= -> ->]|[[= -> ->]|[[= -> ->]|Hin]]]; [| | |inversion Hin].
    - exists wsI. split; [|exact FI].
      destruct (sheet_index_Some _ _ _ X1) as (ws & Hl & ->). congruence.
    - exists wsH. split; [|exact FH].
      destruct (sheet_index_Some _ _ _ X2) as (ws & Hl & ->). congruence.
    - exists wsP. split; [|exact FP].
      destruct (sheet_index_Some _ _ _ X3) as (ws & Hl & ->). congruence. }
  split.
  { intros n Hn. pose proof Hn as Hn'. apply not_in_three in Hn' as (N1' & N2' & N3').
    transitivity (get_sheet n wb3).
    - apply get_sheet_ext; [apply sheet_index_names; exact Hnames|].
      intros j Hj. apply Hsame. apply not_in_three.
      destruct (sheet_index_Some _ _ _ Hj) as (ws & Hl & _).
      repeat split; intros ->; congruence.
    - rewrite (prepared_other _ _ _ _ _ _ _ _ n P3) by congruence.
      rewrite (prepared_other _ _ _ _ _ _ _ _ n P2) by congruence.
      apply (prepared_other _ _ _ _ _ _ _ _ n P1). congruence. }
  rewrite Hnames, N3, N2, N1.
  apply (add_names ["Identity"; "Holding"; "Profile"]%string (sheetnames wb0)).
  repeat (apply NoDup_cons; split;
          [rewrite ?elem_of_cons; intros H;
           repeat (destruct H as [H|H]; [discriminate H|]); inversion H|]).
  apply NoDup_nil. constructor.
Qed.

Lemma generate_people_each fuel n : forall w ps w',
  generate_people pow rng fake cat fuel n w = Ok ps w' ->
  Forall (fun p => exists w1 w2, Person_new pow rng fake cat fuel w1 = Ok p w2) ps.
Proof.
  induction n as [|n IH]; intros w ps w'; simpl.
  - unfold ret. intros [= <- <-]. constructor.
  - unfold bind.
    destruct (Person_new pow rng fake cat fuel w) as [p w1| |] eqn:Hp;
      try discriminate.
    destruct (generate_people pow rng fake cat fuel n w1) as [ps' w2| |] eqn:Hps;
      try discriminate.
    unfold ret. intros [= <- <-]. constructor; [eauto | eapply IH; exact Hps].
Qed.

(** When the three titles are free in the loaded workbook (each is the
    title of a sheet, or no title equals it when case is ignored), what
    [generate_aiuser_excel] saves holds the batch and nothing of an
    earlier run: the Identity, Holding and Profile sheets each hold the
    header and then one row per persona, in the order of generation,
    whatever rows the workbook on disk had in them; every sheet of another
    title is as it was loaded; the sheets keep their order, and those of
    the three that are new follow at the end. *)
Theorem saved_workbook_holds_batch disk fuel N w wb' w' :
  titles_usable lower (sheetnames (load_or_create_workbook lower dedup_suffix disk))
    ["Identity"; "Holding"; "Profile"]%string ->
  generate_aiuser_excel_wb lower dedup_suffix float_str date_str pow rng fake cat
    disk fuel N w = Ok wb' w' ->
  exists ps,
    generate_aiuser_excel pow rng fake cat fuel N w = Ok ps w' /\
    (forall name rows, (name, rows) ∈ batch_sheets cat ps ->
       sheet_rows name wb' = Some rows) /\
    (forall n, n ∉ ["Identity"; "Holding"; "Profile"]%string ->
       get_sheet n wb' = get_sheet n (load_or_create_workbook lower dedup_suffix disk)) /\
    sheetnames wb' =
      sheetnames (load_or_create_workbook lower dedup_suffix disk) ++
      filter (fun n => n ∉ sheetnames (load_or_create_workbook lower dedup_suffix disk))
             ["Identity"; "Holding"; "Profile"]%string.
Proof.
  intros Hfree Hrun. apply (generate_wb_inv _ _ _ _ _ _ Hfree) in Hrun.
  destruct Hrun as (ps & Hps & Hsheets & Hother & Hnames).
  exists ps. split; [exact Hps|]. split; [|split; assumption].
  intros name rows Hin.
  destruct (Hsheets name rows Hin) as (ws' & Hget & Hfit).
  apply autofit_columns_inv in Hfit. destruct Hfit as (_ & Hrows & _).
  unfold sheet_rows. rewrite Hget. simpl. rewrite Hrows. reflexivity.
Qed.

(** When the three titles are free in the loaded workbook, the three
    sheets of the saved workbook line up: each has [N + 1]
    rows, every row of a sheet has as many cells as its header (5, 2 plus
    the number of tickers, 23), and row [i + 1] of each of the three
    starts with the id [i]. *)
Theorem saved_rows_aligned disk fuel N w wb' w' :
  titles_usable lower (sheetnames (load_or_create_workbook lower dedup_suffix disk))
    ["Identity"; "Holding"; "Profile"]%string ->
  generate_aiuser_excel_wb lower dedup_suffix float_str date_str pow rng fake cat
    disk fuel N w = Ok wb' w' ->
  forall name k, (name, k) ∈ batch_columns cat ->
    exists rows,
      sheet_rows name wb' = Some rows /\
      length rows = S (Z.to_nat N) /\
      (forall row, row ∈ rows -> length row = k) /\
      (forall i, (1 <= i <= Z.to_nat N)%nat ->
         exists row, rows !! i = Some row /\
                     row !! 0%nat = Some (CInt (Z.of_nat i))).
Proof.
  intros Hfree Hrun name k Hk. apply (generate_wb_inv _ _ _ _ _ _ Hfree) in Hrun.
  destruct Hrun as (ps & Hps & Hsheets & _).
  unfold generate_aiuser_excel in Hps. apply generate_people_spec in Hps.
  destruct Hps as (Hlen & Hids & _). simpl in Hids.
  destruct (batch_sheets_shape ps name k Hk)
    as (rows & Hin & Hrl & Hall & _ & Hid).
  destruct (Hsheets name rows Hin) as (ws' & Hget & Hfit).
  apply autofit_columns_inv in Hfit. destruct Hfit as (_ & Hrows & _).
  exists rows. split.
  { unfold sheet_rows. rewrite Hget. simpl. rewrite Hrows. reflexivity. }
  split; [congruence|]. split; [exact Hall|].
  intros i Hi. destruct i as [|i]; [lia|].
  destruct (lookup_lt_is_Some_2 ps i ltac:(lia)) as [p Hp].
  destruct (Hid i p Hp) as (row & Hrow & Hcell).
  exists row. split; [exact Hrow|]. rewrite Hcell. do 2 f_equal.
  assert (Hpi : map pid ps !! i = Some (pid p)).
  { change (map pid ps) with (pid <$> ps). rewrite list_lookup_fmap, Hp.
    reflexivity. }
  rewrite Hids in Hpi. apply lookup_seqZ in Hpi. lia.
Qed.

(** The sheet work adds no failure of its own, whatever the titles of
    the loaded workbook: with a catalog of at most 18256 tickers (so that
    every column has a letter), the run of [generate_aiuser_excel] ends as
    its loop over the personas ends: it saves a workbook when the batch
    completes, it raises what the batch raises, and it does not return
    when the batch does not. *)
Theorem workbook_saved_when_batch_completes disk fuel N w :
  Z.of_nat (length (TICKERS cat)) <= 18256 ->
  match generate_aiuser_excel pow rng fake cat fuel N w with
  | Ok ps w' =>
      exists wb', generate_aiuser_excel_wb lower dedup_suffix float_str date_str
                    pow rng fake cat disk fuel N w = Ok wb' w'
  | Raise e =>
      generate_aiuser_excel_wb lower dedup_suffix float_str date_str
        pow rng fake cat disk fuel N w = Raise e
  | Spin =>
      generate_aiuser_excel_wb lower dedup_suffix float_str date_str
        pow rng fake cat disk fuel N w = Spin
  end.
Proof.
  intros Hcat.
  unfold generate_aiuser_excel_wb, generate_aiuser_excel. cbv zeta.
  destruct (prepared_three (load_or_create_workbook lower dedup_suffix disk))
    as (wb1 & wb2 & wb3 & iI & iH & iP & tI & tH & tP & -> & -> & -> &
        _ & _ & _ & Hnd & LI & LH & LP & _).
  exact (run_total wb3 iI iH iP tI tH tP _ _ _ fuel (Z.to_nat N) (set_idx 1 w)
           Hcat Hnd LI LH LP).
Qed.

(** When the three titles are free in the loaded workbook, the look of
    a saved sheet of [k] columns: it extends over [N + 21]
    rows and [k + 20] columns; each of these columns has a width between
    8 and 40, the 20 beyond the data exactly 8; the header cells have the
    header fill, the row of the persona [i] has the primary row colour
    when [i] is odd and the other one when [i] is even, and the cells
    beyond the data are black with no font and no border set. *)
Theorem saved_sheet_layout disk fuel N w wb' w' :
  titles_usable lower (sheetnames (load_or_create_workbook lower dedup_suffix disk))
    ["Identity"; "Holding"; "Profile"]%string ->
  generate_aiuser_excel_wb lower dedup_suffix float_str date_str pow rng fake cat
    disk fuel N w = Ok wb' w' ->
  forall name k, (name, k) ∈ batch_columns cat ->
    exists ws',
      get_sheet name wb' = Some ws' /\
      max_row ws' = (Z.to_nat N + 21)%nat /\
      max_column ws' = (k + 20)%nat /\
      (forall col, (1 <= col <= k + 20)%nat ->
         exists width, ws_widths ws' !! col = Some width /\
           (8 <= width)%Q /\ (width <= 40)%Q /\ ((k < col)%nat -> width = 8%Q)) /\
      (forall c, (1 <= c <= k)%nat ->
         cs_fill (style_at (ws_styles ws') 1 c) = Some HEADER_COLOR) /\
      (forall i c, (1 <= i <= Z.to_nat N)%nat -> (1 <= c <= k)%nat ->
         cs_fill (style_at (ws_styles ws') (S i) c) =
         Some (if Nat.odd i then ROW_FILL_COLOR else ROW_ALT_FILL_COLOR)) /\
      (forall r c, (1 <= r <= Z.to_nat N + 21)%nat -> (1 <= c <= k + 20)%nat ->
         (Z.to_nat N + 1 < r \/ k < c)%nat ->
         style_at (ws_styles ws') r c =
         {| cs_fill := Some BACKGROUND_COLOR; cs_font := None; cs_border := None |}).
Proof.
  intros Hfree Hrun name k Hk. apply (generate_wb_inv _ _ _ _ _ _ Hfree) in Hrun.
  destruct Hrun as (ps & Hps & Hsheets & _).
  unfold generate_aiuser_excel in Hps. apply generate_people_spec in Hps.
  destruct Hps as (Hlen & _).
  destruct (batch_sheets_shape ps name k Hk)
    as (rows & Hin & Hrl & Hall & Hk1 & _).
  destruct (Hsheets name rows Hin) as (ws' & Hget & Hfit).
  set (F := fresh_sheet rows (old_widths name (load_or_create_workbook lower dedup_suffix disk))) in *.
  assert (Hne : rows <> []) by (destruct rows; [discriminate | discriminate]).
  destruct (fresh_extent rows (old_widths name (load_or_create_workbook lower dedup_suffix disk))
              k Hne Hall Hk1) as (HR & HC).
  fold F in HR, HC. rewrite Hrl, Hlen in HR.
  apply autofit_columns_inv in Hfit.
  destruct Hfit as (_ & Hrows & Hst & Htouch & Hwd).
  rewrite max_column_theme, HC in Hwd.
  exists ws'. split; [exact Hget|].
  split.
  { unfold max_row. rewrite Hrows, Htouch. simpl. fold (max_row F).
    rewrite HR, Hrl, Hlen. lia. }
  split.
  { unfold max_column. rewrite Hrows, Htouch. simpl.
    change (Nat.max 1 (Nat.max (max_list (length <$> rows)) 0)) with (max_column F).
    rewrite HC.
    rewrite (max_list_const k); [lia | |].
    - destruct rows; [congruence | discriminate].
    - intros x Hx. apply list_elem_of_fmap in Hx as (row & -> & Hrow).
      apply Hall, Hrow. }
  split.
  { intros col Hcol. rewrite Hwd, decide_True by lia.
    eexists. split; [reflexivity|].
    destruct (adjusted_width_bounds
                (column_max_length float_str date_str (apply_dark_theme F) col)
                8 40) as (Hhi & Hlo & _).
    split; [apply Hlo; lra|]. split; [exact Hhi|].
    intros Hbeyond.
    destruct (column_max_length_spec float_str date_str (apply_dark_theme F) col)
      as (_ & [->|(row & _ & Hv & _)]); [reflexivity|].
    exfalso. apply Hv. unfold cell_value.
    destruct row as [|r]; [reflexivity|]. destruct col as [|c]; [reflexivity|].
    simpl. destruct (rows !! r) as [cells|] eqn:Hr; [|reflexivity]. simpl.
    rewrite lookup_ge_None_2; [reflexivity|].
    rewrite (Hall cells) by (eapply list_elem_of_lookup_2; exact Hr). lia. }
  rewrite Hst. unfold apply_dark_theme. cbv zeta. cbn [ws_styles].
  fold F. rewrite HR, HC.
  split.
  { intros c Hc.
    rewrite paint_cells_style, decide_False by lia.
    rewrite paint_cells_style, decide_True by lia. reflexivity. }
  split.
  { intros i c Hi Hc.
    rewrite paint_cells_style, decide_True by lia.
    unfold data_style. cbn [cs_fill]. rewrite Nat.even_succ. reflexivity. }
  intros r c Hr Hc Hout.
  rewrite paint_cells_style, decide_False by lia.
  rewrite paint_cells_style, decide_False by lia.
  rewrite paint_cells_style, decide_True by lia.
  unfold style_at, F, fresh_sheet. cbn [ws_styles].
  rewrite lookup_empty. reflexivity.
Qed.

(** When the three titles are free in the loaded workbook, the Username
    and Email columns of the saved Identity sheet: the
    handles of the data rows are pairwise distinct, each is 5 to 20 ASCII
    letters and digits, none was in the registry before the run and all
    are in it afterwards; the address of a row is its handle, an [@] and
    a domain. *)
Theorem saved_identity_columns disk fuel N w wb' w' :
  titles_usable lower (sheetnames (load_or_create_workbook lower dedup_suffix disk))
    ["Identity"; "Holding"; "Profile"]%string ->
  generate_aiuser_excel_wb lower dedup_suffix float_str date_str pow rng fake cat
    disk fuel N w = Ok wb' w' ->
  exists ws handles,
    get_sheet "Identity" wb' = Some ws /\
    Forall2 (fun row h =>
               cell_named identity_header row "Username" = Some (CStr h) /\
               exists domain,
                 cell_named identity_header row "Email"
                 = Some (CStr (h +:+ "@" +:+ domain)))
            (data_rows ws) handles /\
    NoDup handles /\
    (forall h, h ∈ handles ->
       valid_handle h /\ (h ∉ Person_usernames w) /\ h ∈ Person_usernames w').
Proof.
  intros Hfree Hrun. apply (generate_wb_inv _ _ _ _ _ _ Hfree) in Hrun.
  destruct Hrun as (ps & Hps & Hsheets & _).
  unfold generate_aiuser_excel in Hps.
  pose proof (generate_people_each _ _ _ _ _ Hps) as Heach.
  apply generate_people_spec in Hps.
  destruct Hps as (_ & _ & _ & Hnd & Hfresh & Huse). simpl in Hfresh, Huse.
  destruct (Hsheets "Identity"%string _ ltac:(apply list_elem_of_here))
    as (ws & Hget & Hfit).
  apply autofit_columns_inv in Hfit. destruct Hfit as (_ & Hrows & _).
  exists ws, (map pname ps). split; [exact Hget|].
  split.
  { unfold data_rows. rewrite Hrows. simpl.
    clear Hnd Hfresh Huse Hsheets Hget Hrows.
    induction Heach as [|p ps' (w1 & w2 & Hp) _ IH]; simpl; constructor; [|exact IH].
    split; [reflexivity|].
    destruct (Person_new_stages _ _ _ _ _ _ _ _ Hp)
      as (sd & v1 & v2 & v3 & v4 & v5 & _ & Hid & _).
    destruct (Identity_email _ _ _ _ _ Hid) as (domain & Hmail).
    exists domain. unfold cell_named. simpl. rewrite Hmail. reflexivity. }
  split; [exact Hnd|].
  intros h Hh. split; [|split].
  - apply list_elem_of_fmap in Hh as (p & -> & Hp).
    rewrite Forall_forall in Heach.
    destruct (Heach p Hp) as (w1 & w2 & Hnew).
    apply Person_new_spec in Hnew.
    destruct Hnew as (_ & _ & Hvalid & _). exact Hvalid.
  - apply Hfresh. exact Hh.
  - rewrite Huse. apply elem_of_union. left. apply elem_of_list_to_set. exact Hh.
Qed.

End Workbook.

(** * The rows of a persona (the serializers of [Person]) *)

Lemma py_round_mono (x y : Q) : (x <= y)%Q -> py_round x <= py_round y.
Proof.
  intros Hxy. unfold py_round. cbv zeta.
  pose proof (Qfloor_le x) as Hx1. pose proof (Qlt_floor x) as Hx2.
  pose proof (Qfloor_le y) as Hy1. pose proof (Qlt_floor y) as Hy2.
  pose proof (Qfloor_resp_le _ _ Hxy) as Hf.
  rewrite inject_Z_plus in Hx2, Hy2.
  change (inject_Z 1) with 1%Q in Hx2, Hy2.
  destruct (Z.eq_dec (Qfloor x) (Qfloor y)) as [Heq|Hne].
  - rewrite <- Heq in *.
    repeat match goal with
    | |- context [Qltb ?a ?b] => case_Qltb a b
    end;
    try lia; try (exfalso; lra);
    destruct (Z.even (Qfloor x)); try lia; exfalso; lra.
  - repeat match goal with
    | |- context [Qltb ?a ?b] => case_Qltb a b
    end;
    repeat match goal with
    | |- context [Z.even ?f] => destruct (Z.even f)
    end; lia.
Qed.

Lemma py_round_to_mono (n : nat) (x y : Q) :
  (x <= y)%Q -> (py_round_to n x <= py_round_to n y)%Q.
Proof.
  intros Hxy. unfold py_round_to. cbv zeta.
  assert (Hs : (0 < inject_Z (10 ^ Z.of_nat n))%Q).
  { change 0%Q with (inject_Z 0). rewrite <- Zlt_Qlt.
    apply Z.pow_pos_nonneg; lia. }
  unfold Qdiv. apply Qmult_le_compat_r.
  - rewrite <- Zle_Qle. apply py_round_mono.
    apply Qmult_le_compat_r; [exact Hxy | apply Qlt_le_weak, Hs].
  - apply Qlt_le_weak, Qinv_lt_0_compat, Hs.
Qed.

Lemma py_round_to_unit (x : Q) :
  (0 <= x)%Q -> (x <= 1)%Q ->
  (0 <= py_round_to 4 x)%Q /\ (py_round_to 4 x <= 1)%Q.
Proof.
  intros H0 H1.
  pose proof (py_round_to_mono 4 _ _ H0) as Hlo.
  pose proof (py_round_to_mono 4 _ _ H1) as Hhi.
  assert (E0 : (py_round_to 4 0 == 0)%Q) by reflexivity.
  assert (E1 : (py_round_to 4 1 == 1)%Q) by reflexivity.
  rewrite E0 in Hlo. rewrite E1 in Hhi. split; assumption.
Qed.

Section Serializers.

Variable pow : Q -> Q -> Q.
Variable rng : nat -> draw.
Variable fake : Faker.
Variable cat : Catalog.

(** The Profile row of a completed persona, with a power that maps a base
    of [0,1) and a positive exponent into [0,1]: every fraction it holds,
    rounded to four places, is still in [0,1], and the rounding keeps the
    orderings, though no longer strictly: the cell MinTradeAmountPrc is at
    most MaxTradeAmountPrc, which is at most PerPositionMaxPrc; the cell
    MinCashReservePrc is at most MaxCashReservePrc, and MinLimitOffsetPrc
    at most MaxLimitOffsetPrc. *)
Theorem profile_row_rounded fuel w p w' :
  (forall u s, (0 <= u /\ u < 1)%Q -> (0 < s)%Q -> (0 <= pow u s /\ pow u s <= 1)%Q) ->
  Person_new pow rng fake cat fuel w = Ok p w' ->
  (forall i q, ToProfileList p !! i = Some (CFloat q) -> (0 <= q)%Q /\ (q <= 1)%Q) /\
  (exists a b c,
     cell_named profile_header (ToProfileList p) "MinTradeAmountPrc" = Some (CFloat a) /\
     cell_named profile_header (ToProfileList p) "MaxTradeAmountPrc" = Some (CFloat b) /\
     cell_named profile_header (ToProfileList p) "PerPositionMaxPrc" = Some (CFloat c) /\
     (a <= b)%Q /\ (b <= c)%Q) /\
  (exists a b,
     cell_named profile_header (ToProfileList p) "MinCashReservePrc" = Some (CFloat a) /\
     cell_named profile_header (ToProfileList p) "MaxCashReservePrc" = Some (CFloat b) /\
     (a <= b)%Q) /\
  (exists a b,
     cell_named profile_header (ToProfileList p) "MinLimitOffsetPrc" = Some (CFloat a) /\
     cell_named profile_header (ToProfileList p) "MaxLimitOffsetPrc" = Some (CFloat b) /\
     (a <= b)%Q).
Proof.
  intros Hpow Hrun.
  pose proof (Person_new_spec _ _ _ _ _ _ _ _ Hrun) as Hpost.
  destruct Hpost as (_ & _ & _ & _ & _ & _ & Htrade & Hport & Hbias & Hlim).
  destruct Htrade as (Hagg & Honl & Htp & _).
  destruct Hport as (_ & Hcash & (_ & _ & Hhi & _) & _). simpl in Hhi.
  destruct Hlim as (_ & _ & Hslip & Hoff & _).
  destruct (Person_new_stages _ _ _ _ _ _ _ _ Hrun)
    as (sd & w1 & w2 & w3 & w4 & w5 & _ & _ & _ & _ & Hod & Hlm).
  pose proof (proj1 (wpr_ok True _ _ _ _ _
                       (OrderTypes_ranges_spec pow rng _ w4 Hpow) Hod)) as Hord.
  pose proof (proj1 (wpr_ok True _ _ _ _ _
                       (TradeLimits_ranges_spec rng _ _ w5 Hagg Hhi) Hlm)) as Hrange.
  destruct Hrange as (_ & _ & _ & Hppm & Hamt & _).
  unfold OrderTypes_post in Hbias.
  split.
  { intros i q.
    do 23 (destruct i as [|i];
           [simpl; intros [= <-]; apply py_round_to_unit; lra|]).
    simpl. intros [=]. }
  split.
  { eexists _, _, _. split; [reflexivity|]. split; [reflexivity|].
    split; [reflexivity|].
    split; apply py_round_to_mono; lra. }
  split.
  { eexists _, _. split; [reflexivity|]. split; [reflexivity|].
    apply py_round_to_mono; lra. }
  eexists _, _. split; [reflexivity|]. split; [reflexivity|].
  apply py_round_to_mono; lra.
Qed.

(** The Holding row of a completed persona loses no holding: the row has
    a cell for each header, the id and the balance come first, every
    ticker the persona holds has a column, which carries its share count,
    and a column whose ticker is not held carries 0. *)
Theorem holding_row_faithful fuel w p w' :
  Person_new pow rng fake cat fuel w = Ok p w' ->
  length (ToHoldingList cat p) = length (holding_header (TICKERS cat)) /\
  ToHoldingList cat p !! 0%nat = Some (CInt (pid p)) /\
  ToHoldingList cat p !! 1%nat = Some (CInt (balance (portfolio p))) /\
  (forall s shares, holdings (portfolio p) !! s = Some shares ->
     exists i, holding_header (TICKERS cat) !! (2 + i)%nat = Some s /\
               ToHoldingList cat p !! (2 + i)%nat = Some (CInt shares)) /\
  (forall i s, holding_header (TICKERS cat) !! (2 + i)%nat = Some s ->
     ToHoldingList cat p !! (2 + i)%nat =
     Some (CInt (default 0 (holdings (portfolio p) !! s)))).
Proof.
  intros Hrun.
  pose proof (Person_new_spec _ _ _ _ _ _ _ _ Hrun) as Hpost.
  destruct Hpost as (_ & _ & _ & _ & _ & _ & _ & Hport & _).
  destruct Hport as (_ & _ & _ & _ & (rest & Hwatch) & _ &
                     (picked & rest' & Hpick & _ & Hdom & _)).
  simpl in Hdom.
  assert (Hcol : forall i s, TICKERS cat !! i = Some s ->
            ToHoldingList cat p !! (2 + i)%nat =
            Some (CInt (default 0 (holdings (portfolio p) !! s)))).
  { intros i s Hi. unfold ToHoldingList. simpl.
    change (map (holding_cell (holdings (portfolio p))) (TICKERS cat))
      with (holding_cell (holdings (portfolio p)) <$> TICKERS cat).
    rewrite list_lookup_fmap, Hi. simpl. unfold holding_cell.
    destruct (holdings (portfolio p) !! s); reflexivity. }
  split; [unfold ToHoldingList, holding_header; simpl; rewrite length_map; reflexivity|].
  split; [reflexivity|]. split; [reflexivity|].
  split; [|intros i s Hi; apply Hcol; exact Hi].
  intros s shares Hs.
  assert (Hin : s ∈ TICKERS cat).
  { rewrite Hwatch, Hpick. rewrite !elem_of_app. left. left.
    assert (Hd : s ∈ dom (holdings (portfolio p)))
      by (apply elem_of_dom; eauto).
    rewrite Hdom in Hd. rewrite dom_empty_L in Hd.
    apply elem_of_union in Hd as [Hd|Hd]; [apply elem_of_empty in Hd; contradiction|].
    apply elem_of_list_to_set in Hd. exact Hd. }
  apply list_elem_of_lookup_1 in Hin as [i Hi].
  exists i. split; [exact Hi|].
  rewrite (Hcol i s Hi), Hs. reflexivity.
Qed.

End Serializers.


(** * Examples *)

Lemma pow_chord_50_nonneg (u : Q) : (0 <= u /\ u < 1)%Q -> (0 <= pow_chord 50 u)%Q.
Proof. intros Hu. destruct (pow_chord_50 u Hu) as [H _]. lra. Qed.

Lemma pow_clamped_unit (u s : Q) :
  (0 <= u /\ u < 1)%Q -> (0 < s)%Q ->
  (0 <= pow_clamped u s /\ pow_clamped u s <= 1)%Q.
Proof. intros _ _. apply clamp01_range. Qed.

Lemma prices_positive_builtin : prices_positive builtin_catalog = true.
Proof. vm_compute. reflexivity. Qed.

Lemma returns_of_bool {A} (r : Res A) :
  (match r with Ok _ _ => true | _ => false end) = true ->
  exists a w, r = Ok a w.
Proof. destruct r; [eauto | discriminate | discriminate]. Qed.

Lemma titles_usable_check lower names titles :
  bool_decide (NoDup (lower <$> titles)) = true ->
  forallb (fun t => bool_decide (t ∈ names)
                    || (negb (String.eqb t EmptyString)
                        && forallb (fun n => negb (String.eqb (lower n) (lower t)))
                                   names)) titles = true ->
  titles_usable lower names titles.
Proof.
  intros Hnd Hall. split; [apply bool_decide_eq_true in Hnd; exact Hnd|].
  apply Forall_forall. intros t Ht.
  rewrite forallb_forall in Hall.
  specialize (Hall t (proj1 (list_elem_of_In _ _) Ht)).
  apply orb_true_iff in Hall as [Hin|Hfree].
  - left. apply bool_decide_eq_true in Hin. exact Hin.
  - right. apply andb_true_iff in Hfree as [Hne Hfree].
    split.
    + intros ->. discriminate Hne.
    + intros n Hn Heq. rewrite forallb_forall in Hfree.
      specialize (Hfree n (proj1 (list_elem_of_In _ _) Hn)).
      apply negb_true_iff in Hfree. apply String.eqb_neq in Hfree. contradiction.
Qed.

Lemma demo_titles_usable :
  titles_usable lower_ascii
    (sheetnames (load_or_create_workbook lower_ascii suffix_demo None))
    ["Identity"; "Holding"; "Profile"]%string.
Proof. apply titles_usable_check; vm_compute; reflexivity. Qed.

Lemma some_of_bool {A} (o : option A) :
  (match o with Some _ => true | None => false end) = true ->
  exists a, o = Some a.
Proof. destruct o; [eauto | discriminate]. Qed.

Lemma holdings_affordable_witness :
  exists p w', demo_run = Ok p w' /\
    (forall s shares, holdings (portfolio p) !! s = Some shares -> 0 <= shares) /\
    (holdings_cost builtin_catalog (holdings (portfolio p))
     <= inject_Z (balance (portfolio p))
        * (1 - (min_cash (portfolio p) * 2 + max_cash (portfolio p)) / 3))%Q /\
    (holdings_cost builtin_catalog (holdings (portfolio p))
     <= inject_Z (balance (portfolio p)))%Q.
Proof.
  run_ok demo_run p w' Hrun.
  exists p, w'. split; [reflexivity|].
  exact (holdings_affordable pow_chord (tape_of []) faker_demo builtin_catalog
           1 world0 p w' pow_chord_50_nonneg prices_positive_builtin Hrun).
Defined.

Lemma watchlist_ids_ascending_witness :
  exists p w', demo_run = Ok p w' /\
    StronglySorted Z.lt (watch_ids (portfolio p)) /\
    (forall id, id ∈ watch_ids (portfolio p) <->
       exists i s, TICKERS builtin_catalog !! i = Some s
                   /\ s ∈ watchlist (portfolio p) /\ id = Z.of_nat i + 1) /\
    length (watch_ids (portfolio p)) = length (watchlist (portfolio p)) /\
    watchList_csv (portfolio p)
    = String.concat "," (map pretty (watch_ids (portfolio p))).
Proof.
  run_ok demo_run p w' Hrun.
  exists p, w'. split; [reflexivity|].
  exact (watchlist_ids_ascending pow_chord (tape_of []) faker_demo builtin_catalog
           1 world0 p w' NoDup_builtin Hrun).
Defined.

Lemma order_type_probabilities_witness :
  exists p w', demo_run_clamped = Ok p w' /\
    (0.05 <= use_market (orders p) /\ use_market (orders p) <= 0.25)%Q /\
    (0.50 <= use_slip (orders p) /\ use_slip (orders p) <= 0.90)%Q.
Proof.
  run_ok demo_run_clamped p w' Hrun.
  exists p, w'. split; [reflexivity|].
  exact (order_type_probabilities pow_clamped (tape_of []) faker_demo
           builtin_catalog 1 world0 p w' pow_clamped_unit Hrun).
Defined.

Lemma trade_limits_ranges_witness :
  exists p w', demo_run = Ok p w' /\ TradeLimits_ranges (limits p).
Proof.
  run_ok demo_run p w' Hrun.
  exists p, w'. split; [reflexivity|].
  exact (trade_limits_ranges pow_chord (tape_of []) faker_demo builtin_catalog
           1 world0 p w' Hrun).
Defined.

Lemma email_starts_with_handle_witness :
  exists p w', demo_run = Ok p w' /\
    (exists domain,
       email (identity p) = username (identity p) +:+ "@" +:+ domain) /\
    str_before "@" (email (identity p)) = username (identity p).
Proof.
  run_ok demo_run p w' Hrun.
  exists p, w'. split; [reflexivity|].
  exact (email_starts_with_handle pow_chord (tape_of []) faker_demo builtin_catalog
           1 world0 p w' Hrun).
Defined.

Lemma jitter_keeps_sign_witness :
  (0 <= 0.15)%Q /\ (0.15 <= 1)%Q /\
  exists y w', jitter (tape_of [0.75%Q]) 20 0.15 world0 = Ok y w' /\
    rng_pos w' = S (rng_pos world0) /\
    ((0 <= 20)%Q -> (0 <= y)%Q /\ (y <= 2 * 20)%Q) /\
    ((20 <= 0)%Q -> (2 * 20 <= y)%Q /\ (y <= 0)%Q).
Proof.
  split; [lra|]. split; [lra|].
  apply (jitter_keeps_sign (tape_of [0.75%Q]) 20 0.15 world0); lra.
Defined.

Lemma prepare_aiuser_sheets_headers_witness :
  exists wb' ws_stocks ws_identity ws_holding ws_profile,
    prepare_aiuser_sheets lower_ascii suffix_demo (TICKERS builtin_catalog) demo_disk
      = Some (wb', (ws_stocks, ws_identity, ws_holding, ws_profile)) /\
    sheet_index "Stocks" wb' = Some ws_stocks /\
    sheet_index "Identity" wb' = Some ws_identity /\
    sheet_index "Holding" wb' = Some ws_holding /\
    sheet_index "Profile" wb' = Some ws_profile /\
    sheet_rows "Stocks" wb' = Some [CStr <$> stocks_header] /\
    sheet_rows "Identity" wb' = Some [CStr <$> identity_header] /\
    sheet_rows "Holding" wb'
      = Some [CStr <$> holding_header (TICKERS builtin_catalog)] /\
    sheet_rows "Profile" wb' = Some [CStr <$> profile_header] /\
    (forall n, n ∉ ["Stocks"; "Identity"; "Holding"; "Profile"]%string ->
       get_sheet n wb' = get_sheet n demo_disk) /\
    sheetnames wb' =
      sheetnames demo_disk ++
      filter (fun n => n ∉ sheetnames demo_disk)
             ["Stocks"; "Identity"; "Holding"; "Profile"]%string.
Proof.
  apply (prepare_aiuser_sheets_headers lower_ascii suffix_demo
           (TICKERS builtin_catalog) demo_disk).
  apply titles_usable_check; vm_compute; reflexivity.
Defined.

(** A loaded sheet titled [identity]: the Identity rows go to a new
    sheet, which openpyxl titles with a count, and no sheet is titled
    [Identity]. *)
Example clash_goes_to_a_renamed_sheet :
  sheetnames <$> result_of demo_clash
    = Some ["identity"; "Identity1"; "Holding"; "Profile"]%string /\
  (result_of demo_clash ≫= get_sheet "Identity") = None /\
  (result_of demo_clash ≫= sheet_rows "Identity1")
    = Some [CStr <$> identity_header] /\
  (result_of demo_clash ≫= sheet_rows "identity") = Some [].
Proof. vm_compute. auto. Qed.

(** Titles that [create_sheet] does not take as they are: an empty one
    becomes [Sheet], one with a slash raises. *)
Example create_sheet_titles :
  (fst <$> reset_or_create_sheet lower_ascii suffix_demo EmptyString [])
    = Some [("Sheet"%string, empty_sheet)] /\
  reset_or_create_sheet lower_ascii suffix_demo "a/b" [] = None.
Proof. vm_compute. auto. Qed.

Lemma autofit_columns_widths_witness :
  exists ws',
    autofit_columns float_str_demo date_str_demo 8 40 demo_sheet = Some ws' /\
    ws_rows ws' = ws_rows demo_sheet /\ ws_styles ws' = ws_styles demo_sheet /\
    (forall col, (col = 0 \/ max_column demo_sheet < col)%nat ->
       ws_widths ws' !! col = ws_widths demo_sheet !! col) /\
    (forall col, (1 <= col <= max_column demo_sheet)%nat ->
       exists width L,
         ws_widths ws' !! col = Some width /\
         (forall row, (1 <= row <= max_row demo_sheet)%nat ->
            cell_value demo_sheet row col <> CNone ->
            (String.length (cell_text float_str_demo date_str_demo
                              (cell_value demo_sheet row col)) <= L)%nat) /\
         (L = 0%nat \/ exists row, (1 <= row <= max_row demo_sheet)%nat /\
                        cell_value demo_sheet row col <> CNone /\
                        String.length (cell_text float_str_demo date_str_demo
                                         (cell_value demo_sheet row col)) = L) /\
         (width <= 40)%Q /\
         ((8 <= 40)%Q -> (8 <= width)%Q) /\
         ((8 <= inject_Z (Z.of_nat L + 2))%Q ->
          (inject_Z (Z.of_nat L + 2) <= 40)%Q ->
            width = inject_Z (Z.of_nat L + 2))).
Proof.
  destruct (some_of_bool
              (autofit_columns float_str_demo date_str_demo 8 40 demo_sheet))
    as (ws' & Hfit); [vm_compute; reflexivity|].
  exists ws'. split; [exact Hfit|].
  exact (autofit_columns_widths float_str_demo date_str_demo 8 40 demo_sheet ws' Hfit).
Defined.

Lemma saved_workbook_holds_batch_witness :
  exists wb' w', demo_workbook = Ok wb' w' /\
    exists ps,
      generate_aiuser_excel pow_chord (tape_of []) faker_demo builtin_catalog
        3 3 world0 = Ok ps w' /\
      (forall name rows, (name, rows) ∈ batch_sheets builtin_catalog ps ->
         sheet_rows name wb' = Some rows) /\
      (forall n, n ∉ ["Identity"; "Holding"; "Profile"]%string ->
         get_sheet n wb' = get_sheet n (load_or_create_workbook lower_ascii suffix_demo None)) /\
      sheetnames wb' =
        sheetnames (load_or_create_workbook lower_ascii suffix_demo None) ++
        filter (fun n => n ∉ sheetnames (load_or_create_workbook lower_ascii suffix_demo None))
               ["Identity"; "Holding"; "Profile"]%string.
Proof.
  destruct (returns_of_bool demo_workbook) as (wb' & w' & Hrun);
    [vm_compute; reflexivity|].
  exists wb', w'. split; [exact Hrun|].
  exact (saved_workbook_holds_batch lower_ascii suffix_demo float_str_demo date_str_demo pow_chord
           (tape_of []) faker_demo builtin_catalog None 3 3 world0 wb' w'
           demo_titles_usable Hrun).
Defined.

Lemma saved_rows_aligned_witness :
  exists wb' w', demo_workbook = Ok wb' w' /\
    forall name k, (name, k) ∈ batch_columns builtin_catalog ->
      exists rows,
        sheet_rows name wb' = Some rows /\
        length rows = S (Z.to_nat 3) /\
        (forall row, row ∈ rows -> length row = k) /\
        (forall i, (1 <= i <= Z.to_nat 3)%nat ->
           exists row, rows !! i = Some row /\
                       row !! 0%nat = Some (CInt (Z.of_nat i))).
Proof.
  destruct (returns_of_bool demo_workbook) as (wb' & w' & Hrun);
    [vm_compute; reflexivity|].
  exists wb', w'. split; [exact Hrun|].
  exact (saved_rows_aligned lower_ascii suffix_demo float_str_demo date_str_demo pow_chord
           (tape_of []) faker_demo builtin_catalog None 3 3 world0 wb' w'
           demo_titles_usable Hrun).
Defined.

Lemma workbook_saved_when_batch_completes_witness :
  Z.of_nat (length (TICKERS builtin_catalog)) <= 18256 /\
  match generate_aiuser_excel pow_chord (tape_of []) faker_demo builtin_catalog
          3 3 world0 with
  | Ok ps w' =>
      exists wb', generate_aiuser_excel_wb lower_ascii suffix_demo float_str_demo date_str_demo pow_chord
                    (tape_of []) faker_demo builtin_catalog None 3 3 world0
                  = Ok wb' w'
  | Raise e =>
      generate_aiuser_excel_wb lower_ascii suffix_demo float_str_demo date_str_demo pow_chord
        (tape_of []) faker_demo builtin_catalog None 3 3 world0 = Raise e
  | Spin =>
      generate_aiuser_excel_wb lower_ascii suffix_demo float_str_demo date_str_demo pow_chord
        (tape_of []) faker_demo builtin_catalog None 3 3 world0 = Spin
  end.
Proof.
  split; [simpl; lia|].
  apply (workbook_saved_when_batch_completes lower_ascii suffix_demo
           float_str_demo date_str_demo
           pow_chord (tape_of []) faker_demo builtin_catalog None 3 3 world0).
  simpl. lia.
Defined.

Lemma saved_sheet_layout_witness :
  exists wb' w', demo_workbook = Ok wb' w' /\
    forall name k, (name, k) ∈ batch_columns builtin_catalog ->
      exists ws',
        get_sheet name wb' = Some ws' /\
        max_row ws' = (Z.to_nat 3 + 21)%nat /\
        max_column ws' = (k + 20)%nat /\
        (forall col, (1 <= col <= k + 20)%nat ->
           exists width, ws_widths ws' !! col = Some width /\
             (8 <= width)%Q /\ (width <= 40)%Q /\ ((k < col)%nat -> width = 8%Q)) /\
        (forall c, (1 <= c <= k)%nat ->
           cs_fill (style_at (ws_styles ws') 1 c) = Some HEADER_COLOR) /\
        (forall i c, (1 <= i <= Z.to_nat 3)%nat -> (1 <= c <= k)%nat ->
           cs_fill (style_at (ws_styles ws') (S i) c) =
           Some (if Nat.odd i then ROW_FILL_COLOR else ROW_ALT_FILL_COLOR)) /\
        (forall r c, (1 <= r <= Z.to_nat 3 + 21)%nat -> (1 <= c <= k + 20)%nat ->
           (Z.to_nat 3 + 1 < r \/ k < c)%nat ->
           style_at (ws_styles ws') r c =
           {| cs_fill := Some BACKGROUND_COLOR; cs_font := None;
              cs_border := None |}).
Proof.
  destruct (returns_of_bool demo_workbook) as (wb' & w' & Hrun);
    [vm_compute; reflexivity|].
  exists wb', w'. split; [exact Hrun|].
  exact (saved_sheet_layout lower_ascii suffix_demo float_str_demo date_str_demo pow_chord
           (tape_of []) faker_demo builtin_catalog None 3 3 world0 wb' w'
           demo_titles_usable Hrun).
Defined.

Lemma saved_identity_columns_witness :
  exists wb' w', demo_workbook = Ok wb' w' /\
    exists ws handles,
      get_sheet "Identity" wb' = Some ws /\
      Forall2 (fun row h =>
                 cell_named identity_header row "Username" = Some (CStr h) /\
                 exists domain,
                   cell_named identity_header row "Email"
                   = Some (CStr (h +:+ "@" +:+ domain)))
              (data_rows ws) handles /\
      NoDup handles /\
      (forall h, h ∈ handles ->
         valid_handle h /\ (h ∉ Person_usernames world0)
         /\ h ∈ Person_usernames w').
Proof.
  destruct (returns_of_bool demo_workbook) as (wb' & w' & Hrun);
    [vm_compute; reflexivity|].
  exists wb', w'. split; [exact Hrun|].
  exact (saved_identity_columns lower_ascii suffix_demo float_str_demo date_str_demo pow_chord
           (tape_of []) faker_demo builtin_catalog None 3 3 world0 wb' w'
           demo_titles_usable Hrun).
Defined.

Lemma profile_row_rounded_witness :
  exists p w', demo_run_clamped = Ok p w' /\
    (forall i q, ToProfileList p !! i = Some (CFloat q) -> (0 <= q)%Q /\ (q <= 1)%Q) /\
    (exists a b c,
       cell_named profile_header (ToProfileList p) "MinTradeAmountPrc" = Some (CFloat a) /\
       cell_named profile_header (ToProfileList p) "MaxTradeAmountPrc" = Some (CFloat b) /\
       cell_named profile_header (ToProfileList p) "PerPositionMaxPrc" = Some (CFloat c) /\
       (a <= b)%Q /\ (b <= c)%Q) /\
    (exists a b,
       cell_named profile_header (ToProfileList p) "MinCashReservePrc" = Some (CFloat a) /\
       cell_named profile_header (ToProfileList p) "MaxCashReservePrc" = Some (CFloat b) /\
       (a <= b)%Q) /\
    (exists a b,
       cell_named profile_header (ToProfileList p) "MinLimitOffsetPrc" = Some (CFloat a) /\
       cell_named profile_header (ToProfileList p) "MaxLimitOffsetPrc" = Some (CFloat b) /\
       (a <= b)%Q).
Proof.
  run_ok demo_run_clamped p w' Hrun.
  exists p, w'. split; [reflexivity|].
  exact (profile_row_rounded pow_clamped (tape_of []) faker_demo builtin_catalog
           1 world0 p w' pow_clamped_unit Hrun).
Defined.

Lemma holding_row_faithful_witness :
  exists p w', demo_run = Ok p w' /\
    length (ToHoldingList builtin_catalog p)
    = length (holding_header (TICKERS builtin_catalog)) /\
    ToHoldingList builtin_catalog p !! 0%nat = Some (CInt (pid p)) /\
    ToHoldingList builtin_catalog p !! 1%nat = Some (CInt (balance (portfolio p))) /\
    (forall s shares, holdings (portfolio p) !! s = Some shares ->
       exists i, holding_header (TICKERS builtin_catalog) !! (2 + i)%nat = Some s /\
                 ToHoldingList builtin_catalog p !! (2 + i)%nat = Some (CInt shares)) /\
    (forall i s, holding_header (TICKERS builtin_catalog) !! (2 + i)%nat = Some s ->
       ToHoldingList builtin_catalog p !! (2 + i)%nat =
       Some (CInt (default 0 (holdings (portfolio p) !! s)))).
Proof.
  run_ok demo_run p w' Hrun.
  exists p, w'. split; [reflexivity|].
  exact (holding_row_faithful pow_chord (tape_of []) faker_demo builtin_catalog
           1 world0 p w' Hrun).
Defined.
